(** * df-parallel: the benchmark notebooks, embedded and verified

    The repository holds four benchmark notebooks that share one harness:

    - [2-PandasDataframe.ipynb]
    - [3-DaskDataframe.ipynb]
    - [4-SparkDataframe.ipynb]
    - [6-DaskCudaDataframe.ipynb]

    Each notebook is a fixed sequence of cells.  A cell is embedded as a
    computation in a state-and-exception monad over a [World] (environment
    variables, the data directory, the results directory, the wall clock and
    the trace of effects).  The dataframe calls the cells make (read_csv,
    read_parquet, query, rename, groupby, size, sort_values) are embedded as
    functions on a [DataFrame] of string cells, which is what [dtype=str]
    asks the readers for.

    [1-FetchLocalData.ipynb], which puts the data in place, is embedded
    apart, over a file system of files and directories (module [Fetch]). *)

From Stdlib Require Import ZArith String Ascii Floats Uint63 DecimalString.
From Stdlib Require DecimalPos DecimalZ.
From stdpp Require Import gmap strings list sorting.

(** * Exceptions *)

(** The Python exceptions a run can end with.  Nothing in the notebooks
    catches one: an exception raised in a cell ends the run. *)
Inductive Exception :=
  | FileNotFoundError (path : string)
  | NameError (name : string)
  | KeyError (name : string)
  | ValueError (msg : string)
  | AnalysisException (msg : string).

(** * Dataframes *)

Module Frame.

(** A table: the ordered column labels and the rows, a cell per column.
    Every cell is a string, as the readers of the notebooks are told with
    [dtype=str] and as Spark reads a csv file without a schema.  Missing
    values are not part of the model: gene_info writes ["-"] where it has
    nothing to say. *)
Record DataFrame := mkFrame {
  columns : list string;
  rows : list (list string)
}.

(** A frame is rectangular: every row has one cell per column. *)
Definition rectangular (df : DataFrame) : bool :=
  forallb (λ r, Nat.eqb (length r) (length (columns df))) (rows df).

Definition has_columns (names : list string) (df : DataFrame) : bool :=
  forallb (λ n, bool_decide (n ∈ columns df)) names.
#[global] Arguments has_columns : simpl never.

(** Position of the first column called [name]. *)
Fixpoint index_of (name : string) (cols : list string) : option nat :=
  match cols with
  | [] => None
  | c :: cols' => if decide (c = name) then Some 0 else S <$> index_of name cols'
  end.

(** [row[name]] for a row laid out along [cols]. *)
Definition cell (cols : list string) (r : list string) (name : string) : option string :=
  i ← index_of name cols; r !! i.

(** The cells of [r] under the labels that [usecols] names, in the order
    of the file.  pandas ignores the order of [usecols]. *)
Definition keep (usecols cols : list string) (r : list string) : list string :=
  (filter (λ p, p.1 ∈ usecols) (zip cols r)).*2.

(** The cells of [r] under [names], in the order of [names]. *)
Definition pick (names cols : list string) (r : list string) : list string :=
  (λ n, default "" (cell cols r n)) <$> names.

(** Rows whose cell under [name] is [value]. *)
Definition where_eq (name value : string) (cols : list string)
    (rs : list (list string)) : list (list string) :=
  filter (λ r, cell cols r name = Some value) rs.

(** [df.rename(columns={old: new})], [df.withColumnRenamed(old, new)]:
    a label that is absent is skipped silently. *)
Definition rename (old new : string) (df : DataFrame) : DataFrame :=
  mkFrame ((λ c, if decide (c = old) then new else c) <$> columns df) (rows df).

(** [df[name]]: the cells of one column, top to bottom. *)
Definition column_values (name : string) (df : DataFrame) : list string :=
  (λ r, default "" (cell (columns df) r name)) <$> rows df.

(** [pd.read_csv(f, usecols=usecols, dtype=str, sep="\t")] on a file that
    holds the table [t]: the named columns, in the order of the file; a
    name the header lacks is a ValueError. *)
Definition read_csv (usecols : list string) (t : DataFrame) : Exception + DataFrame :=
  if has_columns usecols t
  then inr (mkFrame (filter (λ c, c ∈ usecols) (columns t))
                    (keep usecols (columns t) <$> rows t))
  else inl (ValueError "Usecols do not match columns").

(** [df.query("name == 'value'")] and [df[df[name] == value]]. *)
Definition query_eq (name value : string) (df : DataFrame) : Exception + DataFrame :=
  if bool_decide (name ∈ columns df)
  then inr (mkFrame (columns df) (where_eq name value (columns df) (rows df)))
  else inl (KeyError name).

(** [pd.read_parquet(f, columns=names, filters=[[(name, "==", value)]])]:
    the predicate is evaluated on the stored table while it is loaded, and
    the named columns of the rows that pass come back in the order asked. *)
Definition read_parquet (names : list string) (filters : string * string)
    (t : DataFrame) : Exception + DataFrame :=
  if has_columns (filters.1 :: names) t
  then inr (mkFrame names
              (pick names (columns t) <$> where_eq filters.1 filters.2 (columns t) (rows t)))
  else inl (KeyError "No match for FieldRef").

(** [df.select(names)] of Spark. *)
Definition select (names : list string) (df : DataFrame) : Exception + DataFrame :=
  if has_columns names df
  then inr (mkFrame names (pick names (columns df) <$> rows df))
  else inl (AnalysisException "UNRESOLVED_COLUMN").

(** [df.filter("name == 'value'")] of Spark. *)
Definition spark_filter (name value : string) (df : DataFrame) : Exception + DataFrame :=
  if bool_decide (name ∈ columns df)
  then inr (mkFrame (columns df) (where_eq name value (columns df) (rows df)))
  else inl (AnalysisException "UNRESOLVED_COLUMN").

(** The rows as records, label to cell: the view of a frame in which the
    order of the columns plays no part. *)
Definition records (df : DataFrame) : list (gmap string string) :=
  (λ r, list_to_map (zip (columns df) r)) <$> rows df.

(** A record cut down to the labels in [names]. *)
Definition restrict (names : list string) (m : gmap string string) : gmap string string :=
  filter (λ kv, kv.1 ∈ names) m.

(** The record has [value] under [name]. *)
Definition field_is (name value : string) (m : gmap string string) : Prop :=
  m !! name = Some value.

#[global] Instance field_is_dec name value m : Decision (field_is name value m).
Proof. unfold field_is. apply _. Defined.

(** One row of the group/count table. *)
Record GroupRow := mkGroup {
  tax_id : string;
  count : nat
}.

(** Number of rows that carry the key [k]. *)
Definition occurrences (keys : list string) (k : string) : nat :=
  length (filter (λ k', k' = k) keys).

(** The group/count table of a list of keys: the distinct keys in
    ascending order, each with the number of rows that carry it. *)
Definition size_by_key (keys : list string) : list GroupRow :=
  (λ k, mkGroup k (occurrences keys k)) <$> merge_sort String.le (remove_dups keys).

(** [df.groupby(key).size().reset_index()], [df.groupBy([key]).count()]. *)
Definition groupby_size (key : string) (df : DataFrame) : Exception + list GroupRow :=
  if bool_decide (key ∈ columns df)
  then inr (size_by_key (column_values key df))
  else inl (KeyError key).

Definition count_ge (a b : GroupRow) : Prop := count b ≤ count a.

#[global] Instance count_ge_dec a b : Decision (count_ge a b).
Proof. unfold count_ge. apply _. Defined.

(** [sort_values("count", ascending=False)], [sort(col("count").desc())].
    The engines promise no order among rows of equal count; the model keeps
    them as they come. *)
Definition sort_values_desc (g : list GroupRow) : list GroupRow :=
  merge_sort count_ge g.

End Frame.

Import Frame.

(** * Python formatting *)

Module Py.

(** [str(n)] for a non-negative integer. *)
Definition str_N (n : N) : string := NilZero.string_of_uint (N.to_uint n).

(** [str(n)], [f"{n}"] for an integer. *)
Definition str_int (n : Z) : string := NilZero.string_of_int (Z.to_int n).

(** Nearest integer to [num / 2^k], ties to even. *)
Definition round_half_even (num : Z) (k : Z) : Z :=
  let den := (2 ^ k)%Z in
  let q := (num / den)%Z in
  let r := (num mod den)%Z in
  match (2 * r ?= den)%Z with
  | Lt => q
  | Gt => (q + 1)%Z
  | Eq => if Z.even q then q else (q + 1)%Z
  end.

(** The number of tenths nearest to [m * 2^e]. *)
Definition tenths (m : positive) (e : Z) : Z :=
  if (0 <=? e)%Z then (10 * Z.pos m * 2 ^ e)%Z
  else round_half_even (10 * Z.pos m) (- e).

(** [f"{x:.1f}"]: the double [x] with one digit after the point, rounded
    correctly from its exact binary value. *)
Definition format_1f (x : float) : string :=
  match Prim2SF x with
  | S754_zero s => (if s then "-" else "") +:+ "0.0"
  | S754_infinity s => if s then "-inf" else "inf"
  | S754_nan => "nan"
  | S754_finite s m e =>
      let t := tenths m e in
      (if s then "-" else "") +:+ str_N (Z.to_N (t / 10)) +:+ "." +:+ str_N (Z.to_N (t mod 10))
  end.

(** [n / 1E9] for a file size [n] (below 2^63 bytes): the integer becomes
    a double, then the doubles are divided. *)
Definition div_1E9 (n : N) : float :=
  PrimFloat.div (PrimFloat.of_uint63 (Uint63.of_Z (Z.of_N n))) 1e9%float.

(** [os.path.join(a, b)] on a POSIX system. *)
Definition path_join (a b : string) : string :=
  if String.prefix "/" b then b
  else if decide (a = "") then b
  else if decide (String.get (String.length a - 1) a = Some "/"%char) then a +:+ b
  else a +:+ "/" +:+ b.

End Py.

(** * The world a notebook runs in *)

(** A data file: its size in bytes, as [os.path.getsize] reports it, and the
    table it stores.  A parquet dataset (a directory of part files) is one
    entry, under the path the readers are given. *)
Record DataFile := mkDataFile {
  st_size : N;
  table : DataFrame
}.

(** The processing context of an engine: [Client(n_workers=..,
    threads_per_worker=..)] of Dask, with [None] for an argument that is
    not given, and the session of Spark, whose master is [Some n] for
    [local[n]] and [None] when the builder is given none. *)
Inductive Context :=
  | DaskClient (n_workers : option Z) (threads_per_worker : option Z)
  | SparkSession (master : option Z) (appName : string).

(** The worker count a context was given explicitly: [n] of
    [Client(n_workers=n)] and of the master [local[n]]; [None] when the
    engine is left to size itself. *)
Definition workers (c : Context) : option Z :=
  match c with
  | DaskClient n _ => n
  | SparkSession m _ => m
  end.

(** The one-row dataframe a run saves, and the file [to_csv(index=False)]
    makes of it: the header line and the rows. *)
Record ResultRow := mkRow {
  r_cores : Z;
  r_time : float;
  r_size : string;
  r_format : string;
  r_dataframe : string
}.

Record ResultFile := mkResultFile {
  header : list string;
  body : list ResultRow
}.

Inductive Event :=
  | EvGetsize (path : string)
  | EvMakedirs (path : string)
  | EvStart (c : Context)
  | EvPrint (line : string)
  | EvRead (path : string)
  | EvCompute
  | EvStop
  | EvToCsv (path : string) (f : ResultFile).

Record World := mkWorld {
  environ : gmap string string;
  data : gmap string DataFile;
  dirs : gset string;
  results : gmap string ResultFile;
  clock : nat → float;
  ticks : nat;
  trace : list Event
}.

Definition log (e : Event) (w : World) : World :=
  mkWorld (environ w) (data w) (dirs w) (results w) (clock w) (ticks w) (trace w ++ [e]).

Definition with_dir (path : string) (w : World) : World :=
  mkWorld (environ w) (data w) ({[path]} ∪ dirs w) (results w) (clock w) (ticks w) (trace w).

Definition with_result (path : string) (f : ResultFile) (w : World) : World :=
  mkWorld (environ w) (data w) (dirs w) (<[path := f]> (results w)) (clock w) (ticks w) (trace w).

Definition tick (w : World) : World :=
  mkWorld (environ w) (data w) (dirs w) (results w) (clock w) (S (ticks w)) (trace w).

(** * The monad of cells *)

Inductive Outcome (A : Type) :=
  | Returned (a : A)
  | Raised (e : Exception).
Arguments Returned {A} a.
Arguments Raised {A} e.

Definition Cell (A : Type) : Type := World → Outcome A * World.

#[global] Instance Cell_ret : MRet Cell := λ A a w, (Returned a, w).

#[global] Instance Cell_bind : MBind Cell := λ A B f m w,
  match m w with
  | (Returned a, w') => f a w'
  | (Raised e, w') => (Raised e, w')
  end.

Definition raise {A} (e : Exception) : Cell A := λ w, (Raised e, w).

Definition emit (e : Event) : Cell unit := λ w, (Returned (), log e w).

Definition lift {A} (r : Exception + A) : Cell A :=
  match r with
  | inr a => mret a
  | inl e => raise e
  end.

(** [os.getenv(name, default=d)] *)
Definition getenv (name d : string) : Cell string :=
  λ w, (Returned (default d (environ w !! name)), w).

(** [os.path.getsize(path)] *)
Definition getsize (path : string) : Cell N :=
  λ w, match data w !! path with
       | Some f => (Returned (st_size f), log (EvGetsize path) w)
       | None => (Raised (FileNotFoundError path), log (EvGetsize path) w)
       end.

(** [os.makedirs(path, exist_ok=True)] *)
Definition makedirs (path : string) : Cell unit :=
  λ w, (Returned (), log (EvMakedirs path) (with_dir path w)).

(** [time.time()] *)
Definition time_time : Cell float :=
  λ w, (Returned (clock w (ticks w)), tick w).

(** [print(line)] *)
Definition print (line : string) : Cell unit := emit (EvPrint line).

(** The table behind [path], for a reader that opens it. *)
Definition open_table (path : string) (missing : Exception) : Cell DataFrame :=
  λ w, match data w !! path with
       | Some f => (Returned (table f), log (EvRead path) w)
       | None => (Raised missing, log (EvRead path) w)
       end.

(** [df.to_csv(os.path.join(dir, name), index=False)] *)
Definition to_csv (dir name : string) (f : ResultFile) : Cell unit :=
  λ w, if bool_decide (dir ∈ dirs w)
       then (Returned (),
             log (EvToCsv (Py.path_join dir name) f) (with_result (Py.path_join dir name) f w))
       else (Raised (FileNotFoundError (Py.path_join dir name)), w).

(** * The notebooks *)

Inductive Notebook := Pandas | Dask | Spark | DaskCuda.

#[global] Instance Notebook_eq_dec : EqDecision Notebook.
Proof. solve_decision. Defined.

(** The value of the [dataframe] column of the result row. *)
Definition dataframe_label (nb : Notebook) : string :=
  match nb with
  | Pandas => "Pandas"
  | Dask => "Dask"
  | Spark => "Spark"
  | DaskCuda => "DaskCuda"
  end.

Definition column_names : list string :=
  ["GeneID"; "Symbol"; "Synonyms"; "description"; "type_of_gene"; "#tax_id"; "chromosome"].

Definition filters : string * string := ("type_of_gene", "protein-coding").

(** What the first code cell leaves bound. *)
Record Setup := mkSetup {
  DATA_DIR : string;
  filename : string;
  file_size : string;
  RESULTS_DIR : string
}.

(** The setup cell, the same in the four notebooks. *)
Definition setup_cell : Cell Setup :=
  DATA_DIR ← getenv "LOCAL_SCRATCH_DIR" "../data";
  let filename := Py.path_join DATA_DIR "gene_info.tsv" in
  n ← getsize filename;
  let file_size := Py.format_1f (Py.div_1E9 n) in
  let RESULTS_DIR := "results" in
  makedirs RESULTS_DIR;;
  mret (mkSetup DATA_DIR filename file_size RESULTS_DIR).

(** The context an engine is started with.  The Pandas notebook has no
    such cell. *)
Definition client_setup (nb : Notebook) (n_cores : Z) : option Context :=
  match nb with
  | Pandas => None
  | Dask | DaskCuda =>
      if bool_decide (0 < n_cores)%Z
      then Some (DaskClient (Some n_cores) (Some 1%Z))
      else Some (DaskClient None None)
  | Spark =>
      if bool_decide (0 < n_cores)%Z
      then Some (SparkSession (Some n_cores) "SparkDataframe")
      else Some (SparkSession None "SparkDataframe")
  end.

Definition client_setup_cell (nb : Notebook) (n_cores : Z) : Cell unit :=
  match client_setup nb n_cores with
  | Some c => emit (EvStart c)
  | None => mret ()
  end.

Definition and_then {A B} (r : Exception + A) (f : A → Exception + B) : Exception + B :=
  match r with
  | inr a => f a
  | inl e => inl e
  end.

(** The assignment to [genes] in the csv branch of the read-data cell. *)
Definition csv_branch (nb : Notebook) (t : DataFrame) : Exception + DataFrame :=
  match nb with
  | Spark => inr t
  | Pandas | Dask | DaskCuda =>
      and_then (read_csv column_names t) (query_eq "type_of_gene" "protein-coding")
  end.

(** The assignment to [genes] in the parquet branch. *)
Definition parquet_branch (nb : Notebook) (t : DataFrame) : Exception + DataFrame :=
  match nb with
  | Spark => inr t
  | Pandas | Dask | DaskCuda => read_parquet column_names filters t
  end.

(** What the cell does to [genes] after the branches and before the
    rename: nothing but in the Spark notebook, which selects and filters
    there. *)
Definition after_branch (nb : Notebook) (genes : DataFrame) : Exception + DataFrame :=
  match nb with
  | Spark =>
      and_then (select column_names genes) (spark_filter "type_of_gene" "protein-coding")
  | Pandas | Dask | DaskCuda => inr genes
  end.

(** The exception of a reader whose path does not exist. *)
Definition missing (nb : Notebook) (path : string) : Exception :=
  match nb with
  | Spark => AnalysisException "PATH_NOT_FOUND"
  | Pandas | Dask | DaskCuda => FileNotFoundError path
  end.

(** The read-data cell.  [genes] is bound by the csv and parquet branches
    only; the statements after the branches run whichever was taken. *)
Definition read_data_cell (nb : Notebook) (s : Setup) (file_format : string) : Cell DataFrame :=
  bound ←
    (if decide (file_format = "csv") then
       let filename := Py.path_join (DATA_DIR s) "gene_info.tsv" in
       t ← open_table filename (missing nb filename);
       genes ← lift (csv_branch nb t);
       mret (filename, Some genes)
     else if decide (file_format = "parquet") then
       let filename := Py.path_join (DATA_DIR s) "gene_info.parquet" in
       t ← open_table filename (missing nb filename);
       genes ← lift (parquet_branch nb t);
       mret (filename, Some genes)
     else
       print "invalid file format";;
       mret (filename s, None));
  print ("Filename: " +:+ bound.1);;
  genes ← match bound.2 with
          | Some genes => mret genes
          | None => raise (NameError "genes")
          end;
  genes ← lift (after_branch nb genes);
  mret (rename "#tax_id" "tax_id" genes).

(** The process-data cell. *)
Definition process_data (genes : DataFrame) : Exception + list GroupRow :=
  and_then (groupby_size "tax_id" genes) (λ groups, inr (sort_values_desc groups)).

(** [groups.compute()], [groups.toPandas()], then [client.close()],
    [spark.stop()]. *)
Definition compute_cell (nb : Notebook) (groups : list GroupRow) : Cell (list GroupRow) :=
  match nb with
  | Pandas => mret groups
  | Dask | Spark | DaskCuda => emit EvCompute;; emit EvStop;; mret groups
  end.

(** The name of the result file. *)
Definition output_file (nb : Notebook) (file_size file_format : string) (n_cores : Z) : string :=
  match nb with
  | Pandas => "2-PandasDataframe_" +:+ file_size +:+ "_" +:+ file_format +:+ "_1.csv"
  | Dask => "3-DaskDataframe_" +:+ file_size +:+ "_" +:+ file_format +:+ "_"
            +:+ Py.str_int n_cores +:+ ".csv"
  | Spark => "4-SparkDataframe_" +:+ file_size +:+ "_" +:+ file_format +:+ "_"
             +:+ Py.str_int n_cores +:+ ".csv"
  | DaskCuda => "6-DaskCudaDataframe_" +:+ file_size +:+ "_" +:+ file_format +:+ "_"
                +:+ Py.str_int n_cores +:+ ".csv"
  end.

(** The value of the [cores] column. *)
Definition cores_of (nb : Notebook) (n_cores : Z) : Z :=
  match nb with
  | Pandas => 1
  | Dask | Spark | DaskCuda => n_cores
  end.

(** [pd.DataFrame([{"cores": .., "time": .., "size": .., "format": ..,
    "dataframe": ..}])] *)
Definition result_frame (nb : Notebook) (n_cores : Z) (elapsed : float)
    (file_size file_format : string) : ResultFile :=
  mkResultFile ["cores"; "time"; "size"; "format"; "dataframe"]
    [mkRow (cores_of nb n_cores) elapsed file_size file_format (dataframe_label nb)].

(** The result-write cell: unguarded in the Pandas notebook, under
    [if n_cores > 0:] in the other three. *)
Definition result_write_cell (nb : Notebook) (s : Setup) (n_cores : Z) (file_format : string)
    (t_start t_end : float) : Cell unit :=
  let write :=
    to_csv (RESULTS_DIR s) (output_file nb (file_size s) file_format n_cores)
      (result_frame nb n_cores (PrimFloat.sub t_end t_start) (file_size s) file_format) in
  match nb with
  | Pandas => write
  | Dask | Spark | DaskCuda => if bool_decide (0 < n_cores)%Z then write else mret ()
  end.

(** The label of the closing line. *)
Definition print_label (nb : Notebook) : string :=
  match nb with
  | Pandas => "Pandas"
  | Dask => "Dask"
  | Spark => "Spark"
  | DaskCuda => "Dask-cuDF"
  end.

(** The cells from the top of the notebook to the second reading of the
    clock.  The cells that only display [groups] change nothing and are
    left out. *)
Definition timed_cells (nb : Notebook) (n_cores : Z) (file_format : string)
    : Cell (Setup * float * float) :=
  s ← setup_cell;
  t_start ← time_time;
  client_setup_cell nb n_cores;;
  genes ← read_data_cell nb s file_format;
  groups ← lift (process_data genes);
  groups ← compute_cell nb groups;
  t_end ← time_time;
  mret (s, t_start, t_end).

(** A run of a notebook from a fresh kernel, cell by cell, with the two
    parameters papermill injects. *)
Definition run (nb : Notebook) (n_cores : Z) (file_format : string) : Cell unit :=
  bound ← timed_cells nb n_cores file_format;
  let '(s, t_start, t_end) := bound in
  result_write_cell nb s n_cores file_format t_start t_end;;
  print (print_label nb +:+ ": " +:+ Py.format_1f (PrimFloat.sub t_end t_start) +:+ " sec.").

(** ** Vocabulary for statements about runs *)

(** The paths a run computes from the environment. *)
Definition data_dir (w : World) : string :=
  default "../data" (environ w !! "LOCAL_SCRATCH_DIR").

Definition tsv_path (w : World) : string := Py.path_join (data_dir w) "gene_info.tsv".

(** The dataset the read-data cell opens for a file format it knows. *)
Definition dataset_name (file_format : string) : option string :=
  if decide (file_format = "csv") then Some "gene_info.tsv"
  else if decide (file_format = "parquet") then Some "gene_info.parquet"
  else None.

Definition input_path (w : World) (file_format : string) : option string :=
  Py.path_join (data_dir w) <$> dataset_name file_format.

(** The branch of the read-data cell that [file_format] selects, and what
    [genes] is bound to just before the rename. *)
Definition branch (nb : Notebook) (file_format : string) (t : DataFrame)
    : Exception + DataFrame :=
  if decide (file_format = "csv") then csv_branch nb t else parquet_branch nb t.

Definition loaded (nb : Notebook) (file_format : string) (t : DataFrame)
    : Exception + DataFrame :=
  and_then (branch nb file_format t) (after_branch nb).

(** The world after the setup cell, and after the cell that starts the
    engine. *)
Definition after_setup (w : World) : World :=
  log (EvMakedirs "results") (with_dir "results" (log (EvGetsize (tsv_path w)) w)).

Definition started (nb : Notebook) (n_cores : Z) (w : World) : World :=
  match client_setup nb n_cores with
  | Some c => log (EvStart c) w
  | None => w
  end.

(** The world when the read-data cell starts. *)
Definition at_read (nb : Notebook) (n_cores : Z) (w : World) : World :=
  started nb n_cores (tick (after_setup w)).

(** The world after [groups] has been materialized and the engine shut
    down. *)
Definition computed (nb : Notebook) (w : World) : World :=
  match nb with
  | Pandas => w
  | Dask | Spark | DaskCuda => log EvStop (log EvCompute w)
  end.

(** The size of a file of [bytes] bytes as the setup cell renders it. *)
Definition size_gb (bytes : N) : string := Py.format_1f (Py.div_1E9 bytes).

(** The events of a run that took the world from [w] to [w']. *)
Definition new_events (w w' : World) : list Event :=
  drop (length (trace w)) (trace w').

Definition is_to_csv (e : Event) : bool :=
  match e with
  | EvToCsv _ _ => true
  | _ => false
  end.

Definition is_read (e : Event) : bool :=
  match e with
  | EvRead _ => true
  | _ => false
  end.

(** The name of a notebook, the [{engine}] of the result file's name. *)
Definition notebook_name (nb : Notebook) : string :=
  match nb with
  | Pandas => "2-PandasDataframe"
  | Dask => "3-DaskDataframe"
  | Spark => "4-SparkDataframe"
  | DaskCuda => "6-DaskCudaDataframe"
  end.

(** Whether the character [c] occurs in [s]. *)
Fixpoint occurs (c : ascii) (s : string) : bool :=
  match s with
  | EmptyString => false
  | String c' s' => bool_decide (c' = c) || occurs c s'
  end.

Definition is_start (e : Event) : bool :=
  match e with
  | EvStart _ => true
  | _ => false
  end.

(** Whether the result-write cell calls [to_csv]. *)
Definition writes (nb : Notebook) (n_cores : Z) : bool :=
  match nb with
  | Pandas => true
  | Dask | Spark | DaskCuda => bool_decide (0 < n_cores)%Z
  end.

(** The closing line of a run. *)
Definition closing_line (nb : Notebook) (t_start t_end : float) : string :=
  print_label nb +:+ ": " +:+ Py.format_1f (PrimFloat.sub t_end t_start) +:+ " sec.".

(** Every event that [m] adds to the trace satisfies [P]. *)
Definition emits {A} (P : Event → Prop) (m : Cell A) : Prop :=
  ∀ w, ∃ evs, trace (m w).2 = trace w ++ evs ∧ Forall P evs.

(** Any event but the writing of a result file. *)
Definition not_to_csv (e : Event) : Prop := is_to_csv e = false.

(** Any event but the start of an engine and the writing of a result
    file. *)
Definition downstream (e : Event) : Prop := is_start e = false ∧ is_to_csv e = false.

(** The configurations the harness is meant for: a core count that is not
    negative, one of the two file formats, the tsv file in place, and the
    dataset of the chosen format in place with the columns the notebooks
    name. *)
Definition valid_configuration (n_cores : Z) (file_format : string) (w : World) : Prop :=
  (0 ≤ n_cores)%Z
  ∧ (file_format = "csv" ∨ file_format = "parquet")
  ∧ is_Some (data w !! tsv_path w)
  ∧ ∃ path fi, input_path w file_format = Some path
               ∧ data w !! path = Some fi
               ∧ has_columns column_names (table fi) = true.

(** * A sample world *)

Module Sample.

(** A cut of gene_info with its header. *)
Definition gene_info : DataFrame :=
  mkFrame
    ["#tax_id"; "GeneID"; "Symbol"; "LocusTag"; "Synonyms"; "dbXrefs"; "chromosome";
     "map_location"; "description"; "type_of_gene"]
    [ ["9606"; "1"; "A1BG"; "-"; "A1B|ABG"; "MIM:138670"; "19"; "19q13.43";
       "alpha-1-B glycoprotein"; "protein-coding"];
      ["9606"; "3"; "A2MP1"; "-"; "A2MP"; "HGNC:8"; "12"; "12p13.31";
       "alpha-2-macroglobulin pseudogene 1"; "pseudo"];
      ["10090"; "11287"; "Pzp"; "-"; "A1m|MAM"; "MGI:87854"; "6"; "6 F3";
       "PZP alpha-2-macroglobulin like"; "protein-coding"];
      ["9606"; "9"; "NAT1"; "-"; "AAC1"; "MIM:108345"; "8"; "8p22";
       "N-acetyltransferase 1"; "protein-coding"];
      ["7227"; "30970"; "CG3038"; "Dmel_CG3038"; "-"; "FLYBASE:FBgn0040373"; "X"; "1A1";
       "uncharacterized protein"; "protein-coding"];
      ["10090"; "11298"; "Aanat"; "-"; "Nat4|Snat"; "MGI:1328365"; "11"; "11 E2";
       "arylalkylamine N-acetyltransferase"; "protein-coding"];
      ["9606"; "10"; "NAT2"; "-"; "AAC2"; "MIM:612182"; "8"; "8p22";
       "N-acetyltransferase 2"; "protein-coding"] ].

(** [genes] as the Dask notebook has it after the read-data cell. *)
Definition genes : DataFrame :=
  Eval vm_compute in
    match and_then (csv_branch Dask gene_info) (after_branch Dask) with
    | inr g => rename "#tax_id" "tax_id" g
    | inl _ => mkFrame [] []
    end.

Definition tsv : DataFile := mkDataFile 6512345678 gene_info.
Definition parquet : DataFile := mkDataFile 1400000000 gene_info.

Definition wall (n : nat) : float :=
  match n with
  | 0 => 1686000000.25%float
  | _ => 1686000042.75%float
  end.

(** Both datasets in the default data directory, nothing written yet. *)
Definition world : World :=
  mkWorld ∅
    (<["../data/gene_info.tsv" := tsv]> (<["../data/gene_info.parquet" := parquet]> ∅))
    ∅ ∅ wall 0 [].

(** The same, the tsv file a few megabytes larger. *)
Definition tsv_grown : DataFile := mkDataFile 6540000000 gene_info.

Definition world_grown : World :=
  mkWorld ∅
    (<["../data/gene_info.tsv" := tsv_grown]>
       (<["../data/gene_info.parquet" := parquet]> ∅))
    ∅ ∅ wall 0 [].

(** A data directory whose tsv file has the size of [tsv] and nothing in
    it that a reader could use, next to the parquet dataset. *)
Definition tsv_blank : DataFile := mkDataFile 6512345678 (mkFrame [] []).

Definition data_blank_tsv : gmap string DataFile :=
  <["../data/gene_info.tsv" := tsv_blank]> (<["../data/gene_info.parquet" := parquet]> ∅).

(** Only the parquet dataset is there. *)
Definition world_no_tsv : World :=
  mkWorld ∅ (<["../data/gene_info.parquet" := parquet]> ∅) ∅ ∅ wall 0 [].

(** Only the tsv file is there. *)
Definition world_no_parquet : World :=
  mkWorld ∅ (<["../data/gene_info.tsv" := tsv]> ∅) ∅ ∅ wall 0 [].

End Sample.

(** * The display cells *)

Module Display.

(** [groups.query("tax_id == '9606'")], [groups[groups["tax_id"] == "9606"]]:
    the rows of the group/count table under one taxonomy id. *)
Definition query_tax_id (value : string) (groups : list GroupRow) : list GroupRow :=
  filter (λ g, tax_id g = value) groups.

(** [groups.head()]: the first five rows. *)
Definition head (groups : list GroupRow) : list GroupRow := take 5 groups.

End Display.

(** ** Vocabulary for statements about the whole pipeline *)

(** [groups] as a notebook computes it from the stored table [t]: the
    read-data cell, then the process-data cell. *)
Definition groups_of (nb : Notebook) (file_format : string) (t : DataFrame)
    : Exception + list GroupRow :=
  and_then (loaded nb file_format t)
    (λ genes, process_data (rename "#tax_id" "tax_id" genes)).

(** The rows of the stored table that are protein-coding genes of the
    taxonomy id [k]. *)
Definition coding_rows (k : string) (t : DataFrame) : list (list string) :=
  filter (λ r, cell (columns t) r "type_of_gene" = Some "protein-coding"
               ∧ cell (columns t) r "#tax_id" = Some k) (rows t).

(** The labels of [genes] after the read-data cell, in the order asked. *)
Definition genes_columns : list string :=
  ["GeneID"; "Symbol"; "Synonyms"; "description"; "type_of_gene"; "tax_id"; "chromosome"].

(** ** A run, case by case *)

(** What a run comes to, read off the data directory: the outcome and the
    world it leaves, for each way the cells can go. *)
Definition run_cases (nb : Notebook) (n_cores : Z) (file_format : string) (w : World)
    : Outcome unit * World :=
  match data w !! tsv_path w with
  | None => (Raised (FileNotFoundError (tsv_path w)), log (EvGetsize (tsv_path w)) w)
  | Some f =>
      let w0 := at_read nb n_cores w in
      match input_path w file_format with
      | None =>
          (Raised (NameError "genes"),
           log (EvPrint ("Filename: " +:+ tsv_path w)) (log (EvPrint "invalid file format") w0))
      | Some path =>
          match data w !! path with
          | None => (Raised (missing nb path), log (EvRead path) w0)
          | Some fi =>
              match branch nb file_format (table fi) with
              | inl e => (Raised e, log (EvRead path) w0)
              | inr g0 =>
                  let w1 := log (EvPrint ("Filename: " +:+ path)) (log (EvRead path) w0) in
                  match and_then (after_branch nb g0)
                          (λ g, process_data (rename "#tax_id" "tax_id" g)) with
                  | inl e => (Raised e, w1)
                  | inr groups =>
                      let w2 := tick (computed nb w1) in
                      let t_start := clock w (ticks w) in
                      let t_end := clock w (S (ticks w)) in
                      let closing := EvPrint (closing_line nb t_start t_end) in
                      if writes nb n_cores then
                        let p := Py.path_join "results"
                                   (output_file nb (size_gb (st_size f)) file_format n_cores) in
                        let rf := result_frame nb n_cores (PrimFloat.sub t_end t_start)
                                    (size_gb (st_size f)) file_format in
                        (Returned (), log closing (log (EvToCsv p rf) (with_result p rf w2)))
                      else (Returned (), log closing w2)
                  end
              end
          end
      end
  end.

(** The events of the cell that starts the engine, and of the cells that
    materialize [groups] and shut the engine down. *)
Definition start_events (nb : Notebook) (n_cores : Z) : list Event :=
  match client_setup nb n_cores with
  | Some c => [EvStart c]
  | None => []
  end.

Definition stop_events (nb : Notebook) : list Event :=
  match nb with
  | Pandas => []
  | Dask | Spark | DaskCuda => [EvCompute; EvStop]
  end.

(** The world [w] with another data directory. *)
Definition with_data (d : gmap string DataFile) (w : World) : World :=
  mkWorld (environ w) d (dirs w) (results w) (clock w) (ticks w) (trace w).

Definition is_stop (e : Event) : bool :=
  match e with
  | EvStop => true
  | _ => false
  end.

(** The lines a list of events printed, in order. *)
Definition printed (evs : list Event) : list string :=
  omap (λ e, match e with EvPrint line => Some line | _ => None end) evs.

(** * The notebook that fetches the data *)

(** [1-FetchLocalData.ipynb] unpacks the archive of gene_info into the data
    directory and copies the parquet dataset next to it.  Its cells are
    embedded over a file system: a map from a path, spelled as the notebook
    spells it, to the file or the directory there.  Links, permissions and a
    full disk are left out. *)
Module Fetch.

(** The exceptions a cell of this notebook can end with. *)
Inductive Error :=
  | FileNotFoundError (path : string)
  | FileExistsError (path : string)
  | IsADirectoryError (path : string)
  | NotADirectoryError (path : string)
  | GzipError (msg : string)
  | ShutilError (errors : list (string * string)).

(** A regular file with its bytes, or a directory with the names of its
    entries in the order a scan gives them. *)
Inductive Node :=
  | File (content : list Byte.byte)
  | Dir (names : list string).

Abbreviation Files := (gmap string Node).

Definition is_file (n : Node) : bool :=
  match n with
  | File _ => true
  | Dir _ => false
  end.

Definition is_directory (n : Node) : bool :=
  match n with
  | File _ => false
  | Dir _ => true
  end.

(** [os.path.isdir(path)] *)
Definition is_dir (m : Files) (path : string) : bool :=
  match m !! path with
  | Some (Dir _) => true
  | _ => false
  end.

(** [os.path.basename(p)]: what follows the last slash. *)
Fixpoint basename (p : string) : string :=
  match p with
  | EmptyString => EmptyString
  | String c p' =>
      if occurs "/" p' then basename p'
      else if bool_decide (c = "/"%char) then p' else p
  end.

(** Whether [path] names an entry of the directory at [k]. *)
Definition child_of (path k : string) : bool :=
  bool_decide (basename path ≠ "" ∧ Py.path_join k (basename path) = path).

(** What is at [k], once there is something at [path]: a directory that
    [path] is an entry of lists its name. *)
Definition enter (path k : string) (n : Node) : Node :=
  match n with
  | Dir names =>
      if child_of path k && bool_decide (basename path ∉ names)
      then Dir (names ++ [basename path])
      else n
  | File _ => n
  end.

(** A new file or directory at [path]. *)
Definition place (path : string) (n : Node) (m : Files) : Files :=
  <[path := n]> (map_imap (λ k n', Some (enter path k n')) m).

(** What there is at the paths that [path] is an entry of. *)
Definition parents (path : string) (m : Files) : list Node :=
  (filter (λ kn, child_of path kn.1 = true) (map_to_list m)).*2.

(** [os.makedirs(path, exist_ok=True)]; of the directories it makes on the
    way, the last is recorded. *)
Definition makedirs_exist_ok (path : string) (m : Files) : Error + Files :=
  match m !! path with
  | Some (Dir _) => inr m
  | Some (File _) => inl (FileExistsError path)
  | None =>
      if decide (path = "") then inl (FileNotFoundError path)
      else if existsb is_file (parents path m) then inl (NotADirectoryError path)
      else inr (place path (Dir []) m)
  end.

(** [os.makedirs(path)] *)
Definition makedirs (path : string) (m : Files) : Error + Files :=
  match m !! path with
  | Some _ => inl (FileExistsError path)
  | None =>
      if decide (path = "") then inl (FileNotFoundError path)
      else if existsb is_file (parents path m) then inl (NotADirectoryError path)
      else inr (place path (Dir []) m)
  end.

(** [open(path, "wb")]: the file is there and empty afterwards. *)
Definition open_wb (path : string) (m : Files) : Error + Files :=
  match m !! path with
  | Some (Dir _) => inl (IsADirectoryError path)
  | Some (File _) => inr (<[path := File []]> m)
  | None =>
      if existsb is_file (parents path m) then inl (NotADirectoryError path)
      else if existsb is_directory (parents path m) then inr (place path (File []) m)
      else inl (FileNotFoundError path)
  end.

(** How a call ends: with a value, with an exception, or not within the
    depth the model was given. *)
Inductive Result (A : Type) :=
  | Done (a : A)
  | Failed (e : Error)
  | OutOfFuel.
Arguments Done {A} a.
Arguments Failed {A} e.
Arguments OutOfFuel {A}.

(** ** [shutil.copytree] *)

(** One entry of the loop of [_copytree]: what the scan found to be a
    directory is copied by [copytree], anything else by [copy2], which
    writes into [dstname] if that is a directory; an exception is not
    raised but added to [errors]. *)
Definition copy_entry (copytree : string → string → Files → Result unit * Files)
    (src dst : string) (acc : Result (list (string * string)) * Files)
    (entry : string * bool) : Result (list (string * string)) * Files :=
  match acc with
  | (Done errors, m) =>
      let srcname := Py.path_join src entry.1 in
      let dstname := Py.path_join dst entry.1 in
      if entry.2 then
        match copytree srcname dstname m with
        | (Done _, m') => (Done errors, m')
        | (Failed (ShutilError errs), m') => (Done (errors ++ errs), m')
        | (Failed _, m') => (Done (errors ++ [(srcname, dstname)]), m')
        | (OutOfFuel, m') => (OutOfFuel, m')
        end
      else
        match m !! srcname with
        | Some (File content) =>
            let target :=
              if is_dir m dstname then Py.path_join dstname (basename srcname) else dstname in
            match open_wb target m with
            | inr m' => (Done errors, <[target := File content]> m')
            | inl _ => (Done (errors ++ [(srcname, dstname)]), m)
            end
        | _ => (Done (errors ++ [(srcname, dstname)]), m)
        end
  | _ => acc
  end.

(** [shutil.copytree(src, dst)]: scan [src], make [dst], copy the entries,
    then raise what went wrong on the way.  [fuel] bounds how many
    directories deep the copy goes; [OutOfFuel] tells that the bound was
    met, which is no outcome of the Python code. *)
Fixpoint copytree (fuel : nat) (src dst : string) (m : Files) : Result unit * Files :=
  match fuel with
  | 0 => (OutOfFuel, m)
  | S fuel =>
      match m !! src with
      | None => (Failed (FileNotFoundError src), m)
      | Some (File _) => (Failed (NotADirectoryError src), m)
      | Some (Dir names) =>
          let entries := (λ name, (name, is_dir m (Py.path_join src name))) <$> names in
          match makedirs dst m with
          | inl e => (Failed e, m)
          | inr m1 =>
              match foldl (copy_entry (copytree fuel) src dst) (Done [], m1) entries with
              | (Done [], m2) => (Done (), m2)
              | (Done errors, m2) => (Failed (ShutilError errors), m2)
              | (Failed e, m2) => (Failed e, m2)
              | (OutOfFuel, m2) => (OutOfFuel, m2)
              end
          end
      end
  end.

(** ** [os.walk] *)

(** [os.walk(top)], top down: for each directory its path, the names of the
    directories in it and the names of everything else in it.  A [top] that
    is no directory gives nothing.  [None] tells that the tree goes deeper
    than [fuel]. *)
Fixpoint walk (fuel : nat) (m : Files) (top : string)
    : option (list (string * list string * list string)) :=
  match fuel with
  | 0 => None
  | S fuel =>
      match m !! top with
      | Some (Dir names) =>
          let dirs := filter (λ name, is_dir m (Py.path_join top name) = true) names in
          let nondirs := filter (λ name, is_dir m (Py.path_join top name) = false) names in
          below ← mapM (λ name, walk fuel m (Py.path_join top name)) dirs;
          Some ((top, dirs, nondirs) :: concat below)
      | _ => Some []
      end
  end.

(** ** The cells *)

Record Disk := mkDisk {
  env : gmap string string;
  home : string;
  fs : Files;
  stdout : list string
}.

Definition with_fs (m : Files) (d : Disk) : Disk := mkDisk (env d) (home d) m (stdout d).

Definition Step (A : Type) : Type := Disk → Result A * Disk.

#[global] Instance Step_ret : MRet Step := λ A a d, (Done a, d).

#[global] Instance Step_bind : MBind Step := λ A B f s d,
  match s d with
  | (Done a, d') => f a d'
  | (Failed e, d') => (Failed e, d')
  | (OutOfFuel, d') => (OutOfFuel, d')
  end.

(** A call that changes the file system or raises. *)
Definition change (f : Files → Error + Files) : Step unit := λ d,
  match f (fs d) with
  | inr m => (Done (), with_fs m d)
  | inl e => (Failed e, d)
  end.

Definition getenv (name fallback : string) : Step string := λ d,
  (Done (default fallback (env d !! name)), d).

Definition path_home : Step string := λ d, (Done (home d), d).

Definition print (line : string) : Step unit := λ d,
  (Done (), mkDisk (env d) (home d) (fs d) (stdout d ++ [line])).

Definition shutil_copytree (fuel : nat) (src dst : string) : Step unit := λ d,
  let '(r, m) := copytree fuel src dst (fs d) in (r, with_fs m d).

Definition os_walk (fuel : nat) (top : string)
    : Step (list (string * list string * list string)) := λ d,
  match walk fuel (fs d) top with
  | Some walked => (Done walked, d)
  | None => (OutOfFuel, d)
  end.

Section Sizes.

(** The size that the file system reports for a directory. *)
Variable dir_size : string → N.

(** [os.path.getsize(path)] *)
Definition getsize (path : string) : Step N := λ d,
  match fs d !! path with
  | Some (File content) => (Done (N.of_nat (length content)), d)
  | Some (Dir _) => (Done (dir_size path), d)
  | None => (Failed (FileNotFoundError path), d)
  end.

(** [for f in files: fp = os.path.join(path, f); file_size +=
    os.path.getsize(fp)] *)
Fixpoint add_sizes (path : string) (files : list string) (file_size : N) : Step N :=
  match files with
  | [] => mret file_size
  | f :: files =>
      let fp := Py.path_join path f in
      n ← getsize fp;
      add_sizes path files (file_size + n)%N
  end.

(** [for path, dirs, files in os.walk(filename_out): ...] *)
Fixpoint walk_sizes (walked : list (string * list string * list string)) (file_size : N)
    : Step N :=
  match walked with
  | [] => mret file_size
  | (path, _, files) :: walked =>
      file_size ← add_sizes path files file_size;
      walk_sizes walked file_size
  end.

(** The cell that adds up the sizes of the files of the parquet dataset. *)
Definition directory_size (fuel : nat) (top : string) : Step N :=
  walked ← os_walk fuel top;
  walk_sizes walked 0%N.

(** What [gzip] reads from the bytes of a file: the bytes it delivers, and
    the message of the exception it then raises, if it raises. *)
Variable gunzip : list Byte.byte → list Byte.byte * option string.

(** [unzip(filename_in, filename_out)]: [gzip.open] opens the archive,
    [open(.., "wb")] empties the output, [copyfileobj] then reads and
    writes. *)
Definition unzip (filename_in filename_out : string) : Step unit := λ d,
  match fs d !! filename_in with
  | None => (Failed (FileNotFoundError filename_in), d)
  | Some (Dir _) => (Failed (IsADirectoryError filename_in), d)
  | Some (File _) =>
      match open_wb filename_out (fs d) with
      | inl e => (Failed e, d)
      | inr m =>
          let packed := match m !! filename_in with Some (File content) => content | _ => [] end in
          let d' := with_fs (<[filename_out := File (gunzip packed).1]> m) d in
          match (gunzip packed).2 with
          | None => (Done (), d')
          | Some msg => (Failed (GzipError msg), d')
          end
      end
  end.

(** The notebook, cell by cell; [fuel] is the depth given to [copytree] and
    [os.walk]. *)
Definition notebook (fuel : nat) : Step unit :=
  DATA_DIR ← getenv "LOCAL_SCRATCH_DIR" "../data";
  change (makedirs_exist_ok DATA_DIR);;
  user ← path_home;
  let filename_in := Py.path_join user "data/gene_info.gz" in
  let filename_out := Py.path_join DATA_DIR "gene_info.tsv" in
  print ("unzipping " +:+ filename_in +:+ " to " +:+ filename_out);;
  unzip filename_in filename_out;;
  file_size ← getsize filename_out;
  print ("File Size: " +:+ size_gb file_size +:+ " GB");;
  let filename_in := Py.path_join user "data/gene_info.parquet" in
  let filename_out := Py.path_join DATA_DIR "gene_info.parquet" in
  shutil_copytree fuel filename_in filename_out;;
  file_size ← directory_size fuel filename_out;
  print ("Filename: " +:+ filename_out);;
  print ("File Size: " +:+ size_gb file_size +:+ " GB").

End Sizes.

(** The paths the notebook computes. *)
Definition data_dir (d : Disk) : string := default "../data" (env d !! "LOCAL_SCRATCH_DIR").

Definition archive (d : Disk) : string := Py.path_join (home d) "data/gene_info.gz".

Definition tsv_out (d : Disk) : string := Py.path_join (data_dir d) "gene_info.tsv".

Definition parquet_in (d : Disk) : string := Py.path_join (home d) "data/gene_info.parquet".

Definition parquet_out (d : Disk) : string := Py.path_join (data_dir d) "gene_info.parquet".

Definition with_stdout (lines : list string) (d : Disk) : Disk :=
  mkDisk (env d) (home d) (fs d) lines.

(** What the notebook comes to, read off the file system: how it ends and
    the disk it leaves, for each way the cells can go. *)
Definition notebook_cases (dir_size : string → N)
    (gunzip : list Byte.byte → list Byte.byte * option string) (fuel : nat) (d : Disk)
    : Result unit * Disk :=
  match makedirs_exist_ok (data_dir d) (fs d) with
  | inl e => (Failed e, d)
  | inr m1 =>
      let out1 :=
        stdout d ++ ["unzipping " +:+ archive d +:+ " to " +:+ tsv_out d] in
      match m1 !! archive d with
      | None => (Failed (FileNotFoundError (archive d)), with_stdout out1 (with_fs m1 d))
      | Some (Dir _) => (Failed (IsADirectoryError (archive d)), with_stdout out1 (with_fs m1 d))
      | Some (File _) =>
          match open_wb (tsv_out d) m1 with
          | inl e => (Failed e, with_stdout out1 (with_fs m1 d))
          | inr m2 =>
              let packed :=
                match m2 !! archive d with Some (File content) => content | _ => [] end in
              let m3 := <[tsv_out d := File (gunzip packed).1]> m2 in
              match (gunzip packed).2 with
              | Some msg => (Failed (GzipError msg), with_stdout out1 (with_fs m3 d))
              | None =>
                  let out2 :=
                    out1 ++ ["File Size: "
                             +:+ size_gb (N.of_nat (length (gunzip packed).1)) +:+ " GB"] in
                  match copytree fuel (parquet_in d) (parquet_out d) m3 with
                  | (Failed e, m4) => (Failed e, with_stdout out2 (with_fs m4 d))
                  | (OutOfFuel, m4) => (OutOfFuel, with_stdout out2 (with_fs m4 d))
                  | (Done _, m4) =>
                      let d4 := with_stdout out2 (with_fs m4 d) in
                      match directory_size dir_size fuel (parquet_out d) d4 with
                      | (Failed e, _) => (Failed e, d4)
                      | (OutOfFuel, _) => (OutOfFuel, d4)
                      | (Done file_size, _) =>
                          (Done (),
                           with_stdout
                             (out2 ++ ["Filename: " +:+ parquet_out d;
                                       "File Size: " +:+ size_gb file_size +:+ " GB"]) d4)
                      end
                  end
              end
          end
      end
  end.

(** ** Directory trees *)

(** A directory tree: what a file system holds at one path and below. *)
#[warnings="-register-all"]
Inductive Tree :=
  | Leaf (name : string) (content : list Byte.byte)
  | Branch (name : string) (entries : list Tree).

Definition name (t : Tree) : string :=
  match t with
  | Leaf name _ => name
  | Branch name _ => name
  end.

(** The file system holds the tree [t] at [path]. *)
Fixpoint represents (m : Files) (path : string) (t : Tree) : Prop :=
  match t with
  | Leaf _ content => m !! path = Some (File content)
  | Branch _ entries =>
      m !! path = Some (Dir (name <$> entries))
      ∧ foldr (λ c rest, represents m (Py.path_join path (name c)) c ∧ rest) True entries
  end.

(** The bytes of the regular files of a tree, at any depth. *)
Fixpoint total (t : Tree) : N :=
  match t with
  | Leaf _ content => N.of_nat (length content)
  | Branch _ entries => foldr (λ c rest, (total c + rest)%N) 0%N entries
  end.

(** How many directories deep a tree goes. *)
Fixpoint depth (t : Tree) : nat :=
  match t with
  | Leaf _ _ => 0
  | Branch _ entries => S (foldr (λ c rest, depth c `max` rest) 0 entries)
  end.

(** The paths of a tree that is at [path]. *)
Fixpoint paths (path : string) (t : Tree) : list string :=
  match t with
  | Leaf _ _ => [path]
  | Branch _ entries =>
      path :: foldr (λ c rest, paths (Py.path_join path (name c)) c ++ rest) [] entries
  end.

(** The paths below a directory at [path] with the entries [entries]. *)
Definition entries_paths (path : string) (entries : list Tree) : list string :=
  foldr (λ c rest, paths (Py.path_join path (name c)) c ++ rest) [] entries.

(** The entries of a tree that is at [path], each with the path of the
    directory it is in and its name. *)
Fixpoint edges (path : string) (t : Tree) : list (string * string) :=
  match t with
  | Leaf _ _ => []
  | Branch _ entries =>
      foldr (λ c rest, (path, name c) :: edges (Py.path_join path (name c)) c ++ rest)
        [] entries
  end.

Definition entries_edges (path : string) (entries : list Tree) : list (string * string) :=
  foldr (λ c rest, (path, name c) :: edges (Py.path_join path (name c)) c ++ rest) [] entries.

(** What is at [k], once there is something at each of [qs]. *)
Definition entered (qs : list string) (k : string) (n : Node) : Node :=
  foldl (λ n q, enter q k n) n qs.

(** The copy of the tree [t] from [src] to [dst] meets nothing on its way:
    [dst] is a path; the paths of the copy are distinct and nothing is at
    any of them; every name is what [basename] gives back of the path
    joined with it; of the paths of the two trees, a path of the copy is an
    entry of its own directory only; and no regular file is where a
    directory of the copy would have to be. *)
Definition apart (m : Files) (src dst : string) (t : Tree) : Prop :=
  dst ≠ ""
  ∧ NoDup (paths dst t)
  ∧ Forall (λ q, m !! q = None) (paths dst t)
  ∧ Forall (λ e, e.2 ≠ "" ∧ basename (Py.path_join e.1 e.2) = e.2) (edges dst t)
  ∧ Forall (λ k, child_of dst k = false
                 ∧ Forall (λ e, k = e.1 ∨ child_of (Py.path_join e.1 e.2) k = false)
                     (edges dst t))
      (paths src t ++ paths dst t)
  ∧ map_Forall (λ k n, is_file n = true → Forall (λ q, child_of q k = false) (paths dst t)) m.

#[global] Instance apart_dec m src dst t : Decision (apart m src dst t).
Proof. unfold apart. apply _. Defined.

(** A disk that is ready for the notebook to copy the dataset [t]: the data
    directory is there or can be made; [gene_info.tsv] can be written
    there; neither of the two is part of the dataset or of its copy, or
    where a directory of the copy would have to be; and the copy meets
    nothing on its way. *)
Definition ready (d : Disk) (t : Tree) : Prop :=
  (is_dir (fs d) (data_dir d) = true
   ∨ fs d !! data_dir d = None ∧ data_dir d ≠ ""
     ∧ existsb is_file (parents (data_dir d) (fs d)) = false)
  ∧ is_dir (fs d) (tsv_out d) = false
  ∧ existsb is_file (parents (tsv_out d) (fs d)) = false
  ∧ Forall (λ k, k ≠ data_dir d ∧ k ≠ tsv_out d
                 ∧ child_of (data_dir d) k = false ∧ child_of (tsv_out d) k = false)
      (paths (parquet_in d) t)
  ∧ Forall (λ q, q ≠ data_dir d ∧ q ≠ tsv_out d ∧ child_of q (tsv_out d) = false)
      (paths (parquet_out d) t)
  ∧ apart (fs d) (parquet_in d) (parquet_out d) t.

#[global] Instance ready_dec d t : Decision (ready d t).
Proof. unfold ready. apply _. Defined.

End Fetch.

(** * A sample disk *)

Module FetchSample.

(** A stand-in for gzip: the two magic bytes, then the payload as it is. *)
Definition gunzip (packed : list Byte.byte) : list Byte.byte * option string :=
  match packed with
  | Byte.x1f :: Byte.x8b :: payload => (payload, None)
  | _ => ([], Some "Not a gzipped file")
  end.

Definition dir_size (path : string) : N := 4096.

(** The file system with the tree [t] written at [path]. *)
Fixpoint store (path : string) (t : Fetch.Tree) (m : gmap string Fetch.Node)
    : gmap string Fetch.Node :=
  match t with
  | Fetch.Leaf _ content => <[path := Fetch.File content]> m
  | Fetch.Branch _ entries =>
      <[path := Fetch.Dir (Fetch.name <$> entries)]>
        (foldr (λ c rest, store (Py.path_join path (Fetch.name c)) c rest) m entries)
  end.

Definition tsv : list Byte.byte :=
  [Byte.x23; Byte.x74; Byte.x61; Byte.x78; Byte.x5f; Byte.x69; Byte.x64; Byte.x0a].

Definition part : list Byte.byte := [Byte.x50; Byte.x41; Byte.x52; Byte.x31].

(** A parquet dataset in two partitions. *)
Definition parquet : Fetch.Tree :=
  Fetch.Branch "gene_info.parquet"
    [ Fetch.Leaf "_common_metadata" (part ++ part);
      Fetch.Branch "type_of_gene=protein-coding"
        [Fetch.Leaf "part.0.parquet" (part ++ part ++ part); Fetch.Leaf "part.1.parquet" part];
      Fetch.Branch "type_of_gene=pseudo" [Fetch.Leaf "part.0.parquet" (part ++ part)] ].

(** The home directory holds the archive and the parquet dataset; there is
    no data directory yet. *)
Definition disk : Fetch.Disk :=
  Fetch.mkDisk ∅ "/home/user"
    (store "/home/user/data/gene_info.parquet" parquet
       (<["/home/user/data/gene_info.gz" := Fetch.File (Byte.x1f :: Byte.x8b :: tsv)]> ∅))
    [].

(** A disk with an earlier tsv file in the data directory and, for an
    archive, a file that is no gzip stream. *)
Definition disk_bad_archive : Fetch.Disk :=
  Fetch.mkDisk ∅ "/home/user"
    (<["/home/user/data/gene_info.gz" := Fetch.File tsv]>
       (<["../data" := Fetch.Dir ["gene_info.tsv"]]>
          (<["../data/gene_info.tsv" := Fetch.File tsv]> ∅)))
    [].

(** The data directory with the copy of the dataset in it. *)
Definition fetched : Fetch.Disk :=
  Fetch.mkDisk ∅ "/home/user" (store "../data/gene_info.parquet" parquet ∅) [].

End FetchSample.

(** * Checks of the embedding on concrete inputs *)

Example fetch_demo :
  let d := (Fetch.notebook FetchSample.dir_size FetchSample.gunzip 3 FetchSample.disk).2 in
  Fetch.fs d !! "../data" = Some (Fetch.Dir ["gene_info.tsv"; "gene_info.parquet"])
  ∧ Fetch.fs d !! "../data/gene_info.tsv" = Some (Fetch.File FetchSample.tsv)
  ∧ Fetch.fs d !! "../data/gene_info.parquet/type_of_gene=pseudo"
    = Some (Fetch.Dir ["part.0.parquet"])
  ∧ Fetch.walk 3 (Fetch.fs d) "../data/gene_info.parquet"
    = Some [("../data/gene_info.parquet",
             ["type_of_gene=protein-coding"; "type_of_gene=pseudo"], ["_common_metadata"]);
            ("../data/gene_info.parquet/type_of_gene=protein-coding", [],
             ["part.0.parquet"; "part.1.parquet"]);
            ("../data/gene_info.parquet/type_of_gene=pseudo", [], ["part.0.parquet"])].
Proof. vm_compute. by repeat split. Qed.

Example groupby_demo :
  sort_values_desc (size_by_key ["9606"; "10090"; "9606"; "7227"; "9606"; "10090"])
  = [mkGroup "9606" 3; mkGroup "10090" 2; mkGroup "7227" 1].
Proof. vm_compute. reflexivity. Qed.

Example format_1f_demo :
  Py.format_1f (Py.div_1E9 6512345678) = "6.5"
  ∧ Py.format_1f (Py.div_1E9 150000000) = "0.1"
  ∧ Py.format_1f (Py.div_1E9 250000000) = "0.2"
  ∧ Py.format_1f (Py.div_1E9 350000000) = "0.3"
  ∧ Py.format_1f (Py.div_1E9 0) = "0.0"
  ∧ Py.format_1f (Py.div_1E9 12960000000) = "13.0"
  ∧ Py.format_1f (Py.div_1E9 50000000) = "0.1"
  ∧ Py.format_1f (Py.div_1E9 49999999) = "0.0"
  ∧ Py.format_1f (Py.div_1E9 9223372036854775807) = "9223372036.9"
  ∧ Py.format_1f (-0.03125)%float = "-0.0"
  ∧ Py.format_1f infinity = "inf"
  ∧ Py.format_1f (-1.25)%float = "-1.2"
  ∧ Py.format_1f (0.75)%float = "0.8"
  ∧ Py.format_1f (PrimFloat.div 135 100) = "1.4"
  ∧ Py.format_1f (PrimFloat.div 95 100) = "0.9"
  ∧ Py.format_1f (PrimFloat.div 9995 100) = "100.0"
  ∧ Py.format_1f (1e22)%float = "10000000000000000000000.0".
Proof. vm_compute. repeat split. Qed.

Example str_int_demo : Py.str_int 8 = "8" ∧ Py.str_int 0 = "0" ∧ Py.str_int (-3) = "-3".
Proof. vm_compute. repeat split. Qed.

Example path_join_demo :
  Py.path_join "../data" "gene_info.tsv" = "../data/gene_info.tsv"
  ∧ Py.path_join "/scratch/job1/" "gene_info.tsv" = "/scratch/job1/gene_info.tsv"
  ∧ Py.path_join "results" "a.csv" = "results/a.csv".
Proof. vm_compute. repeat split. Qed.

Example run_dask_csv_8 :
  let r := run Dask 8 "csv" Sample.world in
  r.1 = Returned ()
  ∧ trace r.2 =
      [EvGetsize "../data/gene_info.tsv"; EvMakedirs "results";
       EvStart (DaskClient (Some 8%Z) (Some 1%Z)); EvRead "../data/gene_info.tsv";
       EvPrint "Filename: ../data/gene_info.tsv"; EvCompute; EvStop;
       EvToCsv "results/3-DaskDataframe_6.5_csv_8.csv"
         (mkResultFile ["cores"; "time"; "size"; "format"; "dataframe"]
            [mkRow 8 42.5%float "6.5" "csv" "Dask"]);
       EvPrint "Dask: 42.5 sec."].
Proof. vm_compute. split; reflexivity. Qed.

Example process_sample :
  and_then (and_then (csv_branch Dask Sample.gene_info) (after_branch Dask))
    (λ genes, process_data (rename "#tax_id" "tax_id" genes))
  = inr [mkGroup "9606" 3; mkGroup "10090" 2; mkGroup "7227" 1].
Proof. vm_compute. reflexivity. Qed.

(** * Grouping and sorting *)

Section Grouping.

Implicit Types (keys uniq : list string) (g : list GroupRow).

Lemma occurrences_cons x keys k :
  occurrences (x :: keys) k = (if decide (x = k) then 1 else 0) + occurrences keys k.
Proof.
  unfold occurrences. rewrite filter_cons. by destruct (decide (x = k)).
Qed.

Lemma sum_list_with_plus {A} (f h : A → nat) (l : list A) :
  sum_list_with (λ a, f a + h a) l = sum_list_with f l + sum_list_with h l.
Proof. induction l as [|a l IH]; simpl; lia. Qed.

Lemma sum_list_with_pointwise {A} (f h : A → nat) (l : list A) :
  (∀ a, f a = h a) → sum_list_with f l = sum_list_with h l.
Proof. intros E. induction l as [|a l IH]; simpl; [done|]. by rewrite E, IH. Qed.

Lemma sum_list_with_map {A B} (f : B → nat) (h : A → B) (l : list A) :
  sum_list_with f (h <$> l) = sum_list_with (f ∘ h) l.
Proof. induction l as [|a l IH]; csimpl; [done|]. by rewrite IH. Qed.

Lemma sum_indicator_absent x uniq :
  x ∉ uniq → sum_list_with (λ k, if decide (x = k) then 1 else 0) uniq = 0.
Proof.
  induction uniq as [|k uniq IH]; intros Hx; simpl; [done|].
  apply not_elem_of_cons in Hx as [Hne Hx].
  rewrite decide_False by done. by rewrite IH.
Qed.

Lemma sum_indicator_present x uniq :
  NoDup uniq → x ∈ uniq → sum_list_with (λ k, if decide (x = k) then 1 else 0) uniq = 1.
Proof.
  induction 1 as [|k uniq Hk Hnd IH]; intros Hx; [by apply elem_of_nil in Hx|].
  cbn [sum_list_with]. destruct (decide (x = k)) as [->|Hne].
  - rewrite sum_indicator_absent; done.
  - apply elem_of_cons in Hx as [?|Hx]; [done|]. by rewrite IH.
Qed.

(** Counting key by key over a duplicate-free list that covers the keys
    counts every row once. *)
Lemma sum_occurrences uniq keys :
  NoDup uniq → (∀ k, k ∈ keys → k ∈ uniq) →
  sum_list_with (occurrences keys) uniq = length keys.
Proof.
  intros Hnd. induction keys as [|x keys IH]; intros Hcover.
  - clear. induction uniq as [|k uniq IH]; simpl; [done|]. by rewrite IH.
  - rewrite (sum_list_with_pointwise _ _ _ (occurrences_cons x keys)).
    rewrite sum_list_with_plus, sum_indicator_present, IH; simpl; try done.
    + intros k Hk. apply Hcover. by right.
    + apply Hcover. by left.
Qed.

Lemma size_by_key_keys keys : tax_id <$> size_by_key keys ≡ₚ remove_dups keys.
Proof.
  unfold size_by_key. rewrite <- list_fmap_compose.
  rewrite (list_fmap_ext _ id) by done. rewrite list_fmap_id.
  apply merge_sort_Permutation.
Qed.

Lemma size_by_key_total keys : sum_list_with count (size_by_key keys) = length keys.
Proof.
  unfold size_by_key.
  rewrite sum_list_with_map.
  apply sum_occurrences.
  - rewrite merge_sort_Permutation. apply NoDup_remove_dups.
  - intros k Hk. rewrite merge_sort_Permutation. by apply elem_of_remove_dups.
Qed.

Lemma size_by_key_count keys row :
  row ∈ size_by_key keys → count row = occurrences keys (tax_id row).
Proof.
  unfold size_by_key. intros (k & -> & _)%list_elem_of_fmap. done.
Qed.

#[global] Instance count_ge_total : Total count_ge.
Proof. intros a b. unfold count_ge. lia. Qed.

#[global] Instance count_ge_trans : Transitive count_ge.
Proof. intros a b c. unfold count_ge. lia. Qed.

Lemma sort_values_desc_perm g : sort_values_desc g ≡ₚ g.
Proof. apply merge_sort_Permutation. Qed.

Lemma sort_values_desc_sorted g : StronglySorted count_ge (sort_values_desc g).
Proof. apply StronglySorted_merge_sort; apply _. Qed.

(** In a table sorted on its counts, each row counts at least as many
    members as the row below it. *)
Lemma sorted_adjacent g i a b :
  StronglySorted count_ge g → g !! i = Some a → g !! S i = Some b → count b ≤ count a.
Proof.
  intros Hs. revert i. induction Hs as [|x g Hs IH Hall]; intros i Ha Hb; [done|].
  destruct i as [|i]; simpl in *.
  - injection Ha as ->. rewrite Forall_forall in Hall.
    apply Hall. eapply list_elem_of_lookup_2. exact Hb.
  - eauto.
Qed.

Lemma process_data_returns genes :
  "tax_id" ∈ columns genes →
  process_data genes = inr (sort_values_desc (size_by_key (column_values "tax_id" genes))).
Proof.
  intros Hin. unfold process_data, groupby_size. by rewrite bool_decide_true.
Qed.

End Grouping.

(** * Rows as records *)

Section Records.

Implicit Types (cols names : list string) (r : list string) (t : DataFrame).

Lemma cell_record cols r name :
  cell cols r name = (list_to_map (zip cols r) : gmap string string) !! name.
Proof.
  unfold cell. revert r. induction cols as [|c cols IH]; intros r; [done|].
  destruct r as [|x r]; simpl.
  - rewrite lookup_empty. by destruct (decide (c = name)), (index_of name cols).
  - destruct (decide (c = name)) as [->|Hne]; simpl.
    + by rewrite lookup_insert_eq.
    + rewrite lookup_insert_ne by done. rewrite <- IH.
      by destruct (index_of name cols).
Qed.

Lemma cell_present cols r name :
  name ∈ cols → length r = length cols → is_Some (cell cols r name).
Proof.
  unfold cell. revert r. induction cols as [|c cols IH]; intros r Hin Hlen.
  - by apply elem_of_nil in Hin.
  - destruct r as [|x r]; [done|]. simpl in *.
    destruct (decide (c = name)) as [->|Hne]; simpl; [by eexists|].
    apply elem_of_cons in Hin as [?|Hin]; [done|].
    specialize (IH r Hin ltac:(lia)).
    by destruct (index_of name cols).
Qed.

Lemma keep_zip names cols r :
  zip (filter (λ c, c ∈ names) cols) (keep names cols r)
  = filter (λ p, p.1 ∈ names) (zip cols r).
Proof.
  unfold keep. revert r. induction cols as [|c cols IH]; intros r; [done|].
  destruct r as [|x r]; simpl.
  - by destruct (filter _ (c :: cols)).
  - rewrite !filter_cons. simpl. destruct (decide (c ∈ names)); csimpl; by rewrite IH.
Qed.

Lemma lookup_restrict names (m : gmap string string) k :
  restrict names m !! k = if decide (k ∈ names) then m !! k else None.
Proof.
  unfold restrict. rewrite map_lookup_filter.
  destruct (m !! k) as [v|]; simpl; [|by destruct (decide (k ∈ names))].
  by destruct (decide (k ∈ names)); [rewrite option_guard_True|rewrite option_guard_False].
Qed.

Lemma lookup_filter_keys names (l : list (string * string)) k :
  (list_to_map (filter (λ p, p.1 ∈ names) l) : gmap string string) !! k
  = if decide (k ∈ names) then (list_to_map l : gmap string string) !! k else None.
Proof.
  induction l as [|[k' v] l IH]; simpl.
  - rewrite lookup_empty. by destruct (decide (k ∈ names)).
  - rewrite filter_cons. simpl. destruct (decide (k' ∈ names)) as [Hin|Hout]; simpl.
    + destruct (decide (k' = k)) as [->|Hne].
      * rewrite !lookup_insert_eq. by rewrite decide_True.
      * by rewrite !lookup_insert_ne.
    + rewrite IH. destruct (decide (k ∈ names)); [|done].
      rewrite lookup_insert_ne; [done|]. by intros ->.
Qed.

(** The record of a row read with [usecols]. *)
Lemma keep_record names cols r :
  (list_to_map (zip (filter (λ c, c ∈ names) cols) (keep names cols r)) : gmap string string)
  = restrict names (list_to_map (zip cols r)).
Proof.
  apply map_eq. intros k.
  by rewrite keep_zip, lookup_filter_keys, lookup_restrict.
Qed.

Lemma lookup_tabulate names (f : string → string) k :
  (list_to_map (zip names (f <$> names)) : gmap string string) !! k
  = if decide (k ∈ names) then Some (f k) else None.
Proof.
  induction names as [|n names IH]; csimpl.
  - by rewrite lookup_empty.
  - destruct (decide (n = k)) as [->|Hne].
    + rewrite lookup_insert_eq. rewrite decide_True; [done|by left].
    + rewrite lookup_insert_ne by done. rewrite IH.
      destruct (decide (k ∈ names)) as [Hin|Hout].
      * rewrite decide_True; [done|by right].
      * rewrite decide_False; [done|]. intros [?|?]%elem_of_cons; done.
Qed.

(** The record of a row read with [columns=names]. *)
Lemma pick_record names cols r :
  (∀ n, n ∈ names → n ∈ cols) → length r = length cols →
  (list_to_map (zip names (pick names cols r)) : gmap string string)
  = restrict names (list_to_map (zip cols r)).
Proof.
  intros Hsub Hlen. apply map_eq. intros k.
  unfold pick. rewrite lookup_tabulate, lookup_restrict.
  destruct (decide (k ∈ names)) as [Hin|]; [|done].
  rewrite <- cell_record.
  by destruct (cell_present cols r k (Hsub k Hin) Hlen) as [v ->].
Qed.

Lemma filter_fmap_commute {A B} (P : B → Prop) `{∀ b, Decision (P b)} (f : A → B) (l : list A) :
  filter P (f <$> l) = f <$> filter (λ a, P (f a)) l.
Proof.
  induction l as [|a l IH]; csimpl; [done|].
  rewrite !filter_cons. destruct (decide (P (f a))); csimpl; by rewrite IH.
Qed.

Lemma filter_pointwise {A} (P Q : A → Prop) `{∀ a, Decision (P a)} `{∀ a, Decision (Q a)}
    (l : list A) :
  (∀ a, a ∈ l → P a ↔ Q a) → filter P l = filter Q l.
Proof.
  induction l as [|a l IH]; intros E; [done|].
  rewrite !filter_cons.
  assert (P a ↔ Q a) as Ea by (apply E; by left).
  assert (filter P l = filter Q l) as -> by (apply IH; intros; apply E; by right).
  destruct (decide (P a)), (decide (Q a)); tauto.
Qed.

Lemma has_columns_elem names t n :
  has_columns names t = true → n ∈ names → n ∈ columns t.
Proof.
  unfold has_columns. rewrite forallb_forall. intros Hall Hin.
  apply list_elem_of_In in Hin. specialize (Hall n Hin). by apply bool_decide_eq_true in Hall.
Qed.

Lemma rectangular_row t r :
  rectangular t = true → r ∈ rows t → length r = length (columns t).
Proof.
  unfold rectangular. rewrite forallb_forall. intros Hall Hin.
  apply list_elem_of_In in Hin. specialize (Hall r Hin). by apply Nat.eqb_eq in Hall.
Qed.

End Records.

(** * The csv path and the parquet path *)

Section Paths.

Implicit Types (cols names : list string) (rs : list (list string)) (t : DataFrame).

Lemma records_fmap cols rs :
  records (mkFrame cols rs) = (λ r, list_to_map (zip cols r)) <$> rs.
Proof. done. Qed.

(** Reading the named columns, then filtering (the csv branch). *)
Lemma records_keep_then_filter names cols rs n v :
  n ∈ names →
  records (mkFrame (filter (λ c, c ∈ names) cols)
             (where_eq n v (filter (λ c, c ∈ names) cols) (keep names cols <$> rs)))
  = restrict names <$> filter (field_is n v) (records (mkFrame cols rs)).
Proof.
  intros Hn. rewrite !records_fmap. unfold where_eq.
  rewrite !filter_fmap_commute, <- !list_fmap_compose.
  rewrite (filter_pointwise _ (λ r, field_is n v (list_to_map (zip cols r)))).
  - apply list_fmap_ext. intros _ r _. simpl. apply keep_record.
  - intros r _. unfold field_is.
    by rewrite cell_record, keep_record, lookup_restrict, decide_True.
Qed.

(** Selecting the named columns, then filtering (the Spark notebook). *)
Lemma records_pick_then_filter names cols rs n v :
  n ∈ names → (∀ c, c ∈ names → c ∈ cols) → (∀ r, r ∈ rs → length r = length cols) →
  records (mkFrame names (where_eq n v names (pick names cols <$> rs)))
  = restrict names <$> filter (field_is n v) (records (mkFrame cols rs)).
Proof.
  intros Hn Hsub Hrect. rewrite !records_fmap. unfold where_eq.
  rewrite !filter_fmap_commute, <- !list_fmap_compose.
  rewrite (filter_pointwise _ (λ r, field_is n v (list_to_map (zip cols r)))).
  - apply list_fmap_ext. intros _ r Hr%list_elem_of_lookup_2%list_elem_of_filter. simpl.
    apply pick_record; [done|]. apply Hrect, Hr.
  - intros r Hr. unfold field_is.
    by rewrite cell_record, pick_record, lookup_restrict, decide_True by auto.
Qed.

(** Filtering while loading, then keeping the named columns (the parquet
    branch). *)
Lemma records_filter_then_pick names cols rs n v :
  (∀ c, c ∈ names → c ∈ cols) → (∀ r, r ∈ rs → length r = length cols) →
  records (mkFrame names (pick names cols <$> where_eq n v cols rs))
  = restrict names <$> filter (field_is n v) (records (mkFrame cols rs)).
Proof.
  intros Hsub Hrect. rewrite !records_fmap. unfold where_eq.
  rewrite !filter_fmap_commute, <- !list_fmap_compose.
  rewrite (filter_pointwise _ (λ r, field_is n v (list_to_map (zip cols r)))).
  - apply list_fmap_ext. intros _ r Hr%list_elem_of_lookup_2%list_elem_of_filter. simpl.
    apply pick_record; [done|]. apply Hrect, Hr.
  - intros r Hr. unfold field_is. by rewrite cell_record.
Qed.

Lemma type_of_gene_named : "type_of_gene" ∈ column_names.
Proof. compute_done. Qed.

Lemma tax_id_named : "#tax_id" ∈ column_names.
Proof. compute_done. Qed.

(** What the csv branch binds [genes] to, by the time of the rename. *)
Lemma csv_path_returns nb t :
  has_columns column_names t = true →
  and_then (csv_branch nb t) (after_branch nb)
  = inr (match nb with
         | Spark =>
             mkFrame column_names
               (where_eq "type_of_gene" "protein-coding" column_names
                  (pick column_names (columns t) <$> rows t))
         | Pandas | Dask | DaskCuda =>
             mkFrame (filter (λ c, c ∈ column_names) (columns t))
               (where_eq "type_of_gene" "protein-coding"
                  (filter (λ c, c ∈ column_names) (columns t))
                  (keep column_names (columns t) <$> rows t))
         end).
Proof.
  intros Hcols.
  assert ("type_of_gene" ∈ filter (λ c, c ∈ column_names) (columns t)) as Hin.
  { apply list_elem_of_filter. split; [apply type_of_gene_named|].
    eapply has_columns_elem; [done|apply type_of_gene_named]. }
  destruct nb; simpl; unfold read_csv, query_eq, select, spark_filter; rewrite Hcols; simpl;
    try (by rewrite bool_decide_true).
  done.
Qed.

(** What the parquet branch binds [genes] to, by the time of the rename. *)
Lemma parquet_path_returns nb t :
  has_columns column_names t = true →
  and_then (parquet_branch nb t) (after_branch nb)
  = inr (match nb with
         | Spark =>
             mkFrame column_names
               (where_eq "type_of_gene" "protein-coding" column_names
                  (pick column_names (columns t) <$> rows t))
         | Pandas | Dask | DaskCuda =>
             mkFrame column_names
               (pick column_names (columns t)
                  <$> where_eq "type_of_gene" "protein-coding" (columns t) (rows t))
         end).
Proof.
  intros Hcols.
  assert (has_columns ("type_of_gene" :: column_names) t = true) as Hcols'.
  { change (bool_decide ("type_of_gene" ∈ columns t) && has_columns column_names t = true).
    rewrite Hcols, bool_decide_true; [done|].
    eapply has_columns_elem; [done|apply type_of_gene_named]. }
  destruct nb; simpl; unfold read_parquet, select, spark_filter; simpl;
    rewrite ?Hcols', ?Hcols; simpl; done.
Qed.

End Paths.





(** C6. The group/count table a run materializes is ordered by count,
    largest first: every row counts at least as many members as the row
    after it, and as every row further down. *)
Theorem groups_sorted_by_count_descending (genes : DataFrame) :
  "tax_id" ∈ columns genes →
  ∃ groups,
    process_data genes = inr groups
    ∧ (∀ i a b, groups !! i = Some a → groups !! S i = Some b → count b ≤ count a)
    ∧ StronglySorted (λ a b, count b ≤ count a) groups.
Proof.
  intros Hin. eexists. split; [by apply process_data_returns|]. split.
  - intros i a b. apply sorted_adjacent, sort_values_desc_sorted.
  - apply sort_values_desc_sorted.
Qed.

Lemma groups_sorted_by_count_descending_sample :
  "tax_id" ∈ columns Sample.genes
  ∧ ∃ groups,
      process_data Sample.genes = inr groups
      ∧ (∀ i a b, groups !! i = Some a → groups !! S i = Some b → count b ≤ count a)
      ∧ StronglySorted (λ a b, count b ≤ count a) groups.
Proof.
  assert ("tax_id" ∈ columns Sample.genes) as Hin by (vm_compute; apply list_elem_of_here).
  split; [exact Hin|]. exact (groups_sorted_by_count_descending Sample.genes Hin).
Defined.

(** C9. The rename step changes the label [#tax_id] into [tax_id] and
    nothing else: the rows, hence their number and every cell, are the
    same, there are as many columns, and a column under any other label
    keeps its label and its place. *)
Theorem rename_changes_one_label (df : DataFrame) :
  rows (rename "#tax_id" "tax_id" df) = rows df
  ∧ length (columns (rename "#tax_id" "tax_id" df)) = length (columns df)
  ∧ (∀ i c, columns df !! i = Some c → c ≠ "#tax_id" →
       columns (rename "#tax_id" "tax_id" df) !! i = Some c)
  ∧ (∀ i, columns df !! i = Some "#tax_id" →
       columns (rename "#tax_id" "tax_id" df) !! i = Some "tax_id")
  ∧ (∀ i, columns df !! i = None → columns (rename "#tax_id" "tax_id" df) !! i = None).
Proof.
  unfold rename. simpl. repeat split.
  - by rewrite length_fmap.
  - intros i c Hc Hne. rewrite list_lookup_fmap, Hc. simpl. by rewrite decide_False.
  - intros i Hc. by rewrite list_lookup_fmap, Hc.
  - intros i Hc. by rewrite list_lookup_fmap, Hc.
Qed.

(** * Cells, one by one *)

Section Cells.

Context {A B : Type}.
Implicit Types (m : Cell A) (f : A → Cell B) (w : World).

Lemma bind_returned m f w a w1 : m w = (Returned a, w1) → (m ≫= f) w = f a w1.
Proof. intros E. unfold mbind, Cell_bind. by rewrite E. Qed.

Lemma bind_raised m f w e w1 : m w = (Raised e, w1) → (m ≫= f) w = (Raised e, w1).
Proof. intros E. unfold mbind, Cell_bind. by rewrite E. Qed.

Lemma bind_inv_returned m f w b w' :
  (m ≫= f) w = (Returned b, w') →
  ∃ a w1, m w = (Returned a, w1) ∧ f a w1 = (Returned b, w').
Proof.
  unfold mbind, Cell_bind. destruct (m w) as [[a|e] w1]; [eauto|done].
Qed.

End Cells.

(** ** The setup cell *)

Section Setup.

Implicit Types (w : World) (f : DataFile).

Lemma setup_cell_found w f :
  data w !! tsv_path w = Some f →
  setup_cell w
  = (Returned (mkSetup (data_dir w) (tsv_path w) (size_gb (st_size f)) "results"),
     after_setup w).
Proof.
  intros E. unfold setup_cell, mbind, Cell_bind, getenv, getsize, makedirs.
  fold (data_dir w). fold (tsv_path w). by rewrite E.
Qed.

Lemma setup_cell_missing w :
  data w !! tsv_path w = None →
  setup_cell w
  = (Raised (FileNotFoundError (tsv_path w)), log (EvGetsize (tsv_path w)) w).
Proof.
  intros E. unfold setup_cell, mbind, Cell_bind, getenv, getsize, makedirs.
  fold (data_dir w). fold (tsv_path w). by rewrite E.
Qed.

End Setup.

(** * What a computation can add to the trace *)

Section Emits.

Context (P : Event → Prop).

Lemma emits_ret {A} (a : A) : emits P (mret a).
Proof. intros w. exists []. by rewrite app_nil_r. Qed.

Lemma emits_raise {A} e : emits P (raise e : Cell A).
Proof. intros w. exists []. by rewrite app_nil_r. Qed.

Lemma emits_lift {A} (r : Exception + A) : emits P (lift r).
Proof. destruct r; [apply emits_raise|apply emits_ret]. Qed.

Lemma emits_bind {A B} (m : Cell A) (f : A → Cell B) :
  emits P m → (∀ a, emits P (f a)) → emits P (m ≫= f).
Proof.
  intros Hm Hf w. destruct (Hm w) as (evs & E & Hevs).
  unfold mbind, Cell_bind. destruct (m w) as [[a|e] w1]; simpl in *.
  - destruct (Hf a w1) as (evs' & E' & Hevs').
    exists (evs ++ evs'). rewrite E', E, app_assoc. split; [done|by apply Forall_app].
  - eauto.
Qed.

Lemma emits_emit e : P e → emits P (emit e).
Proof. intros He w. exists [e]. split; [done|by constructor]. Qed.

Lemma emits_getenv name d : emits P (getenv name d).
Proof. intros w. exists []. by rewrite app_nil_r. Qed.

Lemma emits_getsize path : P (EvGetsize path) → emits P (getsize path).
Proof.
  intros He w. exists [EvGetsize path]. unfold getsize.
  destruct (data w !! path); (split; [done|by constructor]).
Qed.

Lemma emits_makedirs path : P (EvMakedirs path) → emits P (makedirs path).
Proof. intros He w. exists [EvMakedirs path]. split; [done|by constructor]. Qed.

Lemma emits_time_time : emits P time_time.
Proof. intros w. exists []. by rewrite app_nil_r. Qed.

Lemma emits_open_table path e : P (EvRead path) → emits P (open_table path e).
Proof.
  intros He w. exists [EvRead path]. unfold open_table.
  destruct (data w !! path); (split; [done|by constructor]).
Qed.

Lemma emits_to_csv dir name f :
  P (EvToCsv (Py.path_join dir name) f) → emits P (to_csv dir name f).
Proof.
  intros He w. unfold to_csv. destruct (bool_decide (dir ∈ dirs w)).
  - exists [EvToCsv (Py.path_join dir name) f]. split; [done|by constructor].
  - exists []. by rewrite app_nil_r.
Qed.

End Emits.

Create HintDb emits.

#[local] Hint Resolve emits_ret emits_raise emits_lift emits_emit emits_getenv emits_getsize
  emits_makedirs emits_time_time emits_open_table emits_to_csv : emits.

Ltac emits_step :=
  first [ apply emits_bind; [|intros ?] | progress cbv zeta | progress eauto with emits ].

#[local] Hint Extern 1 (not_to_csv _) => reflexivity : emits.
#[local] Hint Extern 1 (downstream _) => (split; reflexivity) : emits.

Section Quiet.

Lemma setup_cell_quiet : emits not_to_csv setup_cell.
Proof. unfold setup_cell. repeat emits_step. Qed.

Lemma client_setup_cell_quiet nb n_cores : emits not_to_csv (client_setup_cell nb n_cores).
Proof. unfold client_setup_cell. destruct (client_setup nb n_cores); repeat emits_step. Qed.

Lemma emits_weaken {A} (P Q : Event → Prop) (m : Cell A) :
  (∀ e, P e → Q e) → emits P m → emits Q m.
Proof.
  intros HPQ Hm w. destruct (Hm w) as (evs & E & Hevs). exists evs. split; [done|].
  eapply Forall_impl; eauto.
Qed.

Lemma read_data_cell_downstream nb s file_format :
  emits downstream (read_data_cell nb s file_format).
Proof.
  unfold read_data_cell, print.
  apply emits_bind; [repeat case_decide; repeat emits_step|intros [path [genes|]]];
    repeat emits_step.
Qed.

Lemma compute_cell_downstream nb groups : emits downstream (compute_cell nb groups).
Proof. destruct nb; unfold compute_cell; repeat emits_step. Qed.

Lemma read_data_cell_quiet nb s file_format :
  emits not_to_csv (read_data_cell nb s file_format).
Proof. eapply emits_weaken; [|apply read_data_cell_downstream]. by intros e [_ ?]. Qed.

Lemma compute_cell_quiet nb groups : emits not_to_csv (compute_cell nb groups).
Proof. eapply emits_weaken; [|apply compute_cell_downstream]. by intros e [_ ?]. Qed.

(** Nothing is written to the results directory before the clock is
    read for the second time. *)
Lemma timed_cells_quiet nb n_cores file_format :
  emits not_to_csv (timed_cells nb n_cores file_format).
Proof.
  unfold timed_cells.
  repeat first [ apply setup_cell_quiet | apply client_setup_cell_quiet
               | apply read_data_cell_quiet | apply compute_cell_quiet | emits_step ].
Qed.

End Quiet.

(** * The read-data cell, case by case *)

Section ReadData.

Implicit Types (nb : Notebook) (s : Setup) (w : World).

Lemma client_setup_cell_started nb n_cores w :
  client_setup_cell nb n_cores w = (Returned (), started nb n_cores w).
Proof. unfold client_setup_cell, started. by destruct (client_setup nb n_cores). Qed.

Lemma compute_cell_computed nb groups w :
  compute_cell nb groups w = (Returned groups, computed nb w).
Proof. by destruct nb. Qed.

Lemma dataset_name_known file_format name :
  dataset_name file_format = Some name →
  file_format = "csv" ∧ name = "gene_info.tsv"
  ∨ file_format = "parquet" ∧ name = "gene_info.parquet".
Proof.
  unfold dataset_name.
  destruct (decide (file_format = "csv")), (decide (file_format = "parquet"));
    intros [= <-]; auto.
Qed.

Lemma dataset_name_unknown file_format :
  dataset_name file_format = None ↔ file_format ≠ "csv" ∧ file_format ≠ "parquet".
Proof.
  unfold dataset_name.
  destruct (decide (file_format = "csv")), (decide (file_format = "parquet"));
    split; try done; intros [? ?]; done.
Qed.

(** An unknown format: a message, the file name, then the use of the
    unbound [genes]. *)
Lemma read_data_cell_unknown nb s file_format w :
  dataset_name file_format = None →
  read_data_cell nb s file_format w
  = (Raised (NameError "genes"),
     log (EvPrint ("Filename: " +:+ filename s)) (log (EvPrint "invalid file format") w)).
Proof.
  intros [Hcsv Hpq]%dataset_name_unknown. unfold read_data_cell.
  by rewrite !decide_False by done.
Qed.

Lemma read_data_cell_missing nb s file_format w name :
  dataset_name file_format = Some name →
  data w !! Py.path_join (DATA_DIR s) name = None →
  read_data_cell nb s file_format w
  = (Raised (missing nb (Py.path_join (DATA_DIR s) name)),
     log (EvRead (Py.path_join (DATA_DIR s) name)) w).
Proof.
  intros [[-> ->]|[-> ->]]%dataset_name_known E; unfold read_data_cell; simpl;
    unfold mbind, Cell_bind, open_table; by rewrite E.
Qed.

Lemma read_data_cell_returns nb s file_format w name f genes :
  dataset_name file_format = Some name →
  data w !! Py.path_join (DATA_DIR s) name = Some f →
  loaded nb file_format (table f) = inr genes →
  read_data_cell nb s file_format w
  = (Returned (rename "#tax_id" "tax_id" genes),
     log (EvPrint ("Filename: " +:+ Py.path_join (DATA_DIR s) name))
       (log (EvRead (Py.path_join (DATA_DIR s) name)) w)).
Proof.
  unfold loaded, branch.
  intros [[-> ->]|[-> ->]]%dataset_name_known E; simpl; intros Hl;
    unfold read_data_cell; simpl; unfold mbind, Cell_bind, open_table; rewrite E.
  - destruct (csv_branch nb (table f)) as [e|g0]; [done|]. simpl in *. by rewrite Hl.
  - destruct (parquet_branch nb (table f)) as [e|g0]; [done|]. simpl in *. by rewrite Hl.
Qed.

End ReadData.

(** * The timed cells, case by case *)

Section Timed.

Implicit Types (nb : Notebook) (w : World) (f : DataFile).

Lemma data_started nb n_cores w : data (started nb n_cores w) = data w.
Proof. unfold started. by destruct (client_setup nb n_cores). Qed.

Lemma data_at_read nb n_cores w : data (at_read nb n_cores w) = data w.
Proof. unfold at_read. by rewrite data_started. Qed.

Lemma clock_at_read nb n_cores w :
  clock (at_read nb n_cores w) = clock w ∧ ticks (at_read nb n_cores w) = S (ticks w).
Proof. unfold at_read, started. by destruct (client_setup nb n_cores). Qed.

Lemma clock_computed nb w :
  clock (computed nb w) = clock w ∧ ticks (computed nb w) = ticks w.
Proof. by destruct nb. Qed.

Lemma timed_cells_no_tsv nb n_cores file_format w :
  data w !! tsv_path w = None →
  timed_cells nb n_cores file_format w
  = (Raised (FileNotFoundError (tsv_path w)), log (EvGetsize (tsv_path w)) w).
Proof.
  intros E. unfold timed_cells. by rewrite (bind_raised _ _ _ _ _ (setup_cell_missing w E)).
Qed.

(** With the tsv file in place, the timed cells are the read-data cell
    and what follows it, from the world [at_read]. *)
Lemma timed_cells_from_read nb n_cores file_format w f :
  data w !! tsv_path w = Some f →
  timed_cells nb n_cores file_format w
  = (let s := mkSetup (data_dir w) (tsv_path w) (size_gb (st_size f)) "results" in
     genes ← read_data_cell nb s file_format;
     groups ← lift (process_data genes);
     groups ← compute_cell nb groups;
     t_end ← time_time;
     mret (s, clock w (ticks w), t_end)) (at_read nb n_cores w).
Proof.
  intros E. unfold timed_cells.
  rewrite (bind_returned _ _ _ _ _ (setup_cell_found w f E)).
  rewrite (bind_returned time_time _ (after_setup w) _ _ eq_refl).
  by rewrite (bind_returned _ _ _ _ _ (client_setup_cell_started nb n_cores _)).
Qed.

Lemma timed_cells_unknown_format nb n_cores file_format w f :
  data w !! tsv_path w = Some f →
  dataset_name file_format = None →
  timed_cells nb n_cores file_format w
  = (Raised (NameError "genes"),
     log (EvPrint ("Filename: " +:+ tsv_path w))
       (log (EvPrint "invalid file format") (at_read nb n_cores w))).
Proof.
  intros E Hfmt. rewrite (timed_cells_from_read _ _ _ _ f E). cbv zeta.
  by rewrite (bind_raised _ _ _ _ _ (read_data_cell_unknown nb _ file_format _ Hfmt)).
Qed.

Lemma timed_cells_no_input nb n_cores file_format w f path :
  data w !! tsv_path w = Some f →
  input_path w file_format = Some path →
  data w !! path = None →
  timed_cells nb n_cores file_format w
  = (Raised (missing nb path), log (EvRead path) (at_read nb n_cores w)).
Proof.
  unfold input_path. intros E (name & Hname & ->)%fmap_Some Hnone.
  rewrite (timed_cells_from_read _ _ _ _ f E). cbv zeta.
  erewrite bind_raised; [done|].
  apply read_data_cell_missing; [done|]. by rewrite data_at_read.
Qed.

Lemma timed_cells_returns nb n_cores file_format w f path fi genes groups :
  data w !! tsv_path w = Some f →
  input_path w file_format = Some path →
  data w !! path = Some fi →
  loaded nb file_format (table fi) = inr genes →
  process_data (rename "#tax_id" "tax_id" genes) = inr groups →
  timed_cells nb n_cores file_format w
  = (Returned (mkSetup (data_dir w) (tsv_path w) (size_gb (st_size f)) "results",
               clock w (ticks w), clock w (S (ticks w))),
     tick (computed nb
             (log (EvPrint ("Filename: " +:+ path))
                (log (EvRead path) (at_read nb n_cores w))))).
Proof.
  unfold input_path. intros E (name & Hname & ->)%fmap_Some Hfi Hgenes Hgroups.
  rewrite (timed_cells_from_read _ _ _ _ f E). cbv zeta.
  erewrite bind_returned.
  2:{ apply (read_data_cell_returns _ _ _ _ name fi genes); [done| |done].
      by rewrite data_at_read. }
  rewrite Hgroups.
  erewrite bind_returned by reflexivity.
  erewrite bind_returned by apply compute_cell_computed.
  erewrite bind_returned by reflexivity.
  unfold mret, Cell_ret. simpl.
  destruct (clock_computed nb
    (log (EvPrint ("Filename: " +:+ Py.path_join (data_dir w) name))
       (log (EvRead (Py.path_join (data_dir w) name)) (at_read nb n_cores w)))) as [-> ->].
  simpl. by destruct (clock_at_read nb n_cores w) as [-> ->].
Qed.

(** The timed cells return only for a format the read-data cell knows,
    with the tsv file in place, and leave the setup as it was made. *)
Lemma timed_cells_returned nb n_cores file_format w s t_start t_end w' :
  timed_cells nb n_cores file_format w = (Returned (s, t_start, t_end), w') →
  ∃ f, data w !! tsv_path w = Some f
       ∧ s = mkSetup (data_dir w) (tsv_path w) (size_gb (st_size f)) "results"
       ∧ (file_format = "csv" ∨ file_format = "parquet").
Proof.
  intros Hret. destruct (data w !! tsv_path w) as [f|] eqn:E.
  2:{ by rewrite timed_cells_no_tsv in Hret. }
  exists f. split; [done|].
  destruct (dataset_name file_format) as [name|] eqn:Hname.
  2:{ by rewrite (timed_cells_unknown_format _ _ _ _ f) in Hret. }
  rewrite (timed_cells_from_read _ _ _ _ f E) in Hret. cbv zeta in Hret.
  apply bind_inv_returned in Hret as (genes & w1 & Hread & Hret).
  apply bind_inv_returned in Hret as (groups & w2 & Hproc & Hret).
  apply bind_inv_returned in Hret as (groups' & w3 & Hcomp & Hret).
  apply bind_inv_returned in Hret as (t & w4 & Htime & Hret).
  injection Hret as <- _ _ _. split; [done|].
  apply dataset_name_known in Hname as [[-> _]|[-> _]]; auto.
Qed.

End Timed.

(** * Runs, case by case *)

Section Runs.

Implicit Types (nb : Notebook) (w : World) (f : DataFile).

Lemma new_events_app w w' evs : trace w' = trace w ++ evs → new_events w w' = evs.
Proof. unfold new_events. intros ->. by rewrite drop_app_length. Qed.

Lemma run_raised nb n_cores file_format w e w' :
  timed_cells nb n_cores file_format w = (Raised e, w') →
  run nb n_cores file_format w = (Raised e, w').
Proof. intros E. unfold run. by rewrite (bind_raised _ _ _ _ _ E). Qed.

Lemma result_write_cell_skips nb s n_cores file_format t_start t_end w :
  writes nb n_cores = false →
  result_write_cell nb s n_cores file_format t_start t_end w = (Returned (), w).
Proof. unfold writes, result_write_cell. destruct nb; try done; by intros ->. Qed.

Lemma result_write_cell_writes nb s n_cores file_format t_start t_end w :
  writes nb n_cores = true →
  result_write_cell nb s n_cores file_format t_start t_end w
  = to_csv (RESULTS_DIR s) (output_file nb (file_size s) file_format n_cores)
      (result_frame nb n_cores (PrimFloat.sub t_end t_start) (file_size s) file_format) w.
Proof. unfold writes, result_write_cell. destruct nb; try done; by intros ->. Qed.

(** A run whose timed cells return goes on to the result-write cell and
    the closing line. *)
Lemma run_returned nb n_cores file_format w s t_start t_end w1 :
  timed_cells nb n_cores file_format w = (Returned (s, t_start, t_end), w1) →
  run nb n_cores file_format w
  = if writes nb n_cores
    then match to_csv (RESULTS_DIR s) (output_file nb (file_size s) file_format n_cores)
                 (result_frame nb n_cores (PrimFloat.sub t_end t_start) (file_size s)
                    file_format) w1 with
         | (Returned _, w2) => (Returned (), log (EvPrint (closing_line nb t_start t_end)) w2)
         | (Raised e, w2) => (Raised e, w2)
         end
    else (Returned (), log (EvPrint (closing_line nb t_start t_end)) w1).
Proof.
  intros E. unfold run. rewrite (bind_returned _ _ _ _ _ E).
  unfold mbind, Cell_bind. destruct (writes nb n_cores) eqn:Hw.
  - rewrite result_write_cell_writes by done. by destruct (to_csv _ _ _ w1) as [[[]|e] w2].
  - by rewrite result_write_cell_skips by done.
Qed.

(** A result file is written by the result-write cell only, after the
    timed cells have returned, under the name and with the row that the
    setup, the parameters and the clock determine. *)
Lemma run_to_csv nb n_cores file_format w path rf :
  EvToCsv path rf ∈ new_events w (run nb n_cores file_format w).2 →
  ∃ f elapsed,
    data w !! tsv_path w = Some f
    ∧ (file_format = "csv" ∨ file_format = "parquet")
    ∧ writes nb n_cores = true
    ∧ path = Py.path_join "results"
               (output_file nb (size_gb (st_size f)) file_format n_cores)
    ∧ rf = result_frame nb n_cores elapsed (size_gb (st_size f)) file_format.
Proof.
  destruct (timed_cells_quiet nb n_cores file_format w) as (evs & Htrace & Hquiet).
  destruct (timed_cells nb n_cores file_format w) as [[[[s t_start] t_end]|e] w1] eqn:E;
    simpl in Htrace.
  - rewrite (run_returned _ _ _ _ _ _ _ _ E).
    apply timed_cells_returned in E as (f & Hf & -> & Hfmt). simpl.
    assert (EvToCsv path rf ∉ evs) as Hevs.
    { intros Hin. rewrite Forall_forall in Hquiet. by specialize (Hquiet _ Hin). }
    destruct (writes nb n_cores) eqn:Hw; [unfold to_csv; case_bool_decide|]; simpl.
    + erewrite new_events_app by (simpl; rewrite Htrace, <- !app_assoc; done).
      rewrite !elem_of_app, !list_elem_of_singleton. intros [?|[[= -> ->]|[=]]]; [done|].
      by exists f, (PrimFloat.sub t_end t_start).
    + erewrite new_events_app by done. done.
    + erewrite new_events_app by (simpl; rewrite Htrace, <- !app_assoc; done).
      rewrite !elem_of_app, !list_elem_of_singleton. by intros [?|[=]].
  - rewrite (run_raised _ _ _ _ _ _ E). simpl.
    erewrite new_events_app by done. intros Hin.
    rewrite Forall_forall in Hquiet. by specialize (Hquiet _ Hin).
Qed.

End Runs.

(** * Runs in a valid configuration *)

Section Outcomes.

Implicit Types (nb : Notebook) (w : World) (f : DataFile).

Lemma results_at_read nb n_cores w :
  results (at_read nb n_cores w) = results w
  ∧ dirs (at_read nb n_cores w) = {["results"]} ∪ dirs w.
Proof. unfold at_read, started. by destruct (client_setup nb n_cores). Qed.

Lemma results_computed nb w :
  results (computed nb w) = results w ∧ dirs (computed nb w) = dirs w.
Proof. by destruct nb. Qed.

Lemma rename_adds_label old new df : old ∈ columns df → new ∈ columns (rename old new df).
Proof.
  intros Hin. unfold rename. simpl. apply list_elem_of_fmap.
  exists old. by rewrite decide_True.
Qed.

(** With the named columns in the stored table, both branches bind
    [genes] to a frame that the process-data cell can group. *)
Lemma loaded_returns nb file_format t :
  file_format = "csv" ∨ file_format = "parquet" →
  has_columns column_names t = true →
  ∃ genes, loaded nb file_format t = inr genes
           ∧ "tax_id" ∈ columns (rename "#tax_id" "tax_id" genes).
Proof.
  intros Hfmt Hcols. unfold loaded, branch.
  assert ("#tax_id" ∈ filter (λ c, c ∈ column_names) (columns t)) as Hin.
  { apply list_elem_of_filter. split; [apply tax_id_named|].
    eapply has_columns_elem; [done|apply tax_id_named]. }
  destruct Hfmt as [-> | ->]; simpl.
  - rewrite csv_path_returns by done. eexists. split; [done|].
    apply rename_adds_label. destruct nb; simpl; auto using tax_id_named.
  - rewrite parquet_path_returns by done. eexists. split; [done|].
    apply rename_adds_label. destruct nb; simpl; auto using tax_id_named.
Qed.

Lemma filter_none {A} (p : A → bool) (l : list A) :
  Forall (λ a, p a = false) l → filter (λ a, p a = true) l = [].
Proof.
  induction 1 as [|a l Ha _ IH]; [done|].
  rewrite filter_cons, IH. destruct (decide (p a = true)); [congruence|done].
Qed.

(** A run in a valid configuration returns; it has written one file with
    one row if [writes] holds and nothing otherwise. *)
Lemma run_valid nb n_cores file_format w f :
  valid_configuration n_cores file_format w →
  data w !! tsv_path w = Some f →
  ∃ elapsed w',
    run nb n_cores file_format w = (Returned (), w')
    ∧ results w'
      = (if writes nb n_cores
         then <[Py.path_join "results"
                  (output_file nb (size_gb (st_size f)) file_format n_cores)
                := result_frame nb n_cores elapsed (size_gb (st_size f)) file_format]>
                (results w)
         else results w)
    ∧ filter (λ e, is_to_csv e = true) (new_events w w')
      = (if writes nb n_cores
         then [EvToCsv
                 (Py.path_join "results"
                    (output_file nb (size_gb (st_size f)) file_format n_cores))
                 (result_frame nb n_cores elapsed (size_gb (st_size f)) file_format)]
         else []).
Proof.
  intros (_ & Hfmt & _ & path & fi & Hpath & Hfi & Hcols) Hf.
  destruct (loaded_returns nb file_format (table fi) Hfmt Hcols) as (genes & Hgenes & Htax).
  pose proof (process_data_returns _ Htax) as Hgroups.
  pose proof (timed_cells_returns nb n_cores _ _ _ _ _ _ _ Hf Hpath Hfi Hgenes Hgroups) as E.
  destruct (timed_cells_quiet nb n_cores file_format w) as (evs & Htrace & Hquiet).
  rewrite E in Htrace. simpl in Htrace.
  exists (PrimFloat.sub (clock w (S (ticks w))) (clock w (ticks w))).
  rewrite (run_returned _ _ _ _ _ _ _ _ E). simpl.
  destruct (writes nb n_cores).
  - unfold to_csv. rewrite bool_decide_true.
    2:{ simpl. destruct (results_computed nb
          (log (EvPrint ("Filename: " +:+ path)) (log (EvRead path) (at_read nb n_cores w))))
          as [_ ->]. simpl.
        destruct (results_at_read nb n_cores w) as [_ ->].
        by apply elem_of_union_l, elem_of_singleton. }
    eexists. split; [done|]. split.
    + simpl. destruct (results_computed nb
          (log (EvPrint ("Filename: " +:+ path)) (log (EvRead path) (at_read nb n_cores w))))
          as [-> _]. simpl.
      by destruct (results_at_read nb n_cores w) as [-> _].
    + erewrite new_events_app by (simpl; rewrite Htrace, <- !app_assoc; done).
      rewrite !filter_app, (filter_none is_to_csv evs) by done. done.
  - eexists. split; [done|]. split.
    + simpl. destruct (results_computed nb
          (log (EvPrint ("Filename: " +:+ path)) (log (EvRead path) (at_read nb n_cores w))))
          as [-> _]. simpl.
      by destruct (results_at_read nb n_cores w) as [-> _].
    + erewrite new_events_app by (simpl; rewrite Htrace, <- !app_assoc; done).
      rewrite !filter_app, (filter_none is_to_csv evs) by done. done.
Qed.

End Outcomes.

(** C1, as the code has it.  In a valid configuration every run returns.
    The Pandas notebook always, and the Dask, Spark and DaskCuda notebooks
    when [n_cores > 0], then have written exactly one file to the results
    directory, holding the header [cores,time,size,format,dataframe] and
    one row; with [n_cores = 0] the Dask, Spark and DaskCuda notebooks
    return without writing. *)
Theorem valid_run_writes_one_row_if_guard_passes
    (nb : Notebook) (n_cores : Z) (file_format : string) (w : World) :
  valid_configuration n_cores file_format w →
  ∃ f elapsed w',
    data w !! tsv_path w = Some f
    ∧ run nb n_cores file_format w = (Returned (), w')
    ∧ (nb = Pandas ∨ (0 < n_cores)%Z →
       let path :=
         Py.path_join "results" (output_file nb (size_gb (st_size f)) file_format n_cores) in
       let file :=
         mkResultFile ["cores"; "time"; "size"; "format"; "dataframe"]
           [mkRow (cores_of nb n_cores) elapsed (size_gb (st_size f)) file_format
              (dataframe_label nb)] in
       results w' = <[path := file]> (results w)
       ∧ filter (λ e, is_to_csv e = true) (new_events w w') = [EvToCsv path file])
    ∧ (nb ≠ Pandas → n_cores = 0%Z →
       results w' = results w
       ∧ filter (λ e, is_to_csv e = true) (new_events w w') = []).
Proof.
  intros Hvalid. pose proof Hvalid as (_ & _ & [f Hf] & _).
  destruct (run_valid nb n_cores file_format w f Hvalid Hf) as (elapsed & w' & Hrun & Hres & Hev).
  exists f, elapsed, w'. split; [done|]. split; [done|]. split.
  - intros Hguard. assert (writes nb n_cores = true) as Hw.
    { destruct Hguard as [-> | Hpos]; [done|]. destruct nb; simpl; by try apply bool_decide_eq_true. }
    by rewrite Hw in Hres, Hev.
  - intros Hnb ->. assert (writes nb 0 = false) as Hw by by destruct nb.
    by rewrite Hw in Hres, Hev.
Qed.

Lemma sample_configuration_valid (n_cores : Z) :
  (0 ≤ n_cores)%Z → valid_configuration n_cores "csv" Sample.world.
Proof.
  intros Hn. split; [done|]. split; [by left|]. split; [by eexists|].
  exists "../data/gene_info.tsv", Sample.tsv. by repeat split.
Qed.

Lemma valid_run_writes_one_row_if_guard_passes_sample :
  valid_configuration 8 "csv" Sample.world
  ∧ ∃ f elapsed w',
      data Sample.world !! tsv_path Sample.world = Some f
      ∧ run Dask 8 "csv" Sample.world = (Returned (), w')
      ∧ (Dask = Pandas ∨ (0 < 8)%Z →
         let path :=
           Py.path_join "results" (output_file Dask (size_gb (st_size f)) "csv" 8) in
         let file :=
           mkResultFile ["cores"; "time"; "size"; "format"; "dataframe"]
             [mkRow (cores_of Dask 8) elapsed (size_gb (st_size f)) "csv"
                (dataframe_label Dask)] in
         results w' = <[path := file]> (results Sample.world)
         ∧ filter (λ e, is_to_csv e = true) (new_events Sample.world w') = [EvToCsv path file])
      ∧ (Dask ≠ Pandas → 8%Z = 0%Z →
         results w' = results Sample.world
         ∧ filter (λ e, is_to_csv e = true) (new_events Sample.world w') = []).
Proof.
  assert (valid_configuration 8 "csv" Sample.world) as Hvalid
    by (apply sample_configuration_valid; lia).
  split; [exact Hvalid|].
  exact (valid_run_writes_one_row_if_guard_passes Dask 8 "csv" Sample.world Hvalid).
Defined.

(** C1 as stated fails: with zero cores, a valid configuration, the Dask
    notebook runs to the end and the results directory stays empty. *)
Lemma zero_cores_run_writes_no_row :
  valid_configuration 0 "csv" Sample.world
  ∧ (run Dask 0 "csv" Sample.world).1 = Returned ()
  ∧ filter (λ e, is_to_csv e = true)
      (new_events Sample.world (run Dask 0 "csv" Sample.world).2) = []
  ∧ results (run Dask 0 "csv" Sample.world).2 = ∅.
Proof.
  split; [by apply sample_configuration_valid|]. vm_compute. by repeat split.
Qed.

(** C2, what the code does.  For a file format other than ["csv"] and
    ["parquet"], with the tsv file in place, the run prints the message,
    opens no dataset and writes no result; it then ends on the NameError
    that the use of the unbound [genes] raises. *)
Theorem unknown_format_run_ends_on_name_error
    (nb : Notebook) (n_cores : Z) (file_format : string) (w : World) (f : DataFile) :
  file_format ≠ "csv" →
  file_format ≠ "parquet" →
  data w !! tsv_path w = Some f →
  ∃ w',
    run nb n_cores file_format w = (Raised (NameError "genes"), w')
    ∧ EvPrint "invalid file format" ∈ new_events w w'
    ∧ filter (λ e, is_read e = true) (new_events w w') = []
    ∧ filter (λ e, is_to_csv e = true) (new_events w w') = []
    ∧ results w' = results w.
Proof.
  intros Hcsv Hpq Hf.
  assert (dataset_name file_format = None) as Hname by by apply dataset_name_unknown.
  eexists. split.
  { apply run_raised. by apply (timed_cells_unknown_format _ _ _ _ f). }
  assert (∃ evs, trace (at_read nb n_cores w) = trace w ++ evs
                 ∧ filter (λ e, is_read e = true) evs = []
                 ∧ filter (λ e, is_to_csv e = true) evs = []) as (evs & Htrace & Hr & Hc).
  { unfold at_read, started. destruct (client_setup nb n_cores); simpl;
      rewrite <- !app_assoc; by eexists. }
  erewrite new_events_app by (simpl; rewrite Htrace, <- !app_assoc; done).
  rewrite !filter_app, Hr, Hc. repeat split.
  - rewrite !elem_of_app, !list_elem_of_singleton. auto.
  - simpl. by destruct (results_at_read nb n_cores w) as [-> _].
Qed.

Lemma unknown_format_run_ends_on_name_error_sample :
  "xlsx" ≠ "csv"
  ∧ "xlsx" ≠ "parquet"
  ∧ data Sample.world !! tsv_path Sample.world = Some Sample.tsv
  ∧ ∃ w',
      run Dask 8 "xlsx" Sample.world = (Raised (NameError "genes"), w')
      ∧ EvPrint "invalid file format" ∈ new_events Sample.world w'
      ∧ filter (λ e, is_read e = true) (new_events Sample.world w') = []
      ∧ filter (λ e, is_to_csv e = true) (new_events Sample.world w') = []
      ∧ results w' = results Sample.world.
Proof.
  assert ("xlsx" ≠ "csv") as Hcsv by done.
  assert ("xlsx" ≠ "parquet") as Hpq by done.
  assert (data Sample.world !! tsv_path Sample.world = Some Sample.tsv) as Hf by done.
  repeat split; try done.
  exact (unknown_format_run_ends_on_name_error Dask 8 "xlsx" Sample.world Sample.tsv Hcsv Hpq Hf).
Defined.

(** C3. When the tsv file is missing, or the dataset that the file format
    selects is, the run ends on the exception of the call that looked for
    it, which nothing catches, and no result is written. *)
Theorem missing_input_raises_uncaught
    (nb : Notebook) (n_cores : Z) (file_format : string) (w : World) :
  data w !! tsv_path w = None
  ∨ (∃ path, input_path w file_format = Some path ∧ data w !! path = None) →
  ∃ e w',
    run nb n_cores file_format w = (Raised e, w')
    ∧ (e = FileNotFoundError (tsv_path w)
       ∨ ∃ path, input_path w file_format = Some path ∧ e = missing nb path)
    ∧ filter (λ e, is_to_csv e = true) (new_events w w') = []
    ∧ results w' = results w.
Proof.
  intros Hmissing. destruct (data w !! tsv_path w) as [f|] eqn:Hf.
  - destruct Hmissing as [?|(path & Hpath & Hnone)]; [done|].
    exists (missing nb path). eexists. split.
    { apply run_raised. by apply (timed_cells_no_input _ _ _ _ f). }
    split; [eauto|].
    assert (∃ evs, trace (at_read nb n_cores w) = trace w ++ evs
                   ∧ filter (λ e, is_to_csv e = true) evs = []) as (evs & Htrace & Hc).
    { unfold at_read, started. destruct (client_setup nb n_cores); simpl;
        rewrite <- !app_assoc; by eexists. }
    erewrite new_events_app by (simpl; rewrite Htrace, <- !app_assoc; done).
    rewrite !filter_app, Hc. split; [done|].
    simpl. by destruct (results_at_read nb n_cores w) as [-> _].
  - exists (FileNotFoundError (tsv_path w)). eexists. split.
    { apply run_raised. by apply timed_cells_no_tsv. }
    split; [by left|]. by erewrite new_events_app by done.
Qed.

Lemma missing_input_raises_uncaught_sample :
  (data Sample.world_no_parquet !! tsv_path Sample.world_no_parquet = None
   ∨ (∃ path, input_path Sample.world_no_parquet "parquet" = Some path
              ∧ data Sample.world_no_parquet !! path = None))
  ∧ ∃ e w',
      run Dask 4 "parquet" Sample.world_no_parquet = (Raised e, w')
      ∧ (e = FileNotFoundError (tsv_path Sample.world_no_parquet)
         ∨ ∃ path, input_path Sample.world_no_parquet "parquet" = Some path
                   ∧ e = missing Dask path)
      ∧ filter (λ e, is_to_csv e = true) (new_events Sample.world_no_parquet w') = []
      ∧ results w' = results Sample.world_no_parquet.
Proof.
  assert (data Sample.world_no_parquet !! tsv_path Sample.world_no_parquet = None
          ∨ (∃ path, input_path Sample.world_no_parquet "parquet" = Some path
                     ∧ data Sample.world_no_parquet !! path = None)) as Hmissing.
  { right. by exists "../data/gene_info.parquet". }
  split; [exact Hmissing|].
  exact (missing_input_raises_uncaught Dask 4 "parquet" Sample.world_no_parquet Hmissing).
Defined.

(** * The processing context *)

Section Contexts.

Implicit Types (nb : Notebook) (w : World) (f : DataFile).

(** With the tsv file in place, a run is the cells up to the start of the
    engine followed by events that start no engine. *)
Lemma run_after_start nb n_cores file_format w f :
  data w !! tsv_path w = Some f →
  ∃ evs,
    new_events w (run nb n_cores file_format w).2
    = new_events w (at_read nb n_cores w) ++ evs
    ∧ Forall (λ e, is_start e = false) evs.
Proof.
  intros Hf.
  assert (∃ evs0, trace (at_read nb n_cores w) = trace w ++ evs0) as [evs0 Hevs0].
  { unfold at_read, started. destruct (client_setup nb n_cores); simpl;
      rewrite <- !app_assoc; by eexists. }
  pose proof (timed_cells_from_read nb n_cores file_format w f Hf) as Hfrom.
  cbv zeta in Hfrom.
  match type of Hfrom with _ = ?k _ =>
    assert (emits downstream k) as Hk
  end.
  { repeat first [ apply read_data_cell_downstream | apply compute_cell_downstream
                 | emits_step ]. }
  destruct (Hk (at_read nb n_cores w)) as (evs & Htrace & Hdown).
  rewrite <- Hfrom in Htrace. clear Hfrom Hk.
  assert (Forall (λ e, is_start e = false) evs) as Hevs.
  { eapply Forall_impl; [done|]. by intros e [? _]. }
  rewrite (new_events_app w (at_read nb n_cores w) evs0) by done.
  destruct (timed_cells nb n_cores file_format w) as [[[[s t_start] t_end]|e] w1] eqn:E;
    simpl in Htrace.
  - rewrite (run_returned _ _ _ _ _ _ _ _ E).
    destruct (writes nb n_cores); [unfold to_csv; case_bool_decide|]; simpl.
    + eexists. erewrite new_events_app
        by (simpl; rewrite Htrace, Hevs0, <- !app_assoc; done).
      split; [done|]. rewrite !Forall_app. repeat split; try done; by repeat constructor.
    + exists evs. erewrite new_events_app by (rewrite Htrace, Hevs0, <- !app_assoc; done).
      done.
    + eexists. erewrite new_events_app
        by (simpl; rewrite Htrace, Hevs0, <- !app_assoc; done).
      split; [done|]. rewrite !Forall_app. repeat split; try done; by repeat constructor.
  - rewrite (run_raised _ _ _ _ _ _ E). simpl.
    exists evs. erewrite new_events_app by (rewrite Htrace, Hevs0, <- !app_assoc; done).
    done.
Qed.

End Contexts.

(** C8. A Dask, DaskCuda or Spark run that gets past the setup cell starts
    one processing context.  With [n_cores = 0] the context is given no
    worker count, so the engine takes every core it finds; with
    [n_cores > 0] it is given exactly [n_cores]. *)
Theorem context_sized_by_core_count
    (nb : Notebook) (n_cores : Z) (file_format : string) (w : World) (f : DataFile) :
  nb ≠ Pandas →
  data w !! tsv_path w = Some f →
  ∃ c,
    client_setup nb n_cores = Some c
    ∧ filter (λ e, is_start e = true) (new_events w (run nb n_cores file_format w).2)
      = [EvStart c]
    ∧ (n_cores = 0%Z → workers c = None)
    ∧ ((0 < n_cores)%Z → workers c = Some n_cores).
Proof.
  intros Hnb Hf.
  destruct (run_after_start nb n_cores file_format w f Hf) as (evs & -> & Hevs).
  assert (∃ c, client_setup nb n_cores = Some c
               ∧ (n_cores = 0%Z → workers c = None)
               ∧ ((0 < n_cores)%Z → workers c = Some n_cores)) as (c & Hc & H0 & Hpos).
  { destruct nb; [done| | |]; simpl; case_bool_decide; eexists; (split; [done|]);
      simpl; split; intros; done || lia. }
  exists c. split; [done|]. split; [|done].
  rewrite filter_app, (filter_none is_start evs) by done.
  erewrite new_events_app.
  2:{ unfold at_read, started. rewrite Hc. simpl. by rewrite <- !app_assoc. }
  done.
Qed.

Lemma context_sized_by_core_count_sample :
  Dask ≠ Pandas
  ∧ data Sample.world !! tsv_path Sample.world = Some Sample.tsv
  ∧ ∃ c,
      client_setup Dask 0 = Some c
      ∧ filter (λ e, is_start e = true)
          (new_events Sample.world (run Dask 0 "csv" Sample.world).2)
        = [EvStart c]
      ∧ (0%Z = 0%Z → workers c = None)
      ∧ ((0 < 0)%Z → workers c = Some 0%Z).
Proof.
  assert (Dask ≠ Pandas) as Hnb by done.
  assert (data Sample.world !! tsv_path Sample.world = Some Sample.tsv) as Hf by done.
  split; [exact Hnb|]. split; [exact Hf|].
  exact (context_sized_by_core_count Dask 0 "csv" Sample.world Sample.tsv Hnb Hf).
Defined.

(** C10. The size that a run records, in the row and in the name of the
    result file, is the size of the tsv file, whatever the file format; and
    without the tsv file a run ends in the setup cell, before any dataset is
    opened, parquet included. *)
Theorem recorded_size_is_tsv_size
    (nb : Notebook) (n_cores : Z) (file_format : string) (w : World) :
  (∀ path rf,
     EvToCsv path rf ∈ new_events w (run nb n_cores file_format w).2 →
     ∃ f elapsed,
       data w !! tsv_path w = Some f
       ∧ path = Py.path_join "results"
                  (output_file nb (size_gb (st_size f)) file_format n_cores)
       ∧ body rf = [mkRow (cores_of nb n_cores) elapsed (size_gb (st_size f)) file_format
                      (dataframe_label nb)])
  ∧ (data w !! tsv_path w = None →
     ∃ w', run nb n_cores file_format w = (Raised (FileNotFoundError (tsv_path w)), w')
           ∧ filter (λ e, is_read e = true) (new_events w w') = []).
Proof.
  split.
  - intros path rf (f & elapsed & Hf & _ & _ & -> & ->)%run_to_csv. by exists f, elapsed.
  - intros Hf. eexists. split.
    { apply run_raised. by apply timed_cells_no_tsv. }
    by erewrite new_events_app by done.
Qed.

Lemma recorded_size_is_tsv_size_sample :
  (∃ path rf elapsed,
     EvToCsv path rf ∈ new_events Sample.world (run Dask 8 "parquet" Sample.world).2
     ∧ path = "results/3-DaskDataframe_6.5_parquet_8.csv"
     ∧ body rf = [mkRow 8 elapsed "6.5" "parquet" "Dask"])
  ∧ data Sample.world_no_tsv !! tsv_path Sample.world_no_tsv = None
  ∧ ∃ w', run Dask 8 "parquet" Sample.world_no_tsv
          = (Raised (FileNotFoundError (tsv_path Sample.world_no_tsv)), w')
          ∧ filter (λ e, is_read e = true) (new_events Sample.world_no_tsv w') = [].
Proof.
  assert (EvToCsv "results/3-DaskDataframe_6.5_parquet_8.csv"
            (result_frame Dask 8 42.5%float "6.5" "parquet")
          ∈ new_events Sample.world (run Dask 8 "parquet" Sample.world).2) as Hin.
  { vm_compute. repeat first [ apply list_elem_of_here | apply list_elem_of_further ]. }
  split.
  - destruct (proj1 (recorded_size_is_tsv_size Dask 8 "parquet" Sample.world) _ _ Hin)
      as (f & elapsed & Hf & Hpath & Hbody).
    injection Hf as <-.
    eexists _, _, elapsed. split; [exact Hin|]. split; [done|]. exact Hbody.
  - split; [done|].
    exact (proj2 (recorded_size_is_tsv_size Dask 8 "parquet" Sample.world_no_tsv) eq_refl).
Defined.

(** * The name of the result file *)

Section Names.

Implicit Types (a b r : string) (c : ascii).

Lemma occurs_app c a b : occurs c (a +:+ b) = occurs c a || occurs c b.
Proof. induction a as [|c' a IH]; simpl; [done|]. by rewrite IH, orb_assoc. Qed.

(** Two strings cut at the first [c] agree on both sides of the cut. *)
Lemma split_at_first c a a' r r' :
  occurs c a = false → occurs c a' = false →
  a +:+ String c r = a' +:+ String c r' → a = a' ∧ r = r'.
Proof.
  revert a'. induction a as [|x a IH]; intros [|x' a'] Ha Ha' E; simpl in *.
  - by injection E.
  - injection E as <- _. by rewrite bool_decide_true in Ha'.
  - injection E as -> _. by rewrite bool_decide_true in Ha.
  - injection E as <- E.
    apply orb_false_iff in Ha as [_ Ha]. apply orb_false_iff in Ha' as [_ Ha'].
    destruct (IH a' Ha Ha' E) as [-> ->]. done.
Qed.

Lemma digits_only c (d : Decimal.uint) :
  occurs c "0123456789" = false → occurs c (NilEmpty.string_of_uint d) = false.
Proof.
  intros Hc. simpl in Hc. repeat apply orb_false_iff in Hc as [? Hc].
  induction d; simpl; rewrite ?IHd, ?orb_false_r; done.
Qed.

Lemma str_N_chars c n : occurs c "0123456789" = false → occurs c (Py.str_N n) = false.
Proof.
  intros Hc. unfold Py.str_N, NilZero.string_of_uint.
  destruct (N.to_uint n) eqn:E; try (rewrite <- E; by apply digits_only).
  simpl in *. by apply orb_false_iff in Hc as [-> _].
Qed.

Lemma str_int_chars c n : occurs c "-0123456789" = false → occurs c (Py.str_int n) = false.
Proof.
  intros Hc. simpl in Hc. apply orb_false_iff in Hc as [Hdash Hc].
  assert (∀ d, occurs c (NilZero.string_of_uint d) = false) as Hd.
  { intros d. unfold NilZero.string_of_uint.
    destruct d; try by apply digits_only.
    simpl in *. by apply orb_false_iff in Hc as [-> _]. }
  unfold Py.str_int, NilZero.string_of_int.
  destruct (Z.to_int n); simpl; rewrite ?Hd, ?Hdash; done.
Qed.

Lemma str_int_inj n n' : Py.str_int n = Py.str_int n' → n = n'.
Proof.
  unfold Py.str_int. intros E. apply DecimalZ.to_int_inj.
  assert (∀ z, NilZero.int_of_string (NilZero.string_of_int (Z.to_int z)) = Some (Z.to_int z))
    as Hisi.
  { intros z. apply NilZero.isi; destruct z; simpl; try done;
      intros [= H]; by apply DecimalPos.Unsigned.to_uint_nonnil in H. }
  apply (f_equal NilZero.int_of_string) in E. rewrite !Hisi in E. by injection E.
Qed.

(** A size in GB with one decimal holds no underscore. *)
Lemma format_1f_chars x : occurs "_" (Py.format_1f x) = false.
Proof.
  unfold Py.format_1f. destruct (Prim2SF x) as [[]|[]| |[] m e]; try done;
    simpl; rewrite ?occurs_app, !str_N_chars; done.
Qed.

(** The name follows the pattern [{engine}_{size}_{format}_{cores}.csv]. *)
Lemma output_file_pattern nb sz fmt n_cores :
  output_file nb sz fmt n_cores
  = notebook_name nb +:+ "_" +:+ sz +:+ "_" +:+ fmt +:+ "_"
    +:+ Py.str_int (cores_of nb n_cores) +:+ ".csv".
Proof. by destruct nb. Qed.

Lemma notebook_name_inj nb nb' : notebook_name nb = notebook_name nb' → nb = nb'.
Proof. by destruct nb, nb'. Qed.

Lemma dataframe_label_inj nb nb' : dataframe_label nb = dataframe_label nb' → nb = nb'.
Proof. by destruct nb, nb'. Qed.

Lemma results_path nb sz fmt n_cores :
  Py.path_join "results" (output_file nb sz fmt n_cores)
  = "results/" +:+ output_file nb sz fmt n_cores.
Proof. by destruct nb. Qed.

(** Names agree only when engine, size, format and cores do. *)
Lemma output_file_inj nb nb' sz sz' fmt fmt' n n' :
  occurs "_" sz = false → occurs "_" sz' = false →
  occurs "_" fmt = false → occurs "_" fmt' = false →
  output_file nb sz fmt n = output_file nb' sz' fmt' n' →
  nb = nb' ∧ sz = sz' ∧ fmt = fmt' ∧ cores_of nb n = cores_of nb' n'.
Proof.
  intros Hsz Hsz' Hfmt Hfmt'. rewrite !output_file_pattern. intros E.
  apply split_at_first in E as [Hnb E]; [|by destruct nb|by destruct nb'].
  apply split_at_first in E as [-> E]; [|done..].
  apply split_at_first in E as [-> E]; [|done..].
  apply (split_at_first "."%char) in E as [Hn _]; [|by apply str_int_chars..].
  by apply notebook_name_inj in Hnb as ->; apply str_int_inj in Hn.
Qed.

End Names.

(** C7, as the code has it.  A run that writes a result file names it
    [results/{engine}_{size}_{format}_{cores}.csv] after the notebook and
    the [size], [format] and [cores] columns of the row it holds, the size
    being the size of the tsv file in GB with one decimal.  Two such runs
    write to the same name exactly when their rows agree on dataframe,
    size, format and cores, that is on every column but the time. *)
Theorem result_name_encodes_recorded_parameters
    (nb1 nb2 : Notebook) (n1 n2 : Z) (fmt1 fmt2 : string) (w1 w2 : World)
    (path1 path2 : string) (rf1 rf2 : ResultFile) :
  EvToCsv path1 rf1 ∈ new_events w1 (run nb1 n1 fmt1 w1).2 →
  EvToCsv path2 rf2 ∈ new_events w2 (run nb2 n2 fmt2 w2).2 →
  ∃ row1 row2 f1 f2,
    body rf1 = [row1] ∧ body rf2 = [row2]
    ∧ path1 = "results/" +:+ notebook_name nb1 +:+ "_" +:+ r_size row1 +:+ "_"
              +:+ r_format row1 +:+ "_" +:+ Py.str_int (r_cores row1) +:+ ".csv"
    ∧ path2 = "results/" +:+ notebook_name nb2 +:+ "_" +:+ r_size row2 +:+ "_"
              +:+ r_format row2 +:+ "_" +:+ Py.str_int (r_cores row2) +:+ ".csv"
    ∧ r_dataframe row1 = dataframe_label nb1 ∧ r_dataframe row2 = dataframe_label nb2
    ∧ data w1 !! tsv_path w1 = Some f1 ∧ data w2 !! tsv_path w2 = Some f2
    ∧ r_size row1 = size_gb (st_size f1) ∧ r_size row2 = size_gb (st_size f2)
    ∧ r_format row1 = fmt1 ∧ r_format row2 = fmt2
    ∧ r_cores row1 = cores_of nb1 n1 ∧ r_cores row2 = cores_of nb2 n2
    ∧ (path1 = path2 ↔
       r_dataframe row1 = r_dataframe row2 ∧ r_size row1 = r_size row2
       ∧ r_format row1 = r_format row2 ∧ r_cores row1 = r_cores row2).
Proof.
  intros (f1 & t1 & Hf1 & Hfmt1 & _ & -> & ->)%run_to_csv
         (f2 & t2 & Hf2 & Hfmt2 & _ & -> & ->)%run_to_csv.
  exists (mkRow (cores_of nb1 n1) t1 (size_gb (st_size f1)) fmt1 (dataframe_label nb1)),
         (mkRow (cores_of nb2 n2) t2 (size_gb (st_size f2)) fmt2 (dataframe_label nb2)), f1, f2.
  simpl. rewrite !results_path, !output_file_pattern.
  do 14 (split; [done|]). split.
  - intros E. apply (inj (String.app "results/")) in E.
    rewrite <- !output_file_pattern in E.
    apply output_file_inj in E; [by destruct E as (-> & ? & ? & ?)|apply format_1f_chars..| |].
    + by destruct Hfmt1 as [-> | ->].
    + by destruct Hfmt2 as [-> | ->].
  - by intros (->%dataframe_label_inj & -> & -> & ->).
Qed.

Lemma result_name_encodes_recorded_parameters_sample :
  EvToCsv "results/3-DaskDataframe_6.5_csv_8.csv" (result_frame Dask 8 42.5%float "6.5" "csv")
    ∈ new_events Sample.world (run Dask 8 "csv" Sample.world).2
  ∧ EvToCsv "results/4-SparkDataframe_6.5_csv_8.csv"
      (result_frame Spark 8 42.5%float "6.5" "csv")
    ∈ new_events Sample.world (run Spark 8 "csv" Sample.world).2
  ∧ ∃ row1 row2 f1 f2,
      [mkRow 8 42.5%float "6.5" "csv" "Dask"] = [row1]
      ∧ [mkRow 8 42.5%float "6.5" "csv" "Spark"] = [row2]
      ∧ "results/3-DaskDataframe_6.5_csv_8.csv"
        = "results/" +:+ notebook_name Dask +:+ "_" +:+ r_size row1 +:+ "_"
          +:+ r_format row1 +:+ "_" +:+ Py.str_int (r_cores row1) +:+ ".csv"
      ∧ "results/4-SparkDataframe_6.5_csv_8.csv"
        = "results/" +:+ notebook_name Spark +:+ "_" +:+ r_size row2 +:+ "_"
          +:+ r_format row2 +:+ "_" +:+ Py.str_int (r_cores row2) +:+ ".csv"
      ∧ r_dataframe row1 = dataframe_label Dask ∧ r_dataframe row2 = dataframe_label Spark
      ∧ data Sample.world !! tsv_path Sample.world = Some f1
      ∧ data Sample.world !! tsv_path Sample.world = Some f2
      ∧ r_size row1 = size_gb (st_size f1) ∧ r_size row2 = size_gb (st_size f2)
      ∧ r_format row1 = "csv" ∧ r_format row2 = "csv"
      ∧ r_cores row1 = cores_of Dask 8 ∧ r_cores row2 = cores_of Spark 8
      ∧ ("results/3-DaskDataframe_6.5_csv_8.csv" = "results/4-SparkDataframe_6.5_csv_8.csv" ↔
         r_dataframe row1 = r_dataframe row2 ∧ r_size row1 = r_size row2
         ∧ r_format row1 = r_format row2 ∧ r_cores row1 = r_cores row2).
Proof.
  assert (EvToCsv "results/3-DaskDataframe_6.5_csv_8.csv"
            (result_frame Dask 8 42.5%float "6.5" "csv")
          ∈ new_events Sample.world (run Dask 8 "csv" Sample.world).2) as Hin1.
  { vm_compute. repeat first [ apply list_elem_of_here | apply list_elem_of_further ]. }
  assert (EvToCsv "results/4-SparkDataframe_6.5_csv_8.csv"
            (result_frame Spark 8 42.5%float "6.5" "csv")
          ∈ new_events Sample.world (run Spark 8 "csv" Sample.world).2) as Hin2.
  { vm_compute. repeat first [ apply list_elem_of_here | apply list_elem_of_further ]. }
  split; [exact Hin1|]. split; [exact Hin2|].
  exact (result_name_encodes_recorded_parameters _ _ _ _ _ _ _ _ _ _ _ _ Hin1 Hin2).
Defined.

(** C7 as stated fails on the input size: two tsv files of different sizes
    that round to the same tenth of a GB give the same file name, all else
    being equal. *)
Lemma sizes_within_a_tenth_share_a_name :
  st_size Sample.tsv = 6512345678%N
  ∧ st_size Sample.tsv_grown = 6540000000%N
  ∧ EvToCsv "results/3-DaskDataframe_6.5_csv_8.csv"
      (result_frame Dask 8 42.5%float "6.5" "csv")
    ∈ new_events Sample.world (run Dask 8 "csv" Sample.world).2
  ∧ EvToCsv "results/3-DaskDataframe_6.5_csv_8.csv"
      (result_frame Dask 8 42.5%float "6.5" "csv")
    ∈ new_events Sample.world_grown (run Dask 8 "csv" Sample.world_grown).2.
Proof.
  split; [done|]. split; [done|]. split.
  - vm_compute. repeat first [ apply list_elem_of_here | apply list_elem_of_further ].
  - vm_compute. repeat first [ apply list_elem_of_here | apply list_elem_of_further ].
Qed.

(** * The display cells and the pipeline end to end *)

Section Display.

Implicit Types (keys : list string) (groups : list GroupRow) (k : string).

Lemma filter_key_absent groups k :
  k ∉ tax_id <$> groups → filter (λ g, tax_id g = k) groups = [].
Proof.
  induction groups as [|g groups IH]; intros Hk; [done|].
  rewrite fmap_cons in Hk. apply not_elem_of_cons in Hk as [Hne Hk].
  rewrite filter_cons_False by done. by apply IH.
Qed.

Lemma filter_key_present groups g :
  NoDup (tax_id <$> groups) → g ∈ groups →
  filter (λ g', tax_id g' = tax_id g) groups = [g].
Proof.
  induction groups as [|g0 groups IH]; intros Hnd Hg; [by apply elem_of_nil in Hg|].
  rewrite fmap_cons in Hnd. apply NoDup_cons in Hnd as [Hg0 Hnd].
  apply elem_of_cons in Hg as [->|Hg].
  - rewrite filter_cons_True by done. by rewrite filter_key_absent.
  - rewrite filter_cons_False.
    + by apply IH.
    + intros E. apply Hg0. rewrite E. by apply list_elem_of_fmap_2.
Qed.

Lemma occurrences_pos keys k : k ∈ keys → 0 < occurrences keys k.
Proof.
  intros Hk. unfold occurrences.
  assert (k ∈ filter (λ k', k' = k) keys) as Hin by by apply list_elem_of_filter.
  destruct (filter _ keys); [by apply elem_of_nil in Hin|simpl; lia].
Qed.

Lemma occurrences_absent keys k : k ∉ keys → occurrences keys k = 0.
Proof.
  intros Hk. unfold occurrences. destruct (filter _ keys) as [|k' l] eqn:E; [done|].
  assert (k' ∈ filter (λ k', k' = k) keys) as [-> ?]%list_elem_of_filter
    by (rewrite E; by left).
  done.
Qed.

(** The sorted table holds, for a key that occurs, the one row that counts
    its occurrences. *)
Lemma sorted_groups_key keys k :
  filter (λ g, tax_id g = k) (sort_values_desc (size_by_key keys))
  = if decide (k ∈ keys) then [mkGroup k (occurrences keys k)] else [].
Proof.
  assert (tax_id <$> sort_values_desc (size_by_key keys) ≡ₚ remove_dups keys) as Hkeys.
  { by rewrite sort_values_desc_perm, size_by_key_keys. }
  destruct (decide (k ∈ keys)) as [Hk|Hk].
  - apply (filter_key_present _ (mkGroup k (occurrences keys k))).
    + rewrite Hkeys. apply NoDup_remove_dups.
    + rewrite sort_values_desc_perm. unfold size_by_key.
      apply list_elem_of_fmap. exists k. split; [done|].
      rewrite merge_sort_Permutation. by apply elem_of_remove_dups.
  - apply filter_key_absent. rewrite Hkeys. by rewrite elem_of_remove_dups.
Qed.

End Display.

(** X1. The cell that shows the number of genes of one taxonomy id,
    [groups.query("tax_id == '9606'")], shows nothing when no row of
    [genes] carries that id, and otherwise exactly one row, whose count is
    the number of rows of [genes] that carry it. *)
Theorem query_shows_the_count_of_one_tax_id (genes : DataFrame) (k : string) :
  "tax_id" ∈ columns genes →
  ∃ groups,
    process_data genes = inr groups
    ∧ Display.query_tax_id k groups
      = if decide (k ∈ column_values "tax_id" genes)
        then [mkGroup k (length (filter (λ v, v = k) (column_values "tax_id" genes)))]
        else [].
Proof.
  intros Hin. eexists. split; [by apply process_data_returns|].
  apply sorted_groups_key.
Qed.

Lemma query_shows_the_count_of_one_tax_id_sample :
  "tax_id" ∈ columns Sample.genes
  ∧ ∃ groups,
      process_data Sample.genes = inr groups
      ∧ Display.query_tax_id "9606" groups
        = if decide ("9606" ∈ column_values "tax_id" Sample.genes)
          then [mkGroup "9606"
                  (length (filter (λ v, v = "9606") (column_values "tax_id" Sample.genes)))]
          else [].
Proof.
  assert ("tax_id" ∈ columns Sample.genes) as Hin by (vm_compute; apply list_elem_of_here).
  split; [exact Hin|]. exact (query_shows_the_count_of_one_tax_id Sample.genes "9606" Hin).
Defined.



(** X3. The cell that shows the organisms with the most genes,
    [groups.head()], shows the first five rows of the table, or all of them
    when there are fewer, in descending order of count; no row it leaves
    out counts more than a row it shows. *)
Theorem head_shows_the_largest_groups (genes : DataFrame) :
  "tax_id" ∈ columns genes →
  ∃ groups,
    process_data genes = inr groups
    ∧ length (Display.head groups) = min 5 (length groups)
    ∧ groups = Display.head groups ++ drop 5 groups
    ∧ StronglySorted (λ a b, count b ≤ count a) (Display.head groups)
    ∧ (∀ shown hidden,
         shown ∈ Display.head groups → hidden ∈ drop 5 groups → count hidden ≤ count shown).
Proof.
  intros Hin. eexists. split; [by apply process_data_returns|].
  set (groups := sort_values_desc _).
  assert (StronglySorted count_ge (Display.head groups ++ drop 5 groups)) as Hs.
  { unfold Display.head. rewrite take_drop. apply sort_values_desc_sorted. }
  split; [apply length_take|]. split; [by unfold Display.head; rewrite take_drop|]. split.
  - by apply StronglySorted_app_1_l in Hs.
  - intros shown hidden Hshown Hhidden.
    apply (StronglySorted_app_1_elem_of _ _ _ _ _ Hs Hshown Hhidden).
Qed.

Lemma head_shows_the_largest_groups_sample :
  "tax_id" ∈ columns Sample.genes
  ∧ ∃ groups,
      process_data Sample.genes = inr groups
      ∧ length (Display.head groups) = min 5 (length groups)
      ∧ groups = Display.head groups ++ drop 5 groups
      ∧ StronglySorted (λ a b, count b ≤ count a) (Display.head groups)
      ∧ (∀ shown hidden,
           shown ∈ Display.head groups → hidden ∈ drop 5 groups →
           count hidden ≤ count shown).
Proof.
  assert ("tax_id" ∈ columns Sample.genes) as Hin by (vm_compute; apply list_elem_of_here).
  split; [exact Hin|]. exact (head_shows_the_largest_groups Sample.genes Hin).
Defined.

(** * What the read-data cell hands to the process-data cell *)

Section Genes.

Implicit Types (cols names : list string) (r : list string) (t : DataFrame).

Lemma index_of_rename_other cols old new name :
  name ≠ old → name ≠ new →
  index_of name ((λ c, if decide (c = old) then new else c) <$> cols) = index_of name cols.
Proof.
  intros Hold Hnew. induction cols as [|c cols IH]; csimpl; [done|]. rewrite IH.
  destruct (decide (c = old)) as [->|?].
  - by rewrite !decide_False by done.
  - by destruct (decide (c = name)).
Qed.

Lemma index_of_rename_new cols old new :
  new ∉ cols →
  index_of new ((λ c, if decide (c = old) then new else c) <$> cols) = index_of old cols.
Proof.
  induction cols as [|c cols IH]; intros Hnew; csimpl; [done|].
  apply not_elem_of_cons in Hnew as [Hne Hnew]. rewrite IH by done.
  destruct (decide (c = old)) as [->|?].
  - by rewrite decide_True.
  - by rewrite decide_False by done.
Qed.

Lemma cell_rename_other old new df r name :
  name ≠ old → name ≠ new →
  cell (columns (rename old new df)) r name = cell (columns df) r name.
Proof. intros. unfold cell, rename. simpl. by rewrite index_of_rename_other. Qed.

Lemma cell_rename_new old new df r :
  new ∉ columns df →
  cell (columns (rename old new df)) r new = cell (columns df) r old.
Proof. intros. unfold cell, rename. simpl. by rewrite index_of_rename_new. Qed.

Lemma keep_cell names cols r n :
  n ∈ names → cell (filter (λ c, c ∈ names) cols) (keep names cols r) n = cell cols r n.
Proof.
  intros Hn. by rewrite !cell_record, keep_record, lookup_restrict, decide_True.
Qed.

Lemma pick_cell names cols r n :
  (∀ c, c ∈ names → c ∈ cols) → length r = length cols → n ∈ names →
  cell names (pick names cols r) n = cell cols r n.
Proof.
  intros Hsub Hlen Hn. by rewrite !cell_record, pick_record, lookup_restrict, decide_True.
Qed.

Lemma keep_length names cols r :
  length r = length cols →
  length (keep names cols r) = length (filter (λ c, c ∈ names) cols).
Proof.
  unfold keep. rewrite length_fmap. revert r.
  induction cols as [|c cols IH]; intros [|x r] Hlen; try done.
  simpl. rewrite !filter_cons. simpl. injection Hlen as Hlen.
  destruct (decide (c ∈ names)); simpl; by rewrite IH.
Qed.

Lemma where_eq_fmap (proj : list string → list string) cols cols' rs n v :
  (∀ r, r ∈ rs → cell cols' (proj r) n = cell cols r n) →
  where_eq n v cols' (proj <$> rs) = proj <$> where_eq n v cols rs.
Proof.
  intros Hcell. unfold where_eq. rewrite filter_fmap_commute. f_equal.
  apply filter_pointwise. intros r Hr. by rewrite Hcell.
Qed.

(** Whatever the notebook and the format, [genes] before the rename is the
    protein-coding rows of the stored table, each cut down to the named
    columns by a projection that keeps every named cell. *)
Lemma loaded_normal_form nb file_format t :
  file_format = "csv" ∨ file_format = "parquet" →
  rectangular t = true →
  has_columns column_names t = true →
  ∃ cols' proj,
    loaded nb file_format t
    = inr (mkFrame cols'
             (proj <$> where_eq "type_of_gene" "protein-coding" (columns t) (rows t)))
    ∧ (∀ r n, r ∈ rows t → n ∈ column_names → cell cols' (proj r) n = cell (columns t) r n)
    ∧ (∀ r, r ∈ rows t → length (proj r) = length cols')
    ∧ (∀ c, c ∈ cols' ↔ c ∈ column_names)
    ∧ (NoDup (columns t) → NoDup cols').
Proof.
  intros Hfmt Hrect Hcols.
  pose proof (λ c, has_columns_elem column_names t c Hcols) as Hsub.
  pose proof (λ r, rectangular_row t r Hrect) as Hlen.
  assert (NoDup column_names) as Hnd by compute_done.
  assert (∃ cols' proj,
            (cols' = filter (λ c, c ∈ column_names) (columns t)
             ∧ proj = keep column_names (columns t)
             ∨ cols' = column_names ∧ proj = pick column_names (columns t))
            ∧ loaded nb file_format t
              = inr (mkFrame cols'
                       (proj <$> where_eq "type_of_gene" "protein-coding" (columns t) (rows t))))
    as (cols' & proj & Hshape & Hloaded).
  { unfold loaded, branch. destruct Hfmt as [-> | ->]; simpl.
    - rewrite csv_path_returns by done. destruct nb.
      2,4: eexists _, _; split; [by left|]; do 2 f_equal; apply where_eq_fmap;
        intros; by apply keep_cell, type_of_gene_named.
      1: eexists _, _; split; [by left|]; do 2 f_equal; apply where_eq_fmap;
        intros; by apply keep_cell, type_of_gene_named.
      eexists _, _; split; [by right|]; do 2 f_equal; apply where_eq_fmap.
      intros. apply pick_cell; auto using type_of_gene_named.
    - rewrite parquet_path_returns by done. destruct nb.
      1,2,4: by eexists _, _; split; [by right|].
      eexists _, _; split; [by right|]. do 2 f_equal. apply where_eq_fmap.
      intros. apply pick_cell; auto using type_of_gene_named. }
  exists cols', proj. split; [done|].
  destruct Hshape as [[-> ->]|[-> ->]]; repeat split.
  - intros. by apply keep_cell.
  - intros. apply keep_length. auto.
  - by intros [? _]%list_elem_of_filter.
  - intros. apply list_elem_of_filter. auto.
  - intros. by apply NoDup_filter.
  - intros. apply pick_cell; auto.
  - done.
  - done.
  - done.
Qed.

End Genes.

Section EndToEnd.

Implicit Types (t : DataFrame) (k : string).

(** The keys that the process-data cell groups count, per taxonomy id, the
    protein-coding rows of the stored table. *)
Lemma tax_id_occurrences t cols' (proj : list string → list string) k :
  rectangular t = true →
  has_columns column_names t = true →
  (∀ r n, r ∈ rows t → n ∈ column_names → cell cols' (proj r) n = cell (columns t) r n) →
  (∀ c, c ∈ cols' ↔ c ∈ column_names) →
  occurrences
    (column_values "tax_id"
       (rename "#tax_id" "tax_id"
          (mkFrame cols'
             (proj <$> where_eq "type_of_gene" "protein-coding" (columns t) (rows t))))) k
  = length (coding_rows k t).
Proof.
  intros Hrect Hcols Hcell Hcols'.
  assert ("tax_id" ∉ cols') as Hfresh.
  { rewrite Hcols'. compute_done. }
  unfold occurrences, column_values, coding_rows, where_eq. simpl rows.
  rewrite !filter_fmap_commute, !length_fmap, list_filter_filter.
  f_equal. apply filter_pointwise. intros r Hr.
  rewrite (cell_rename_new "#tax_id" "tax_id" (mkFrame cols' _)) by done. simpl columns.
  rewrite Hcell by auto using tax_id_named.
  destruct (cell_present (columns t) r "#tax_id") as [v Hv].
  { eapply has_columns_elem; [done|apply tax_id_named]. }
  { by apply rectangular_row. }
  rewrite Hv. simpl. split.
  - intros [<- ?]. done.
  - intros [? [= <-]]. done.
Qed.

End EndToEnd.

(** X4. What the read-data cell binds [genes] to, for a stored table that
    is rectangular, has distinct labels and holds the seven named columns,
    whatever the notebook and the file format: a rectangular frame with
    exactly the seven columns, [#tax_id] now called [tax_id], whose rows are
    all protein-coding and as many as the protein-coding rows of the
    table. *)
Theorem genes_are_the_protein_coding_rows (nb : Notebook) (file_format : string) (t : DataFrame) :
  file_format = "csv" ∨ file_format = "parquet" →
  rectangular t = true →
  has_columns column_names t = true →
  NoDup (columns t) →
  ∃ g,
    loaded nb file_format t = inr g
    ∧ columns (rename "#tax_id" "tax_id" g) ≡ₚ genes_columns
    ∧ rectangular (rename "#tax_id" "tax_id" g) = true
    ∧ (∀ r, r ∈ rows (rename "#tax_id" "tax_id" g) →
         cell (columns (rename "#tax_id" "tax_id" g)) r "type_of_gene" = Some "protein-coding")
    ∧ length (rows (rename "#tax_id" "tax_id" g))
      = length (filter (λ r, cell (columns t) r "type_of_gene" = Some "protein-coding")
                  (rows t)).
Proof.
  intros Hfmt Hrect Hcols Hnd.
  destruct (loaded_normal_form nb file_format t Hfmt Hrect Hcols)
    as (cols' & proj & Hloaded & Hcell & Hlen & Hcols' & Hnd').
  eexists. split; [done|]. split; [|split; [|split]].
  - unfold rename. simpl.
    assert (cols' ≡ₚ column_names) as ->.
    { apply NoDup_Permutation; [by apply Hnd'|compute_done|done]. }
    done.
  - unfold rectangular, rename. simpl. rewrite length_fmap.
    apply forallb_forall. intros r (r0 & -> & Hr0%list_elem_of_filter)%list_elem_of_In%list_elem_of_fmap.
    apply Nat.eqb_eq, Hlen, Hr0.
  - intros r (r0 & -> & [Hpc Hr0]%list_elem_of_filter)%list_elem_of_fmap.
    rewrite cell_rename_other by done. simpl.
    by rewrite Hcell by auto using type_of_gene_named.
  - unfold rename. simpl. by rewrite length_fmap.
Qed.

Lemma genes_are_the_protein_coding_rows_sample :
  ("parquet" = "csv" ∨ "parquet" = "parquet")
  ∧ rectangular Sample.gene_info = true
  ∧ has_columns column_names Sample.gene_info = true
  ∧ NoDup (columns Sample.gene_info)
  ∧ ∃ g,
      loaded Spark "parquet" Sample.gene_info = inr g
      ∧ columns (rename "#tax_id" "tax_id" g) ≡ₚ genes_columns
      ∧ rectangular (rename "#tax_id" "tax_id" g) = true
      ∧ (∀ r, r ∈ rows (rename "#tax_id" "tax_id" g) →
           cell (columns (rename "#tax_id" "tax_id" g)) r "type_of_gene"
           = Some "protein-coding")
      ∧ length (rows (rename "#tax_id" "tax_id" g))
        = length (filter (λ r, cell (columns Sample.gene_info) r "type_of_gene"
                               = Some "protein-coding")
                    (rows Sample.gene_info)).
Proof.
  assert (NoDup (columns Sample.gene_info)) as Hnd by compute_done.
  split; [by right|]. split; [reflexivity|]. split; [reflexivity|]. split; [exact Hnd|].
  exact (genes_are_the_protein_coding_rows Spark "parquet" Sample.gene_info
           (or_intror eq_refl) eq_refl eq_refl Hnd).
Defined.



(** * A run, case by case *)

Section Cases.

Implicit Types (nb : Notebook) (w : World) (f : DataFile).

Lemma read_data_cell_present nb s file_format w name f :
  dataset_name file_format = Some name →
  data w !! Py.path_join (DATA_DIR s) name = Some f →
  read_data_cell nb s file_format w
  = match branch nb file_format (table f) with
    | inl e => (Raised e, log (EvRead (Py.path_join (DATA_DIR s) name)) w)
    | inr g0 =>
        match after_branch nb g0 with
        | inl e =>
            (Raised e,
             log (EvPrint ("Filename: " +:+ Py.path_join (DATA_DIR s) name))
               (log (EvRead (Py.path_join (DATA_DIR s) name)) w))
        | inr g =>
            (Returned (rename "#tax_id" "tax_id" g),
             log (EvPrint ("Filename: " +:+ Py.path_join (DATA_DIR s) name))
               (log (EvRead (Py.path_join (DATA_DIR s) name)) w))
        end
    end.
Proof.
  unfold branch.
  intros [[-> ->]|[-> ->]]%dataset_name_known E; simpl;
    unfold read_data_cell; simpl; unfold mbind, Cell_bind, open_table; rewrite E.
  - destruct (csv_branch nb (table f)) as [e|g0]; [done|]. simpl.
    by destruct (after_branch nb g0).
  - destruct (parquet_branch nb (table f)) as [e|g0]; [done|]. simpl.
    by destruct (after_branch nb g0).
Qed.

Lemma dirs_written nb n_cores w path :
  "results" ∈ dirs (tick (computed nb
    (log (EvPrint ("Filename: " +:+ path)) (log (EvRead path) (at_read nb n_cores w))))).
Proof.
  simpl. destruct (results_computed nb
    (log (EvPrint ("Filename: " +:+ path)) (log (EvRead path) (at_read nb n_cores w))))
    as [_ ->]. simpl.
  destruct (results_at_read nb n_cores w) as [_ ->].
  by apply elem_of_union_l, elem_of_singleton.
Qed.

(** A run is what [run_cases] says. *)
Lemma run_unfold nb n_cores file_format w :
  run nb n_cores file_format w = run_cases nb n_cores file_format w.
Proof.
  unfold run_cases. destruct (data w !! tsv_path w) as [f|] eqn:Hf.
  2:{ apply run_raised. by apply timed_cells_no_tsv. }
  cbv zeta. destruct (input_path w file_format) as [path|] eqn:Hpath.
  2:{ apply run_raised. apply (timed_cells_unknown_format _ _ _ _ f Hf).
      unfold input_path in Hpath. by destruct (dataset_name file_format). }
  destruct (data w !! path) as [fi|] eqn:Hfi.
  2:{ apply run_raised. by apply (timed_cells_no_input _ _ _ _ f). }
  pose proof Hpath as Hpath'. unfold input_path in Hpath'.
  apply fmap_Some in Hpath' as (name & Hname & ->).
  assert (data (at_read nb n_cores w) !! Py.path_join (data_dir w) name = Some fi) as Hfi'
    by by rewrite data_at_read.
  pose proof (read_data_cell_present nb
    (mkSetup (data_dir w) (tsv_path w) (size_gb (st_size f)) "results")
    file_format _ name fi Hname Hfi') as Hread. simpl in Hread.
  destruct (branch nb file_format (table fi)) as [e|g0] eqn:Hbranch.
  { apply run_raised. rewrite (timed_cells_from_read _ _ _ _ f Hf). cbv zeta.
    by rewrite (bind_raised _ _ _ _ _ Hread). }
  destruct (after_branch nb g0) as [e|g] eqn:Hafter; simpl.
  { apply run_raised. rewrite (timed_cells_from_read _ _ _ _ f Hf). cbv zeta.
    by rewrite (bind_raised _ _ _ _ _ Hread). }
  destruct (process_data (rename "#tax_id" "tax_id" g)) as [e|groups] eqn:Hproc.
  { apply run_raised. rewrite (timed_cells_from_read _ _ _ _ f Hf). cbv zeta.
    rewrite (bind_returned _ _ _ _ _ Hread). by rewrite Hproc. }
  assert (loaded nb file_format (table fi) = inr g) as Hloaded.
  { unfold loaded. by rewrite Hbranch. }
  rewrite (run_returned _ _ _ _ _ _ _ _
             (timed_cells_returns nb n_cores _ _ _ _ _ _ _ Hf Hpath Hfi Hloaded Hproc)).
  simpl. destruct (writes nb n_cores); [|done].
  unfold to_csv. by rewrite bool_decide_true by apply dirs_written.
Qed.

End Cases.

(** * The fields of the worlds a run goes through *)

Section Fields.

Implicit Types (nb : Notebook) (w : World).

Lemma environ_at_read nb n_cores w : environ (at_read nb n_cores w) = environ w.
Proof. unfold at_read, started. by destruct (client_setup nb n_cores). Qed.

Lemma dirs_at_read nb n_cores w : dirs (at_read nb n_cores w) = {["results"]} ∪ dirs w.
Proof. apply results_at_read. Qed.

Lemma results_of_at_read nb n_cores w : results (at_read nb n_cores w) = results w.
Proof. apply results_at_read. Qed.

Lemma clock_of_at_read nb n_cores w : clock (at_read nb n_cores w) = clock w.
Proof. apply clock_at_read. Qed.

Lemma ticks_at_read nb n_cores w : ticks (at_read nb n_cores w) = S (ticks w).
Proof. apply clock_at_read. Qed.

Lemma trace_at_read nb n_cores w :
  trace (at_read nb n_cores w)
  = trace w ++ [EvGetsize (tsv_path w); EvMakedirs "results"] ++ start_events nb n_cores.
Proof.
  unfold at_read, started, start_events. destruct (client_setup nb n_cores); simpl;
    by rewrite <- ?app_assoc, ?app_nil_r.
Qed.

Lemma environ_computed nb w : environ (computed nb w) = environ w.
Proof. by destruct nb. Qed.

Lemma data_computed nb w : data (computed nb w) = data w.
Proof. by destruct nb. Qed.

Lemma dirs_computed nb w : dirs (computed nb w) = dirs w.
Proof. by destruct nb. Qed.

Lemma results_of_computed nb w : results (computed nb w) = results w.
Proof. by destruct nb. Qed.

Lemma clock_of_computed nb w : clock (computed nb w) = clock w.
Proof. by destruct nb. Qed.

Lemma ticks_computed nb w : ticks (computed nb w) = ticks w.
Proof. by destruct nb. Qed.

Lemma trace_computed nb w : trace (computed nb w) = trace w ++ stop_events nb.
Proof. destruct nb; simpl; by rewrite <- ?app_assoc, ?app_nil_r. Qed.

End Fields.

Create Rewrite HintDb world.

#[local] Hint Rewrite environ_at_read data_at_read dirs_at_read results_of_at_read
  clock_of_at_read ticks_at_read trace_at_read environ_computed data_computed dirs_computed
  results_of_computed clock_of_computed ticks_computed trace_computed : world.

(** Splits a run into its cases and computes the fields of the world each
    case leaves. *)
Ltac run_case_analysis :=
  rewrite run_unfold; unfold run_cases;
  repeat match goal with
         | |- context [match ?x with _ => _ end] => destruct x eqn:?
         end;
  cbv zeta; repeat (progress (simpl; autorewrite with world)).

Section Stays.

Implicit Types (nb : Notebook) (w : World).

(** A run leaves the environment, the data directory and the clock as they
    were, and makes no directory but [results]. *)
Lemma run_stays nb n_cores file_format w :
  environ (run nb n_cores file_format w).2 = environ w
  ∧ data (run nb n_cores file_format w).2 = data w
  ∧ clock (run nb n_cores file_format w).2 = clock w
  ∧ dirs w ⊆ dirs (run nb n_cores file_format w).2
  ∧ dirs (run nb n_cores file_format w).2 ⊆ {["results"]} ∪ dirs w.
Proof.
  run_case_analysis; repeat split; try done; try apply union_subseteq_r.
Qed.

End Stays.

(** Computes the events a run has added, once its case is known. *)
Ltac run_events :=
  unfold new_events; repeat (progress (simpl; autorewrite with world));
  rewrite <- ?app_assoc, ?drop_app_length;
  repeat (progress (rewrite ?filter_app, ?filter_cons, ?filter_nil; simpl)).

Section Engine.

Implicit Types (nb : Notebook) (w : World).

Lemma start_events_not_to_csv nb n_cores :
  filter (λ e, is_to_csv e = true) (start_events nb n_cores) = [].
Proof. unfold start_events. by destruct (client_setup nb n_cores). Qed.

Lemma stop_events_not_to_csv nb : filter (λ e, is_to_csv e = true) (stop_events nb) = [].
Proof. by destruct nb. Qed.

Lemma start_events_not_stop nb n_cores :
  filter (λ e, is_stop e = true) (start_events nb n_cores) = [].
Proof. unfold start_events. by destruct (client_setup nb n_cores). Qed.

Lemma stop_events_stop nb :
  nb ≠ Pandas → filter (λ e, is_stop e = true) (stop_events nb) = [EvStop].
Proof. by destruct nb. Qed.

End Engine.

(** X6. A run, however it ends, leaves the environment and the data
    directory as they were and makes no directory but [results]; to the
    results directory it does nothing, or it puts there the one file that
    its trace records. *)
Theorem run_touches_only_its_result_file
    (nb : Notebook) (n_cores : Z) (file_format : string) (w : World) :
  environ (run nb n_cores file_format w).2 = environ w
  ∧ data (run nb n_cores file_format w).2 = data w
  ∧ dirs w ⊆ dirs (run nb n_cores file_format w).2
  ∧ dirs (run nb n_cores file_format w).2 ⊆ {["results"]} ∪ dirs w
  ∧ (results (run nb n_cores file_format w).2 = results w
     ∧ filter (λ e, is_to_csv e = true) (new_events w (run nb n_cores file_format w).2) = []
     ∨ ∃ path rf,
         results (run nb n_cores file_format w).2 = <[path := rf]> (results w)
         ∧ filter (λ e, is_to_csv e = true) (new_events w (run nb n_cores file_format w).2)
           = [EvToCsv path rf]).
Proof.
  destruct (run_stays nb n_cores file_format w) as (Henv & Hdata & _ & Hsub & Hsup).
  do 4 (split; [done|]). clear.
  run_case_analysis; run_events;
    rewrite ?start_events_not_to_csv, ?stop_events_not_to_csv; simpl; eauto.
Qed.

(** X7. The Dask, DaskCuda and Spark notebooks shut their engine down
    exactly when the run returns: a run that ends on an exception never
    reaches [client.close()] or [spark.stop()], also when the engine had
    been started. *)
Theorem engine_is_stopped_only_when_the_run_returns
    (nb : Notebook) (n_cores : Z) (file_format : string) (w : World) :
  nb ≠ Pandas →
  filter (λ e, is_stop e = true) (new_events w (run nb n_cores file_format w).2)
  = match (run nb n_cores file_format w).1 with
    | Returned _ => [EvStop]
    | Raised _ => []
    end.
Proof.
  intros Hnb.
  run_case_analysis; run_events;
    rewrite ?start_events_not_stop, ?stop_events_stop by done; done.
Qed.

Lemma engine_is_stopped_only_when_the_run_returns_sample :
  Dask ≠ Pandas
  ∧ filter (λ e, is_stop e = true) (new_events Sample.world (run Dask 8 "xlsx" Sample.world).2)
    = match (run Dask 8 "xlsx" Sample.world).1 with
      | Returned _ => [EvStop]
      | Raised _ => []
      end.
Proof.
  assert (Dask ≠ Pandas) as Hnb by done.
  split; [exact Hnb|].
  exact (engine_is_stopped_only_when_the_run_returns Dask 8 "xlsx" Sample.world Hnb).
Defined.

(** * What a run reads of the data directory *)

Section Reads.

Implicit Types (nb : Notebook) (w : World) (d : gmap string DataFile).

Lemma tsv_path_with_data d w : tsv_path (with_data d w) = tsv_path w.
Proof. done. Qed.

Lemma input_path_with_data d w file_format :
  input_path (with_data d w) file_format = input_path w file_format.
Proof. done. Qed.

Lemma at_read_with_data nb n_cores d w :
  at_read nb n_cores (with_data d w) = with_data d (at_read nb n_cores w).
Proof. unfold at_read, started. by destruct (client_setup nb n_cores). Qed.

Lemma computed_with_data nb d w : computed nb (with_data d w) = with_data d (computed nb w).
Proof. by destruct nb. Qed.

Lemma log_with_data e d w : log e (with_data d w) = with_data d (log e w).
Proof. done. Qed.

Lemma tick_with_data d w : tick (with_data d w) = with_data d (tick w).
Proof. done. Qed.

Lemma with_result_with_data path rf d w :
  with_result path rf (with_data d w) = with_data d (with_result path rf w).
Proof. done. Qed.

Lemma with_data_with_data d d' w : with_data d (with_data d' w) = with_data d w.
Proof. done. Qed.

End Reads.

Create Rewrite HintDb swap.

#[local] Hint Rewrite tsv_path_with_data input_path_with_data at_read_with_data
  computed_with_data log_with_data tick_with_data with_result_with_data
  with_data_with_data : swap.

(** X8. Of the data directory a run reads two things: the size of the tsv
    file and the table of the dataset that the file format selects.  Two
    data directories that agree on these give the same outcome, the same
    events and the same results; so a csv run does not need the parquet
    dataset, and a parquet run uses the tsv file for its size alone. *)
Theorem run_reads_the_tsv_size_and_the_selected_table
    (nb : Notebook) (n_cores : Z) (file_format : string) (w : World)
    (d1 d2 : gmap string DataFile) :
  st_size <$> d1 !! tsv_path w = st_size <$> d2 !! tsv_path w →
  (∀ path, input_path w file_format = Some path → table <$> d1 !! path = table <$> d2 !! path) →
  run nb n_cores file_format (with_data d2 w)
  = ((run nb n_cores file_format (with_data d1 w)).1,
     with_data d2 (run nb n_cores file_format (with_data d1 w)).2).
Proof.
  intros Hsize Htable. rewrite !run_unfold. unfold run_cases.
  autorewrite with swap.
  change (data (with_data d1 w)) with d1. change (data (with_data d2 w)) with d2.
  change (clock (with_data d1 w)) with (clock w). change (clock (with_data d2 w)) with (clock w).
  change (ticks (with_data d1 w)) with (ticks w). change (ticks (with_data d2 w)) with (ticks w).
  destruct (d1 !! tsv_path w) as [f1|], (d2 !! tsv_path w) as [f2|]; try done.
  injection Hsize as Hsize. rewrite Hsize. cbv zeta.
  destruct (input_path w file_format) as [path|]; [|by autorewrite with swap].
  specialize (Htable path eq_refl).
  destruct (d1 !! path) as [fi1|], (d2 !! path) as [fi2|]; try done.
  injection Htable as ->.
  destruct (branch nb file_format (table fi2)) as [e|g0]; [by autorewrite with swap|].
  destruct (and_then _ _); [by autorewrite with swap|].
  destruct (writes nb n_cores); by autorewrite with swap.
Qed.

Lemma run_reads_the_tsv_size_and_the_selected_table_sample :
  st_size <$> data Sample.world !! tsv_path Sample.world
  = st_size <$> Sample.data_blank_tsv !! tsv_path Sample.world
  ∧ (∀ path, input_path Sample.world "parquet" = Some path →
       table <$> data Sample.world !! path = table <$> Sample.data_blank_tsv !! path)
  ∧ run Spark 2 "parquet" (with_data Sample.data_blank_tsv Sample.world)
    = ((run Spark 2 "parquet" (with_data (data Sample.world) Sample.world)).1,
       with_data Sample.data_blank_tsv
         (run Spark 2 "parquet" (with_data (data Sample.world) Sample.world)).2).
Proof.
  assert (st_size <$> data Sample.world !! tsv_path Sample.world
          = st_size <$> Sample.data_blank_tsv !! tsv_path Sample.world) as Hsize by done.
  assert (∀ path, input_path Sample.world "parquet" = Some path →
            table <$> data Sample.world !! path = table <$> Sample.data_blank_tsv !! path)
    as Htable.
  { intros path [= <-]. done. }
  split; [exact Hsize|]. split; [exact Htable|].
  exact (run_reads_the_tsv_size_and_the_selected_table Spark 2 "parquet" Sample.world
           (data Sample.world) Sample.data_blank_tsv Hsize Htable).
Defined.

(** * Runs one after the other *)

Section Series.

Implicit Types (nb : Notebook) (w : World).

(** What makes a configuration valid is not changed by a run. *)
Lemma valid_configuration_stays nb n_cores file_format n fmt w :
  valid_configuration n fmt w →
  valid_configuration n fmt (run nb n_cores file_format w).2.
Proof.
  destruct (run_stays nb n_cores file_format w) as (Henv & Hdata & _).
  unfold valid_configuration, tsv_path, input_path, data_dir. by rewrite Henv, Hdata.
Qed.

Lemma tsv_file_stays nb n_cores file_format w :
  data (run nb n_cores file_format w).2 !! tsv_path (run nb n_cores file_format w).2
  = data w !! tsv_path w.
Proof.
  destruct (run_stays nb n_cores file_format w) as (Henv & Hdata & _).
  unfold tsv_path, data_dir. by rewrite Henv, Hdata.
Qed.

End Series.

(** X9. Two runs one after the other over the same data, each in a valid
    configuration and each writing its result: the results directory then
    holds the file of the second run on top of the file of the first.  The
    two files have the same name exactly when the runs agree on notebook,
    file format and cores; then the row of the first run is gone and the
    directory has gained one file, otherwise both rows are kept. *)
Theorem later_run_replaces_only_its_own_result_file
    (nb1 nb2 : Notebook) (n1 n2 : Z) (fmt1 fmt2 : string) (w : World) :
  valid_configuration n1 fmt1 w → valid_configuration n2 fmt2 w →
  writes nb1 n1 = true → writes nb2 n2 = true →
  ∃ path1 path2 rf1 rf2,
    results (run nb1 n1 fmt1 w).2 = <[path1 := rf1]> (results w)
    ∧ run nb2 n2 fmt2 (run nb1 n1 fmt1 w).2
      = (Returned (), (run nb2 n2 fmt2 (run nb1 n1 fmt1 w).2).2)
    ∧ results (run nb2 n2 fmt2 (run nb1 n1 fmt1 w).2).2
      = <[path2 := rf2]> (<[path1 := rf1]> (results w))
    ∧ (path1 = path2 ↔ nb1 = nb2 ∧ fmt1 = fmt2 ∧ cores_of nb1 n1 = cores_of nb2 n2)
    ∧ (path1 = path2 →
       results (run nb2 n2 fmt2 (run nb1 n1 fmt1 w).2).2 = <[path1 := rf2]> (results w))
    ∧ (path1 ≠ path2 →
       results (run nb2 n2 fmt2 (run nb1 n1 fmt1 w).2).2 !! path1 = Some rf1
       ∧ results (run nb2 n2 fmt2 (run nb1 n1 fmt1 w).2).2 !! path2 = Some rf2).
Proof.
  intros Hv1 Hv2 Hw1 Hw2.
  pose proof Hv1 as (_ & Hfmt1 & [f Hf] & _). pose proof Hv2 as (_ & Hfmt2 & _).
  destruct (run_valid nb1 n1 fmt1 w f Hv1 Hf) as (e1 & w1 & E1 & R1 & _).
  pose proof (valid_configuration_stays nb1 n1 fmt1 n2 fmt2 w Hv2) as Hv2'.
  pose proof (tsv_file_stays nb1 n1 fmt1 w) as Hf'. rewrite Hf in Hf'.
  destruct (run_valid nb2 n2 fmt2 _ f Hv2' Hf') as (e2 & w2 & E2 & R2 & _).
  rewrite E2. rewrite E1 in E2, R2 |- *. simpl in *. rewrite Hw1 in R1. rewrite Hw2, R1 in R2.
  eexists _, _, _, _. split; [exact R1|]. split; [done|]. split; [exact R2|].
  split; [|split].
  - rewrite !results_path. split.
    + intros E. apply (inj (String.app "results/")) in E.
      apply output_file_inj in E; [by destruct E as (-> & _ & -> & ->)|apply format_1f_chars..| |].
      * by destruct Hfmt1 as [-> | ->].
      * by destruct Hfmt2 as [-> | ->].
    + intros (-> & -> & E). f_equal. rewrite !output_file_pattern. by rewrite E.
  - intros E. rewrite R2, E. apply insert_insert_eq.
  - intros E. rewrite R2. split.
    + rewrite lookup_insert_ne by done. apply lookup_insert_eq.
    + apply lookup_insert_eq.
Qed.

Lemma later_run_replaces_only_its_own_result_file_sample :
  valid_configuration 8 "csv" Sample.world ∧ valid_configuration 8 "parquet" Sample.world
  ∧ writes Dask 8 = true
  ∧ ∃ path1 path2 rf1 rf2,
      results (run Dask 8 "csv" Sample.world).2 = <[path1 := rf1]> (results Sample.world)
      ∧ run Dask 8 "parquet" (run Dask 8 "csv" Sample.world).2
        = (Returned (), (run Dask 8 "parquet" (run Dask 8 "csv" Sample.world).2).2)
      ∧ results (run Dask 8 "parquet" (run Dask 8 "csv" Sample.world).2).2
        = <[path2 := rf2]> (<[path1 := rf1]> (results Sample.world))
      ∧ (path1 = path2 ↔ Dask = Dask ∧ "csv" = "parquet" ∧ cores_of Dask 8 = cores_of Dask 8)
      ∧ (path1 = path2 →
         results (run Dask 8 "parquet" (run Dask 8 "csv" Sample.world).2).2
         = <[path1 := rf2]> (results Sample.world))
      ∧ (path1 ≠ path2 →
         results (run Dask 8 "parquet" (run Dask 8 "csv" Sample.world).2).2 !! path1 = Some rf1
         ∧ results (run Dask 8 "parquet" (run Dask 8 "csv" Sample.world).2).2 !! path2
           = Some rf2).
Proof.
  assert (valid_configuration 8 "csv" Sample.world) as Hv1.
  { split; [done|]. split; [by left|]. split; [by eexists|].
    eexists _, _. split; [done|]. split; [by vm_compute|]. by vm_compute. }
  assert (valid_configuration 8 "parquet" Sample.world) as Hv2.
  { split; [done|]. split; [by right|]. split; [by eexists|].
    eexists _, _. split; [done|]. split; [by vm_compute|]. by vm_compute. }
  split; [exact Hv1|]. split; [exact Hv2|]. split; [done|].
  exact (later_run_replaces_only_its_own_result_file Dask Dask 8 8 "csv" "parquet"
           Sample.world Hv1 Hv2 eq_refl eq_refl).
Defined.

(** * What a run prints, and the time it reports *)

Section Console.

Implicit Types (nb : Notebook) (w : World).

Lemma printed_app evs evs' : printed (evs ++ evs') = printed evs ++ printed evs'.
Proof. apply omap_app. Qed.

Lemma printed_start_events nb n_cores : printed (start_events nb n_cores) = [].
Proof. unfold start_events. by destruct (client_setup nb n_cores). Qed.

Lemma printed_stop_events nb : printed (stop_events nb) = [].
Proof. by destruct nb. Qed.

Lemma closing_line_first nb t_start t_end :
  ∃ c rest, closing_line nb t_start t_end = String c rest ∧ c ≠ "F"%char ∧ c ≠ "i"%char.
Proof. destruct nb; by eexists _, _. Qed.

End Console.

(** X10. A run that returns has printed two lines, the name of the dataset
    it read and then the elapsed time, in this order; a run that ends on an
    exception has printed no elapsed time, whatever else it printed. *)
Theorem elapsed_time_is_printed_only_when_the_run_returns
    (nb : Notebook) (n_cores : Z) (file_format : string) (w : World) :
  match (run nb n_cores file_format w).1 with
  | Returned _ =>
      ∃ path,
        input_path w file_format = Some path
        ∧ printed (new_events w (run nb n_cores file_format w).2)
          = ["Filename: " +:+ path;
             closing_line nb (clock w (ticks w)) (clock w (S (ticks w)))]
  | Raised _ =>
      ∀ t_start t_end,
        closing_line nb t_start t_end
        ∉ printed (new_events w (run nb n_cores file_format w).2)
  end.
Proof.
  run_case_analysis; try (simpl in *; congruence); run_events;
    repeat (progress (rewrite ?printed_app, ?printed_start_events, ?printed_stop_events; simpl));
    eauto;
    intros t_start t_end; destruct (closing_line_first nb t_start t_end) as (c & rest & -> & ? & ?);
    rewrite ?elem_of_cons, ?elem_of_nil; intros Hin; repeat destruct Hin as [Hin|Hin]; cbv [String.append] in Hin; congruence.
Qed.

(** X11. The time in the row of a result file is the difference of the two
    clock readings of the run, [end - start], and the last thing the run
    does after writing the file is to print that same number with one
    decimal. *)
Theorem closing_line_reports_the_recorded_time
    (nb : Notebook) (n_cores : Z) (file_format : string) (w : World)
    (path : string) (rf : ResultFile) :
  EvToCsv path rf ∈ new_events w (run nb n_cores file_format w).2 →
  ∃ row,
    body rf = [row]
    ∧ r_time row = PrimFloat.sub (clock w (S (ticks w))) (clock w (ticks w))
    ∧ last (new_events w (run nb n_cores file_format w).2)
      = Some (EvPrint (print_label nb +:+ ": " +:+ Py.format_1f (r_time row) +:+ " sec.")).
Proof.
  intros Hin.
  assert (EvToCsv path rf
          ∈ filter (λ e, is_to_csv e = true) (new_events w (run nb n_cores file_format w).2))
    as Hcsv by by apply list_elem_of_filter.
  clear Hin. revert Hcsv.
  run_case_analysis; run_events;
    rewrite ?start_events_not_to_csv, ?stop_events_not_to_csv; simpl;
    rewrite ?elem_of_nil; try done.
  rewrite list_elem_of_singleton. intros [= -> ->]. eexists. split; [done|]. split; [done|].
  repeat (progress (rewrite ?last_cons, ?last_app)). done.
Qed.

Lemma closing_line_reports_the_recorded_time_sample :
  EvToCsv "results/4-SparkDataframe_6.5_parquet_2.csv"
    (result_frame Spark 2 42.5%float "6.5" "parquet")
    ∈ new_events Sample.world (run Spark 2 "parquet" Sample.world).2
  ∧ ∃ row,
      [mkRow 2 42.5%float "6.5" "parquet" "Spark"] = [row]
      ∧ r_time row = PrimFloat.sub (Sample.wall 1) (Sample.wall 0)
      ∧ last (new_events Sample.world (run Spark 2 "parquet" Sample.world).2)
        = Some (EvPrint (print_label Spark +:+ ": " +:+ Py.format_1f (r_time row) +:+ " sec.")).
Proof.
  assert (EvToCsv "results/4-SparkDataframe_6.5_parquet_2.csv"
            (result_frame Spark 2 42.5%float "6.5" "parquet")
          ∈ new_events Sample.world (run Spark 2 "parquet" Sample.world).2) as Hin.
  { vm_compute. repeat first [apply list_elem_of_here | apply list_elem_of_further]. }
  split; [exact Hin|].
  exact (closing_line_reports_the_recorded_time Spark 2 "parquet" Sample.world _ _ Hin).
Defined.

(** X12. The notebooks compare [n_cores] with zero and do nothing else with
    a count that is not positive: a negative count gives the run that zero
    gives, so the Dask, DaskCuda and Spark notebooks then start their engine
    without a worker count and write no result file. *)
Theorem core_count_below_one_is_taken_as_zero
    (nb : Notebook) (n_cores : Z) (file_format : string) (w : World) :
  (n_cores ≤ 0)%Z →
  run nb n_cores file_format w = run nb 0 file_format w
  ∧ (nb ≠ Pandas →
     results (run nb n_cores file_format w).2 = results w
     ∧ ∀ c, EvStart c ∈ new_events w (run nb n_cores file_format w).2 → workers c = None).
Proof.
  intros Hn.
  assert (client_setup nb n_cores = client_setup nb 0) as Hclient.
  { unfold client_setup. by rewrite (bool_decide_false (0 < n_cores)%Z) by lia. }
  assert (nb ≠ Pandas → writes nb n_cores = false) as Hwrites.
  { destruct nb; [done|..]; intros _; simpl; by rewrite bool_decide_false by lia. }
  assert (run nb n_cores file_format w = run nb 0 file_format w) as Hrun.
  { rewrite !run_unfold. unfold run_cases, at_read, started. rewrite Hclient.
    destruct nb; [done|..]; simpl; by rewrite (bool_decide_false (0 < n_cores)%Z) by lia. }
  split; [done|]. intros Hnb. specialize (Hwrites Hnb). split.
  - revert Hwrites. run_case_analysis; congruence.
  - intros c Hin.
    assert (EvStart c
            ∈ filter (λ e, is_start e = true) (new_events w (run nb n_cores file_format w).2))
      as Hstart by by apply list_elem_of_filter.
    clear Hin. revert Hstart.
    assert (∀ evs, EvStart c ∈ filter (λ e, is_start e = true) (start_events nb n_cores ++ evs)
                   → filter (λ e, is_start e = true) evs = [] → workers c = None) as Hc.
    { intros evs. rewrite filter_app. intros Hin E. rewrite E, app_nil_r in Hin.
      apply list_elem_of_filter in Hin as [_ Hin]. unfold start_events in Hin. rewrite Hclient in Hin.
      destruct nb; [done|..]; simpl in Hin; apply list_elem_of_singleton in Hin as [= ->]; done. }
    run_case_analysis; unfold new_events; repeat (progress (simpl; autorewrite with world));
      rewrite <- ?app_assoc, ?drop_app_length; simpl; rewrite ?elem_of_nil; try done;
      intros Hin; apply (Hc _ Hin); by destruct nb.
Qed.

Lemma core_count_below_one_is_taken_as_zero_sample :
  (-4 ≤ 0)%Z
  ∧ run Dask (-4) "csv" Sample.world = run Dask 0 "csv" Sample.world
  ∧ (Dask ≠ Pandas →
     results (run Dask (-4) "csv" Sample.world).2 = results Sample.world
     ∧ ∀ c, EvStart c ∈ new_events Sample.world (run Dask (-4) "csv" Sample.world).2 →
            workers c = None).
Proof.
  assert (-4 ≤ 0)%Z as Hn by lia.
  split; [exact Hn|].
  exact (core_count_below_one_is_taken_as_zero Dask (-4) "csv" Sample.world Hn).
Defined.

(** * The notebook that fetches the data: the size of a directory *)

Section Trees.

Import Fetch.

(** Induction on a tree, with the property known of the entries of a
    directory. *)
Fixpoint Tree_entries_ind (P : Tree → Prop)
    (Hleaf : ∀ name content, P (Leaf name content))
    (Hbranch : ∀ name entries, Forall P entries → P (Branch name entries))
    (t : Tree) : P t :=
  match t with
  | Leaf name content => Hleaf name content
  | Branch name entries =>
      Hbranch name entries
        ((fix go (l : list Tree) : Forall P l :=
            match l with
            | [] => @List.Forall_nil _ P
            | c :: l => @List.Forall_cons _ P c l (Tree_entries_ind P Hleaf Hbranch c) (go l)
            end) entries)
  end.

Lemma represents_entries m path entries :
  foldr (λ c rest, represents m (Py.path_join path (name c)) c ∧ rest) True entries
  ↔ Forall (λ c, represents m (Py.path_join path (name c)) c) entries.
Proof.
  induction entries as [|c l IH]; simpl; [by split|].
  rewrite Forall_cons. by rewrite IH.
Qed.

Lemma depth_entries entries fuel :
  foldr (λ c rest, depth c `max` rest) 0 entries ≤ fuel
  ↔ Forall (λ c, depth c ≤ fuel) entries.
Proof.
  induction entries as [|c l IH]; simpl; [split; [done|lia]|].
  rewrite Forall_cons, <- IH. lia.
Qed.

End Trees.

Section Walk.

Import Fetch.

Variable dir_size : string → N.

Implicit Types (m : Files) (d : Disk) (t : Tree).

Lemma walk_sizes_app walked walked' acc d :
  walk_sizes dir_size (walked ++ walked') acc d
  = match walk_sizes dir_size walked acc d with
    | (Done n, d') => walk_sizes dir_size walked' n d'
    | (Failed e, d') => (Failed e, d')
    | (OutOfFuel, d') => (OutOfFuel, d')
    end.
Proof.
  revert acc d. induction walked as [|[[path dirs] files] walked IH]; intros acc d; [done|].
  simpl. unfold mbind, Step_bind.
  destruct (add_sizes dir_size path files acc d) as [[n| |] d']; [apply IH|done..].
Qed.

(** The entries of a directory, as the loop meets them: the files of the
    directory itself, then the directories below it. *)
Lemma walk_entries m path fuel entries :
  Forall (λ c, represents m (Py.path_join path (name c)) c) entries →
  Forall (λ c, depth c ≤ fuel) entries →
  Forall (λ c, ∀ path fuel,
            match c with
            | Leaf _ _ => True
            | Branch _ _ =>
                represents m path c → depth c ≤ fuel →
                ∃ walked,
                  walk fuel m path = Some walked
                  ∧ ∀ d acc, fs d = m →
                      walk_sizes dir_size walked acc d = (Done (acc + total c)%N, d)
            end) entries →
  ∃ below a b,
    mapM (λ nm, walk fuel m (Py.path_join path nm))
      (filter (λ nm, is_dir m (Py.path_join path nm) = true) (name <$> entries))
    = Some below
    ∧ (a + b)%N = foldr (λ c rest, (total c + rest)%N) 0%N entries
    ∧ ∀ d acc, fs d = m →
        add_sizes dir_size path
          (filter (λ nm, is_dir m (Py.path_join path nm) = false) (name <$> entries)) acc d
        = (Done (acc + a)%N, d)
        ∧ walk_sizes dir_size (concat below) acc d = (Done (acc + b)%N, d).
Proof.
  induction entries as [|c entries IH]; intros Hrep Hdepth Hwalk.
  { exists [], 0%N, 0%N. repeat split; simpl; by rewrite ?N.add_0_r. }
  apply Forall_cons in Hrep as [Hc Hrep]. apply Forall_cons in Hdepth as [Hdc Hdepth].
  apply Forall_cons in Hwalk as [Hwc Hwalk].
  destruct (IH Hrep Hdepth Hwalk) as (below & a & b & Hbelow & Hsum & Hsizes).
  destruct c as [nm content|nm sub]; simpl in Hc |- *.
  - assert (is_dir m (Py.path_join path nm) = false) as Hdir by (unfold is_dir; by rewrite Hc).
    rewrite filter_cons_False by congruence. rewrite filter_cons_True by done.
    exists below, (N.of_nat (length content) + a)%N, b. split; [done|]. split; [lia|].
    intros d acc Hd. destruct (Hsizes d (acc + N.of_nat (length content))%N Hd) as [Ha Hb].
    split.
    + simpl. unfold mbind, Step_bind, getsize. rewrite Hd, Hc. etrans; [exact Ha|]. do 2 f_equal. lia.
    + apply Hsizes, Hd.
  - assert (is_dir m (Py.path_join path nm) = true) as Hdir
      by (unfold is_dir; by destruct Hc as [-> _]).
    rewrite filter_cons_True by done. rewrite filter_cons_False by congruence.
    destruct (Hwc (Py.path_join path nm) fuel Hc Hdc) as (walked & Hwalked & Hsub).
    exists (walked :: below), a, (total (Branch nm sub) + b)%N.
    split.
    { simpl. rewrite Hwalked. simpl.
      change (list_fmap Tree string name entries) with (name <$> entries).
      by rewrite Hbelow. }
    split; [simpl in *; lia|].
    intros d acc Hd. split; [apply Hsizes, Hd|].
    simpl. rewrite walk_sizes_app, (Hsub d acc Hd).
    destruct (Hsizes d (acc + total (Branch nm sub))%N Hd) as [_ Hb].
    etrans; [exact Hb|]. do 2 f_equal. simpl. lia.
Qed.

(** Walking a directory tree and adding up gives the bytes of its files. *)
Lemma walk_total t m path fuel :
  match t with
  | Leaf _ _ => True
  | Branch _ _ =>
      represents m path t → depth t ≤ fuel →
      ∃ walked,
        walk fuel m path = Some walked
        ∧ ∀ d acc, fs d = m → walk_sizes dir_size walked acc d = (Done (acc + total t)%N, d)
  end.
Proof.
  revert path fuel. induction t as [|nm entries IH] using Tree_entries_ind; [done|].
  intros path fuel [Hdir Hrep] Hdepth. apply represents_entries in Hrep.
  destruct fuel as [|fuel]; [simpl in Hdepth; lia|].
  simpl in Hdepth. apply le_S_n, depth_entries in Hdepth.
  destruct (walk_entries m path fuel entries Hrep Hdepth) as (below & a & b & Hbelow & Hsum & Hsizes).
  { eapply Forall_impl; [exact IH|]. intros c Hc path' fuel'. apply Hc. }
  eexists. split.
  - simpl. rewrite Hdir. simpl. by rewrite Hbelow.
  - intros d acc Hd. simpl. unfold mbind, Step_bind.
    destruct (Hsizes d acc Hd) as [-> _]. destruct (Hsizes d (acc + a)%N Hd) as [_ ->].
    do 2 f_equal. fold total. simpl in Hsum. lia.
Qed.

End Walk.

(** * The notebook that fetches the data: paths and files *)

Section FetchPaths.

Lemma string_app_cons (x : ascii) (a b : string) : String x a +:+ b = String x (a +:+ b).
Proof. done. Qed.

Lemma string_app_assoc (a b c : string) : (a +:+ b) +:+ c = a +:+ b +:+ c.
Proof. induction a as [|x a IH]; [done|]. by rewrite !string_app_cons, IH. Qed.

Lemma string_app_length (a b : string) :
  String.length (a +:+ b) = String.length a + String.length b.
Proof. induction a as [|x a IH]; [done|]. rewrite string_app_cons. simpl. by rewrite IH. Qed.

(** Two strings that end alike: ends of one length are equal. *)
Lemma string_app_end (a a' x y : string) :
  String.length x = String.length y → a +:+ x = a' +:+ y → x = y.
Proof.
  revert a'. induction a as [|c a IH]; intros [|c' a'] Hlen E;
    rewrite ?string_app_cons in E.
  - done.
  - apply (f_equal String.length) in E. simpl in E. rewrite !string_app_length in E.
    simpl in E. lia.
  - apply (f_equal String.length) in E. simpl in E. rewrite !string_app_length in E.
    simpl in E. lia.
  - injection E as _ E. by apply (IH a').
Qed.

(** A joined path ends on its second part. *)
Lemma path_join_end a b : ∃ pre, Py.path_join a b = pre +:+ b.
Proof.
  unfold Py.path_join. repeat case_match; [by exists ""..| |].
  - by exists a.
  - exists (a +:+ "/"). by rewrite string_app_assoc.
Qed.

Lemma path_join_longer a b :
  b ≠ "" → String.prefix "/" b = false →
  String.length a < String.length (Py.path_join a b).
Proof.
  intros Hb Hrel. unfold Py.path_join. rewrite Hrel.
  assert (0 < String.length b) by (destruct b; [done|simpl; lia]).
  repeat case_match; subst; rewrite ?string_app_length; simpl; lia.
Qed.

Lemma archive_not_tsv_out h dir :
  Py.path_join h "data/gene_info.gz" ≠ Py.path_join dir "gene_info.tsv".
Proof.
  destruct (path_join_end h "data/gene_info.gz") as [pre ->].
  destruct (path_join_end dir "gene_info.tsv") as [pre' ->].
  change "data/gene_info.gz" with ("data" +:+ "/gene_info.gz").
  rewrite <- string_app_assoc. by intros ?%string_app_end.
Qed.

Lemma tsv_out_not_parquet_out dir dir' :
  Py.path_join dir "gene_info.tsv" ≠ Py.path_join dir' "gene_info.parquet".
Proof.
  destruct (path_join_end dir "gene_info.tsv") as [pre ->].
  destruct (path_join_end dir' "gene_info.parquet") as [pre' ->].
  change "gene_info.parquet" with ("gene" +:+ "_info.parquet").
  rewrite <- (string_app_assoc pre'). by intros ?%string_app_end.
Qed.

Lemma data_dir_not_parquet_out dir : dir ≠ Py.path_join dir "gene_info.parquet".
Proof.
  intros E. pose proof (path_join_longer dir "gene_info.parquet") as Hlen.
  rewrite <- E in Hlen. specialize (Hlen ltac:(done) ltac:(done)). lia.
Qed.

End FetchPaths.

Section FetchFiles.

Import Fetch.

Implicit Types (m : Files) (n : Node).

Lemma lookup_place path n m k :
  place path n m !! k = if decide (k = path) then Some n else enter path k <$> m !! k.
Proof.
  unfold place. destruct (decide (k = path)) as [->|Hk].
  - by rewrite lookup_insert_eq.
  - rewrite lookup_insert_ne by done. rewrite map_lookup_imap. by destruct (m !! k).
Qed.

Lemma enter_file path k n content : enter path k n = File content ↔ n = File content.
Proof. destruct n as [c|names]; simpl; [done|]. by case_match. Qed.

Lemma enter_is_directory path k n : is_directory (enter path k n) = is_directory n.
Proof. destruct n as [c|names]; simpl; [done|]. by case_match. Qed.

Lemma place_present path n m k : is_Some (m !! k) → is_Some (place path n m !! k).
Proof.
  intros [n' Hk]. rewrite lookup_place, Hk. by case_decide.
Qed.

Lemma open_wb_present path m m' k :
  open_wb path m = inr m' → is_Some (m !! k) → is_Some (m' !! k).
Proof.
  unfold open_wb. intros E Hk. repeat case_match; simplify_eq.
  - destruct (decide (k = path)) as [->|]; [by rewrite lookup_insert_eq|].
    by rewrite lookup_insert_ne.
  - by apply place_present.
Qed.

Lemma makedirs_present path m m' k :
  makedirs path m = inr m' → is_Some (m !! k) → is_Some (m' !! k).
Proof.
  unfold makedirs. intros E Hk. repeat case_match; simplify_eq. by apply place_present.
Qed.

Lemma insert_present path n m k : is_Some (m !! k) → is_Some (<[path := n]> m !! k).
Proof.
  intros Hk. destruct (decide (k = path)) as [->|]; [by rewrite lookup_insert_eq|].
  by rewrite lookup_insert_ne.
Qed.

(** Nothing that [copytree] finds is gone afterwards. *)
Lemma copytree_present fuel src dst m k :
  is_Some (m !! k) → is_Some ((copytree fuel src dst m).2 !! k).
Proof.
  revert src dst m. induction fuel as [|fuel IH]; intros src dst m Hk; [done|].
  simpl. destruct (m !! src) as [[content|names]|]; [done| |done].
  destruct (makedirs dst m) as [e|m1] eqn:Hmk; [done|].
  assert (is_Some (m1 !! k)) as Hk1 by by eapply makedirs_present.
  assert (∀ entries acc, is_Some (acc.2 !! k) →
            is_Some ((foldl (copy_entry (copytree fuel) src dst) acc entries).2 !! k)) as Hfold.
  { induction entries as [|entry entries IHe]; intros acc Hacc; [done|].
    simpl. apply IHe. unfold copy_entry. destruct acc as [[errors|e|] m0]; [|done..].
    simpl in Hacc. destruct (entry.2).
    - specialize (IH (Py.path_join src entry.1) (Py.path_join dst entry.1) m0 Hacc).
      destruct (copytree fuel _ _ m0) as [[[]|[]|] m']; done.
    - destruct (m0 !! Py.path_join src entry.1) as [[content|]|]; [|done..].
      destruct (open_wb _ m0) as [e|m'] eqn:Hopen; [done|].
      simpl. apply insert_present. by eapply open_wb_present. }
  specialize (Hfold ((λ name, (name, is_dir m (Py.path_join src name))) <$> names)
                (Done [], m1) Hk1).
  destruct (foldl _ _ _) as [[[|]|e|] m2]; done.
Qed.

Lemma copytree_done fuel src dst m m' :
  copytree fuel src dst m = (Done (), m') → m !! dst = None ∧ is_Some (m' !! dst).
Proof.
  destruct fuel as [|fuel]; [done|]. simpl.
  destruct (m !! src) as [[content|names]|]; [done| |done].
  destruct (makedirs dst m) as [e|m1] eqn:Hmk; [done|].
  assert (m !! dst = None ∧ is_Some (m1 !! dst)) as [Hnew Hdst].
  { unfold makedirs in Hmk. repeat case_match; simplify_eq. split; [done|].
    rewrite lookup_place. by rewrite decide_True. }
  assert (∀ entries acc, is_Some (acc.2 !! dst) →
            is_Some ((foldl (copy_entry (copytree fuel) src dst) acc entries).2 !! dst)) as Hfold.
  { induction entries as [|entry entries IHe]; intros acc Hacc; [done|].
    simpl. apply IHe. unfold copy_entry. destruct acc as [[errors|e|] m0]; [|done..].
    simpl in Hacc. destruct (entry.2).
    - pose proof (copytree_present fuel (Py.path_join src entry.1) (Py.path_join dst entry.1)
                    m0 dst Hacc).
      destruct (copytree fuel _ _ m0) as [[[]|[]|] m'']; done.
    - destruct (m0 !! Py.path_join src entry.1) as [[content|]|]; [|done..].
      destruct (open_wb _ m0) as [e|m''] eqn:Hopen; [done|].
      simpl. apply insert_present. by eapply open_wb_present. }
  specialize (Hfold ((λ name, (name, is_dir m (Py.path_join src name))) <$> names)
                (Done [], m1) Hdst).
  destruct (foldl _ _ _) as [[[|]|e|] m2]; intros; simplify_eq. done.
Qed.

(** With something at [dst] already, [copytree] raises. *)
Lemma copytree_exists fuel src dst m :
  is_Some (m !! dst) → ∃ e, copytree (S fuel) src dst m = (Failed e, m).
Proof.
  intros [n Hdst]. simpl. destruct (m !! src) as [[content|names]|]; [by eexists| |by eexists].
  unfold makedirs. rewrite Hdst. by eexists.
Qed.

End FetchFiles.

Section FetchRun.

Import Fetch.

Variable dir_size : string → N.
Variable gunzip : list Byte.byte → list Byte.byte * option string.

Implicit Types (m : Files) (d : Disk).

Lemma add_sizes_disk path files acc d : (add_sizes dir_size path files acc d).2 = d.
Proof.
  revert acc. induction files as [|f files IH]; intros acc; [done|].
  simpl. unfold mbind, Step_bind, getsize.
  destruct (fs d !! Py.path_join path f) as [[content|names]|]; [apply IH..|done].
Qed.

Lemma walk_sizes_disk walked acc d : (walk_sizes dir_size walked acc d).2 = d.
Proof.
  revert acc. induction walked as [|[[path dirs] files] walked IH]; intros acc; [done|].
  simpl. unfold mbind, Step_bind. pose proof (add_sizes_disk path files acc d) as Hd.
  destruct (add_sizes dir_size path files acc d) as [[n|e|] d']; simpl in Hd; subst; [apply IH|done..].
Qed.

Lemma directory_size_disk fuel top d : (directory_size dir_size fuel top d).2 = d.
Proof.
  unfold directory_size, mbind, Step_bind, os_walk.
  destruct (walk fuel (fs d) top) as [walked|]; [apply walk_sizes_disk|done].
Qed.

Lemma add_sizes_fs path files acc d d' :
  fs d = fs d' → (add_sizes dir_size path files acc d).1 = (add_sizes dir_size path files acc d').1.
Proof.
  intros Hfs. revert acc. induction files as [|f files IH]; intros acc; [done|].
  simpl. unfold mbind, Step_bind, getsize. rewrite <- Hfs.
  destruct (fs d !! Py.path_join path f) as [[content|names]|]; [apply IH..|done].
Qed.

Lemma walk_sizes_fs walked acc d d' :
  fs d = fs d' → (walk_sizes dir_size walked acc d).1 = (walk_sizes dir_size walked acc d').1.
Proof.
  intros Hfs. revert acc. induction walked as [|[[path dirs] files] walked IH]; intros acc; [done|].
  simpl. unfold mbind, Step_bind.
  pose proof (add_sizes_fs path files acc d d' Hfs) as E.
  pose proof (add_sizes_disk path files acc d) as Hd.
  pose proof (add_sizes_disk path files acc d') as Hd'.
  destruct (add_sizes dir_size path files acc d) as [r d1],
    (add_sizes dir_size path files acc d') as [r' d1']. simpl in *. subst.
  destruct r' as [n|e|]; [apply IH|done..].
Qed.

(** The size of a directory is a matter of the file system alone. *)
Lemma directory_size_fs fuel top d d' :
  fs d = fs d' → (directory_size dir_size fuel top d).1 = (directory_size dir_size fuel top d').1.
Proof.
  intros Hfs. unfold directory_size, mbind, Step_bind, os_walk. rewrite <- Hfs.
  destruct (walk fuel (fs d) top) as [walked|]; [by apply walk_sizes_fs|done].
Qed.

Lemma notebook_unfold fuel d :
  notebook dir_size gunzip fuel d = notebook_cases dir_size gunzip fuel d.
Proof.
  unfold notebook, notebook_cases, archive, tsv_out, parquet_in, parquet_out, data_dir,
    getenv, path_home, print, change, unzip, getsize, shutil_copytree, with_stdout, with_fs.
  unfold mbind at 1 2 3 4 5 6 7 8 9 10, Step_bind at 1 2 3 4 5 6 7 8 9 10.
  cbn [fs env home stdout].
  destruct (makedirs_exist_ok _ (fs d)) as [e|m1]; [done|]. cbn [fs env home stdout].
  destruct (m1 !! _) as [[c|names]|]; [|done..].
  destruct (open_wb _ m1) as [e|m2]; [done|]. cbn [fs env home stdout].
  destruct ((gunzip _).2) as [msg|]; [done|]. cbn [fs env home stdout].
  rewrite lookup_insert_eq. cbn [fs env home stdout].
  destruct (copytree fuel _ _ _) as [[[]|e|] m4]; [|done..]. cbn [fs env home stdout].
  match goal with
  | |- context [directory_size dir_size fuel ?top ?d4] =>
      pose proof (directory_size_disk fuel top d4) as Hd4;
      destruct (directory_size dir_size fuel top d4) as [[n|e|] d5]
  end; simpl in Hd4; subst d5; try done.
  cbn [fs env home stdout]. by rewrite <- !app_assoc.
Qed.

Lemma place_other path n m k :
  k ≠ path →
  (place path n m !! k = None ↔ m !! k = None)
  ∧ ∀ content, place path n m !! k = Some (File content) ↔ m !! k = Some (File content).
Proof.
  intros Hk. rewrite lookup_place, decide_False by done. split.
  - apply fmap_None.
  - intros content. destruct (m !! k) as [n'|]; simpl; [|done].
    split; intros [= E]; f_equal; by apply enter_file in E || apply enter_file.
Qed.

Lemma makedirs_exist_ok_present path m m' k :
  makedirs_exist_ok path m = inr m' → is_Some (m !! k) → is_Some (m' !! k).
Proof.
  unfold makedirs_exist_ok. intros E Hk. repeat case_match; simplify_eq; [done|].
  by apply place_present.
Qed.

(** Making the data directory leaves every file as it is and nothing
    where there was nothing, the directory itself apart. *)
Lemma makedirs_exist_ok_other path m m' k :
  makedirs_exist_ok path m = inr m' →
  (k ≠ path → m' !! k = None → m !! k = None)
  ∧ ∀ content, m' !! k = Some (File content) → m !! k = Some (File content).
Proof.
  unfold makedirs_exist_ok. intros E. repeat case_match; simplify_eq; [done|].
  split.
  - intros Hk. by apply place_other.
  - intros content. rewrite lookup_place. destruct (decide (k = path)); [done|].
    destruct (m !! k) as [n'|]; simpl; [|done]. intros [= E]. f_equal. by apply enter_file in E.
Qed.

Lemma open_wb_other path m m' k :
  open_wb path m = inr m' → k ≠ path →
  (m' !! k = None ↔ m !! k = None)
  ∧ ∀ content, m' !! k = Some (File content) ↔ m !! k = Some (File content).
Proof.
  unfold open_wb. intros E Hk. repeat case_match; simplify_eq.
  - by rewrite lookup_insert_ne.
  - by apply place_other.
Qed.

(** What has to hold for the notebook to return, and what it then
    leaves. *)
Lemma notebook_done fuel d d' :
  notebook dir_size gunzip fuel d = (Done (), d') →
  ∃ packed file_size m,
    fs d !! archive d = Some (File packed)
    ∧ (gunzip packed).2 = None
    ∧ fs d !! parquet_out d = None
    ∧ is_Some (m !! parquet_out d)
    ∧ (directory_size dir_size fuel (parquet_out d) d').1 = Done file_size
    ∧ d' = mkDisk (env d) (home d) m
             (stdout d
              ++ ["unzipping " +:+ archive d +:+ " to " +:+ tsv_out d;
                  "File Size: " +:+ size_gb (N.of_nat (length (gunzip packed).1)) +:+ " GB";
                  "Filename: " +:+ parquet_out d;
                  "File Size: " +:+ size_gb file_size +:+ " GB"]).
Proof.
  rewrite notebook_unfold. unfold notebook_cases.
  destruct (makedirs_exist_ok _ _) as [e|m1] eqn:Hmk; [done|].
  destruct (m1 !! archive d) as [[packed|names]|] eqn:Hgz; [|done..].
  destruct (open_wb _ m1) as [e|m2] eqn:Hopen; [done|].
  assert (archive d ≠ tsv_out d) as Hne by apply archive_not_tsv_out.
  assert (m2 !! archive d = Some (File packed)) as Hgz2
    by by apply (open_wb_other _ _ _ _ Hopen Hne).
  rewrite Hgz2. cbv zeta.
  destruct ((gunzip packed).2) as [msg|] eqn:Hok; [done|].
  destruct (copytree fuel _ _ _) as [[[]|e|] m4] eqn:Hcopy; [|done..].
  apply copytree_done in Hcopy as [Hnew Hdst].
  destruct (directory_size _ _ _ _) as [[file_size|e|] d5] eqn:Hsize; [|done..].
  intros [= <-]. exists packed, file_size, m4.
  split; [by apply (makedirs_exist_ok_other _ _ _ _ Hmk)|]. split; [done|]. split.
  - rewrite lookup_insert_ne in Hnew by apply tsv_out_not_parquet_out.
    apply (open_wb_other _ _ _ _ Hopen) in Hnew;
      [|by apply not_eq_sym, tsv_out_not_parquet_out].
    apply (makedirs_exist_ok_other _ _ _ _ Hmk); [|done].
    apply not_eq_sym, data_dir_not_parquet_out.
  - split; [done|]. split.
    + apply (f_equal fst) in Hsize. simpl in Hsize. rewrite <- Hsize.
      by apply directory_size_fs.
    + unfold with_stdout, with_fs. simpl. by rewrite <- !app_assoc.
Qed.

(** With [gene_info.parquet] in the data directory already, the notebook
    ends on an exception. *)
Lemma notebook_blocked fuel d :
  is_Some (fs d !! parquet_out d) →
  ∃ e d', notebook dir_size gunzip (S fuel) d = (Failed e, d').
Proof.
  intros Hdst. rewrite notebook_unfold. unfold notebook_cases.
  destruct (makedirs_exist_ok _ _) as [e|m1] eqn:Hmk; [by eexists _, _|].
  destruct (m1 !! archive d) as [[packed|names]|] eqn:Hgz; [|by eexists _, _..].
  destruct (open_wb _ m1) as [e|m2] eqn:Hopen; [by eexists _, _|].
  cbv zeta. destruct ((gunzip _).2) as [msg|] eqn:Hok; [by eexists _, _|].
  match goal with
  | |- context [copytree (S fuel) ?src ?dst ?m3] =>
      destruct (copytree_exists fuel src dst m3) as [e ->]
  end; [|by eexists _, _].
  apply insert_present. eapply open_wb_present; [done|].
  by eapply makedirs_exist_ok_present.
Qed.

End FetchRun.

(** X13. The cell that walks the copied parquet dataset computes the bytes
    of all its regular files, those in nested directories included: on a
    file system that holds a directory tree at the path walked, the loop
    over [os.walk] ends with [file_size] equal to the total of the tree and
    leaves the disk as it was. *)
Theorem directory_size_is_the_total_of_the_files_below
    (dir_size : string → N) (d : Fetch.Disk) (top name : string)
    (entries : list Fetch.Tree) (fuel : nat) :
  Fetch.represents (Fetch.fs d) top (Fetch.Branch name entries) →
  Fetch.depth (Fetch.Branch name entries) ≤ fuel →
  Fetch.directory_size dir_size fuel top d
  = (Fetch.Done (Fetch.total (Fetch.Branch name entries)), d).
Proof.
  intros Hrep Hdepth.
  destruct (walk_total dir_size (Fetch.Branch name entries) (Fetch.fs d) top fuel Hrep Hdepth)
    as (walked & Hwalk & Hsizes).
  unfold Fetch.directory_size, mbind, Fetch.Step_bind, Fetch.os_walk. rewrite Hwalk.
  by rewrite (Hsizes d 0%N eq_refl).
Qed.

Lemma directory_size_is_the_total_of_the_files_below_sample :
  Fetch.represents (Fetch.fs FetchSample.fetched) "../data/gene_info.parquet" FetchSample.parquet
  ∧ Fetch.depth FetchSample.parquet ≤ 2
  ∧ Fetch.directory_size FetchSample.dir_size 2 "../data/gene_info.parquet" FetchSample.fetched
    = (Fetch.Done 32%N, FetchSample.fetched).
Proof.
  assert (Fetch.represents (Fetch.fs FetchSample.fetched) "../data/gene_info.parquet"
            FetchSample.parquet) as Hrep by (vm_compute; by repeat split).
  assert (Fetch.depth FetchSample.parquet ≤ 2) as Hdepth by (vm_compute; lia).
  split; [exact Hrep|]. split; [exact Hdepth|].
  exact (directory_size_is_the_total_of_the_files_below FetchSample.dir_size
           FetchSample.fetched "../data/gene_info.parquet" _ _ 2 Hrep Hdepth).
Defined.



(** X15. The fetch notebook does not return twice on one disk: the run
    that returned has left [gene_info.parquet] in the data directory, and a
    second run ends on an exception, raised by [shutil.copytree] at the
    latest. *)
Theorem fetch_does_not_return_twice
    (dir_size : string → N) (gunzip : list Byte.byte → list Byte.byte * option string)
    (fuel fuel' : nat) (d : Fetch.Disk) :
  (Fetch.notebook dir_size gunzip fuel d).1 = Fetch.Done () →
  ∃ e,
    (Fetch.notebook dir_size gunzip (S fuel') (Fetch.notebook dir_size gunzip fuel d).2).1
    = Fetch.Failed e.
Proof.
  destruct (Fetch.notebook dir_size gunzip fuel d) as [r d'] eqn:E. simpl. intros ->.
  apply notebook_done in E as (packed & file_size & m & Hgz & Hok & Hnew & Hdst & _ & ->).
  destruct (notebook_blocked dir_size gunzip fuel'
              (Fetch.mkDisk (Fetch.env d) (Fetch.home d) m
                 (Fetch.stdout d
                  ++ ["unzipping " +:+ Fetch.archive d +:+ " to " +:+ Fetch.tsv_out d;
                      "File Size: " +:+ size_gb (N.of_nat (length (gunzip packed).1)) +:+ " GB";
                      "Filename: " +:+ Fetch.parquet_out d;
                      "File Size: " +:+ size_gb file_size +:+ " GB"]))) as (e & d' & ->);
    [done|]. by exists e.
Qed.

Lemma fetch_does_not_return_twice_sample :
  (Fetch.notebook FetchSample.dir_size FetchSample.gunzip 3 FetchSample.disk).1 = Fetch.Done ()
  ∧ (Fetch.notebook FetchSample.dir_size FetchSample.gunzip 3
       (Fetch.notebook FetchSample.dir_size FetchSample.gunzip 3 FetchSample.disk).2).1
    = Fetch.Failed (Fetch.FileExistsError "../data/gene_info.parquet")
  ∧ ∃ e,
      (Fetch.notebook FetchSample.dir_size FetchSample.gunzip 3
         (Fetch.notebook FetchSample.dir_size FetchSample.gunzip 3 FetchSample.disk).2).1
      = Fetch.Failed e.
Proof.
  assert ((Fetch.notebook FetchSample.dir_size FetchSample.gunzip 3 FetchSample.disk).1
          = Fetch.Done ()) as Hdone by (vm_compute; reflexivity).
  split; [exact Hdone|]. split; [vm_compute; reflexivity|].
  exact (fetch_does_not_return_twice FetchSample.dir_size FetchSample.gunzip 3 2
           FetchSample.disk Hdone).
Defined.

(** X16. [unzip] empties the output before it reads the archive.  With an
    earlier [gene_info.tsv] in the data directory and an archive that gzip
    fails on, the notebook ends on the exception of gzip, and the earlier
    file is gone: in its place are the bytes that were read before the
    failure.  The archive is as it was, and one line has been printed. *)
Theorem failed_unpacking_has_replaced_the_tsv_file
    (dir_size : string → N) (gunzip : list Byte.byte → list Byte.byte * option string)
    (fuel : nat) (d : Fetch.Disk) (names : list string) (old packed : list Byte.byte)
    (msg : string) :
  Fetch.fs d !! Fetch.data_dir d = Some (Fetch.Dir names) →
  Fetch.fs d !! Fetch.tsv_out d = Some (Fetch.File old) →
  Fetch.fs d !! Fetch.archive d = Some (Fetch.File packed) →
  (gunzip packed).2 = Some msg →
  (Fetch.notebook dir_size gunzip fuel d).1 = Fetch.Failed (Fetch.GzipError msg)
  ∧ Fetch.fs (Fetch.notebook dir_size gunzip fuel d).2 !! Fetch.tsv_out d
    = Some (Fetch.File (gunzip packed).1)
  ∧ Fetch.fs (Fetch.notebook dir_size gunzip fuel d).2 !! Fetch.archive d
    = Some (Fetch.File packed)
  ∧ Fetch.stdout (Fetch.notebook dir_size gunzip fuel d).2
    = Fetch.stdout d
      ++ ["unzipping " +:+ Fetch.archive d +:+ " to " +:+ Fetch.tsv_out d].
Proof.
  intros Hdir Htsv Hgz Hbad.
  assert (Fetch.archive d ≠ Fetch.tsv_out d) as Hne by apply archive_not_tsv_out.
  rewrite notebook_unfold. unfold Fetch.notebook_cases, Fetch.makedirs_exist_ok.
  rewrite Hdir, Hgz. unfold Fetch.open_wb. rewrite Htsv.
  rewrite lookup_insert_ne, Hgz by done. cbv zeta. rewrite Hbad. simpl.
  split; [done|]. split; [by rewrite lookup_insert_eq|]. split; [|done].
  by rewrite !lookup_insert_ne by done.
Qed.

Lemma failed_unpacking_has_replaced_the_tsv_file_sample :
  Fetch.fs FetchSample.disk_bad_archive !! Fetch.data_dir FetchSample.disk_bad_archive
  = Some (Fetch.Dir ["gene_info.tsv"])
  ∧ Fetch.fs FetchSample.disk_bad_archive !! Fetch.tsv_out FetchSample.disk_bad_archive
    = Some (Fetch.File FetchSample.tsv)
  ∧ Fetch.fs FetchSample.disk_bad_archive !! Fetch.archive FetchSample.disk_bad_archive
    = Some (Fetch.File FetchSample.tsv)
  ∧ (FetchSample.gunzip FetchSample.tsv).2 = Some "Not a gzipped file"
  ∧ (Fetch.notebook FetchSample.dir_size FetchSample.gunzip 3 FetchSample.disk_bad_archive).1
    = Fetch.Failed (Fetch.GzipError "Not a gzipped file")
  ∧ Fetch.fs (Fetch.notebook FetchSample.dir_size FetchSample.gunzip 3
                FetchSample.disk_bad_archive).2
    !! Fetch.tsv_out FetchSample.disk_bad_archive
    = Some (Fetch.File (FetchSample.gunzip FetchSample.tsv).1)
  ∧ Fetch.fs (Fetch.notebook FetchSample.dir_size FetchSample.gunzip 3
                FetchSample.disk_bad_archive).2
    !! Fetch.archive FetchSample.disk_bad_archive
    = Some (Fetch.File FetchSample.tsv)
  ∧ Fetch.stdout (Fetch.notebook FetchSample.dir_size FetchSample.gunzip 3
                    FetchSample.disk_bad_archive).2
    = Fetch.stdout FetchSample.disk_bad_archive
      ++ ["unzipping " +:+ Fetch.archive FetchSample.disk_bad_archive +:+ " to "
          +:+ Fetch.tsv_out FetchSample.disk_bad_archive].
Proof.
  assert (Fetch.fs FetchSample.disk_bad_archive !! Fetch.data_dir FetchSample.disk_bad_archive
          = Some (Fetch.Dir ["gene_info.tsv"])) as Hdir by (vm_compute; reflexivity).
  assert (Fetch.fs FetchSample.disk_bad_archive !! Fetch.tsv_out FetchSample.disk_bad_archive
          = Some (Fetch.File FetchSample.tsv)) as Htsv by (vm_compute; reflexivity).
  assert (Fetch.fs FetchSample.disk_bad_archive !! Fetch.archive FetchSample.disk_bad_archive
          = Some (Fetch.File FetchSample.tsv)) as Hgz by (vm_compute; reflexivity).
  assert ((FetchSample.gunzip FetchSample.tsv).2 = Some "Not a gzipped file") as Hbad
    by reflexivity.
  split; [exact Hdir|]. split; [exact Htsv|]. split; [exact Hgz|]. split; [exact Hbad|].
  exact (failed_unpacking_has_replaced_the_tsv_file FetchSample.dir_size FetchSample.gunzip 3
           FetchSample.disk_bad_archive _ _ _ _ Hdir Htsv Hgz Hbad).
Defined.

(** * A dataset that lacks a column *)

Lemma start_events_not_read (nb : Notebook) (n_cores : Z) :
  filter (λ e, is_read e = true) (start_events nb n_cores) = [].
Proof. unfold start_events. by destruct (client_setup nb n_cores). Qed.

(** X17. If the dataset that the file format selects is there but lacks one
    of the seven columns the notebooks name, the run opens it and ends on an
    exception without writing a result.  The Pandas, Dask and DaskCuda
    notebooks fail in the reader, before the file name is printed; the Spark
    notebook reads the whole table and fails in [select], after printing
    the file name. *)
Theorem dataset_without_a_named_column_ends_the_run
    (nb : Notebook) (n_cores : Z) (file_format : string) (w : World)
    (f fi : DataFile) (path : string) :
  data w !! tsv_path w = Some f →
  input_path w file_format = Some path →
  data w !! path = Some fi →
  has_columns column_names (table fi) = false →
  ∃ e,
    (run nb n_cores file_format w).1 = Raised e
    ∧ results (run nb n_cores file_format w).2 = results w
    ∧ filter (λ e, is_read e = true) (new_events w (run nb n_cores file_format w).2)
      = [EvRead path]
    ∧ printed (new_events w (run nb n_cores file_format w).2)
      = match nb with
        | Spark => ["Filename: " +:+ path]
        | Pandas | Dask | DaskCuda => []
        end.
Proof.
  intros Hf Hpath Hfi Hcols.
  assert (has_columns ("type_of_gene" :: column_names) (table fi) = false) as Hcols'.
  { change (has_columns ("type_of_gene" :: column_names) (table fi))
      with (bool_decide ("type_of_gene" ∈ columns (table fi))
            && has_columns column_names (table fi)).
    by rewrite Hcols, andb_false_r. }
  assert (match nb with
          | Spark =>
              ∃ e, branch nb file_format (table fi) = inr (table fi)
                   ∧ and_then (after_branch nb (table fi))
                       (λ g, process_data (rename "#tax_id" "tax_id" g)) = inl e
          | Pandas | Dask | DaskCuda => ∃ e, branch nb file_format (table fi) = inl e
          end) as Hbranch.
  { unfold input_path, dataset_name in Hpath. unfold branch.
    destruct nb; simpl; unfold read_csv, read_parquet, select; simpl;
      repeat case_decide; simplify_eq; rewrite ?Hcols, ?Hcols'; simpl; eauto. }
  rewrite run_unfold. unfold run_cases. rewrite Hf, Hpath, Hfi. cbv zeta.
  destruct nb; destruct Hbranch as (e & Hb); [| |destruct Hb as [Hb Ha]|]; rewrite Hb;
    rewrite ?Ha; exists e; (split; [done|]);
    repeat (progress (simpl; autorewrite with world)); (split; [done|]);
    run_events; rewrite ?start_events_not_read;
    repeat (progress (rewrite ?printed_app, ?printed_start_events; simpl)); split; try done.
Qed.

Lemma dataset_without_a_named_column_ends_the_run_sample :
  data (with_data Sample.data_blank_tsv Sample.world)
    !! tsv_path (with_data Sample.data_blank_tsv Sample.world) = Some Sample.tsv_blank
  ∧ input_path (with_data Sample.data_blank_tsv Sample.world) "csv"
    = Some "../data/gene_info.tsv"
  ∧ data (with_data Sample.data_blank_tsv Sample.world) !! "../data/gene_info.tsv"
    = Some Sample.tsv_blank
  ∧ has_columns column_names (table Sample.tsv_blank) = false
  ∧ ∃ e,
      (run Spark 2 "csv" (with_data Sample.data_blank_tsv Sample.world)).1 = Raised e
      ∧ results (run Spark 2 "csv" (with_data Sample.data_blank_tsv Sample.world)).2
        = results (with_data Sample.data_blank_tsv Sample.world)
      ∧ filter (λ e, is_read e = true)
          (new_events (with_data Sample.data_blank_tsv Sample.world)
             (run Spark 2 "csv" (with_data Sample.data_blank_tsv Sample.world)).2)
        = [EvRead "../data/gene_info.tsv"]
      ∧ printed
          (new_events (with_data Sample.data_blank_tsv Sample.world)
             (run Spark 2 "csv" (with_data Sample.data_blank_tsv Sample.world)).2)
        = ["Filename: " +:+ "../data/gene_info.tsv"].
Proof.
  assert (data (with_data Sample.data_blank_tsv Sample.world)
            !! tsv_path (with_data Sample.data_blank_tsv Sample.world)
          = Some Sample.tsv_blank) as Hf by done.
  assert (input_path (with_data Sample.data_blank_tsv Sample.world) "csv"
          = Some "../data/gene_info.tsv") as Hpath by done.
  assert (data (with_data Sample.data_blank_tsv Sample.world) !! "../data/gene_info.tsv"
          = Some Sample.tsv_blank) as Hfi by done.
  assert (has_columns column_names (table Sample.tsv_blank) = false) as Hcols by done.
  split; [exact Hf|]. split; [exact Hpath|]. split; [exact Hfi|]. split; [exact Hcols|].
  exact (dataset_without_a_named_column_ends_the_run Spark 2 "csv"
           (with_data Sample.data_blank_tsv Sample.world) _ _ _ Hf Hpath Hfi Hcols).
Defined.

(** * The notebook that fetches the data: the copy of the dataset *)

Section Copy.

Import Fetch.

Implicit Types (m : Files) (t c : Tree) (es : list Tree) (n : Node).

Lemma entries_paths_app p es es' :
  entries_paths p (es ++ es') = entries_paths p es ++ entries_paths p es'.
Proof.
  induction es as [|c es IH]; [done|]. simpl. change (foldr _ [] (es ++ es'))
    with (entries_paths p (es ++ es')). rewrite IH. by rewrite app_assoc.
Qed.

Lemma entries_edges_app p es es' :
  entries_edges p (es ++ es') = entries_edges p es ++ entries_edges p es'.
Proof.
  induction es as [|c es IH]; [done|]. simpl. change (foldr _ [] (es ++ es'))
    with (entries_edges p (es ++ es')). rewrite IH. by rewrite <- app_assoc.
Qed.

Lemma paths_root p t : p ∈ paths p t.
Proof. destruct t; apply list_elem_of_here. Qed.

Lemma entries_paths_elem p c es k :
  c ∈ es → k ∈ paths (Py.path_join p (name c)) c → k ∈ entries_paths p es.
Proof.
  intros Hc Hk. induction es as [|c' es IH]; [by apply elem_of_nil in Hc|].
  simpl. apply elem_of_app. apply elem_of_cons in Hc as [<-|Hc]; [by left|right; by apply IH].
Qed.

Lemma entries_paths_inv p es k :
  k ∈ entries_paths p es → ∃ c, c ∈ es ∧ k ∈ paths (Py.path_join p (name c)) c.
Proof.
  induction es as [|c es IH]; simpl; [by intros ?%elem_of_nil|].
  intros [Hk|Hk]%elem_of_app.
  - exists c. split; [apply list_elem_of_here|done].
  - destruct (IH Hk) as (c' & Hc' & Hk'). exists c'. split; [by apply list_elem_of_further|done].
Qed.

Lemma entries_edges_elem p c es e :
  c ∈ es → e ∈ edges (Py.path_join p (name c)) c → e ∈ entries_edges p es.
Proof.
  intros Hc He. induction es as [|c' es IH]; [by apply elem_of_nil in Hc|].
  simpl. apply list_elem_of_further, elem_of_app.
  apply elem_of_cons in Hc as [<-|Hc]; [by left|right; by apply IH].
Qed.

Lemma entries_edges_own p c es : c ∈ es → (p, name c) ∈ entries_edges p es.
Proof.
  intros Hc. induction es as [|c' es IH]; [by apply elem_of_nil in Hc|].
  simpl. apply elem_of_cons in Hc as [<-|Hc]; [apply list_elem_of_here|].
  apply list_elem_of_further, elem_of_app. right. by apply IH.
Qed.

Lemma entries_edges_inv p es e :
  e ∈ entries_edges p es →
  (∃ c, c ∈ es ∧ e = (p, name c)) ∨ ∃ c, c ∈ es ∧ e ∈ edges (Py.path_join p (name c)) c.
Proof.
  induction es as [|c es IH]; simpl; [by intros ?%elem_of_nil|].
  intros [->|[He|He]%elem_of_app]%elem_of_cons.
  - left. exists c. split; [apply list_elem_of_here|done].
  - right. exists c. split; [apply list_elem_of_here|done].
  - destruct (IH He) as [(c' & Hc' & ->)|(c' & Hc' & He')]; [left|right]; exists c';
      (split; [by apply list_elem_of_further|done]).
Qed.

(** An entry of a tree lies in the tree, and so does its directory. *)
Lemma edges_paths t p e :
  e ∈ edges p t → e.1 ∈ paths p t ∧ Py.path_join e.1 e.2 ∈ paths p t.
Proof.
  revert p e. induction t as [|nm es IH] using Tree_entries_ind; intros p e;
    [by intros ?%elem_of_nil|].
  change (edges p (Branch nm es)) with (entries_edges p es).
  change (paths p (Branch nm es)) with (p :: entries_paths p es).
  intros [(c & Hc & ->)|(c & Hc & He)]%entries_edges_inv; simpl.
  - split; [apply list_elem_of_here|]. apply list_elem_of_further.
    eapply entries_paths_elem; [done|apply paths_root].
  - rewrite Forall_forall in IH. destruct (IH c Hc _ _ He) as [H1 H2].
    split; apply list_elem_of_further; by eapply entries_paths_elem.
Qed.

(** A path of a tree is the root or an entry of the tree. *)
Lemma paths_edges t p q :
  q ∈ paths p t → q = p ∨ ∃ e, e ∈ edges p t ∧ q = Py.path_join e.1 e.2.
Proof.
  revert p q. induction t as [|nm es IH] using Tree_entries_ind; intros p q.
  { intros ->%list_elem_of_singleton. by left. }
  change (edges p (Branch nm es)) with (entries_edges p es).
  change (paths p (Branch nm es)) with (p :: entries_paths p es).
  intros [->|Hq]%elem_of_cons; [by left|right].
  apply entries_paths_inv in Hq as (c & Hc & Hq). rewrite Forall_forall in IH.
  destruct (IH c Hc _ _ Hq) as [->|(e & He & ->)].
  - exists (p, name c). split; [by apply entries_edges_own|done].
  - exists e. split; [by eapply entries_edges_elem|done].
Qed.

Lemma represents_branch m p nm es :
  represents m p (Branch nm es)
  ↔ m !! p = Some (Dir (name <$> es))
    ∧ Forall (λ c, represents m (Py.path_join p (name c)) c) es.
Proof. simpl. by rewrite represents_entries. Qed.

(** What a file system holds at a path is a matter of the paths of the
    tree. *)
Lemma represents_ext t m m' p :
  (∀ k, k ∈ paths p t → m' !! k = m !! k) → represents m p t → represents m' p t.
Proof.
  revert p. induction t as [nm content|nm es IH] using Tree_entries_ind; intros p Hsame.
  { simpl. intros <-. apply Hsame, list_elem_of_here. }
  rewrite !represents_branch. intros [Hdir Hes]. split.
  - rewrite <- Hdir. apply Hsame, paths_root.
  - rewrite Forall_forall in IH, Hes |- *. intros c Hc. apply IH; [done| |by apply Hes].
    intros k Hk. apply Hsame. apply list_elem_of_further. by eapply entries_paths_elem.
Qed.

Lemma represents_present t m p k : represents m p t → k ∈ paths p t → is_Some (m !! k).
Proof.
  revert p. induction t as [nm content|nm es IH] using Tree_entries_ind; intros p.
  { simpl. intros Hp ->%list_elem_of_singleton. by eexists. }
  rewrite represents_branch. intros [Hdir Hes].
  change (paths p (Branch nm es)) with (p :: entries_paths p es).
  intros [->|Hk]%elem_of_cons; [by eexists|].
  apply entries_paths_inv in Hk as (c & Hc & Hk). rewrite Forall_forall in IH, Hes.
  by eapply IH; [|apply Hes|].
Qed.

Lemma enter_id q k n : child_of q k = false → enter q k n = n.
Proof. intros Hq. destruct n as [content|names]; simpl; [done|]. by rewrite Hq. Qed.

Lemma entered_app qs qs' k n : entered (qs ++ qs') k n = entered qs' k (entered qs k n).
Proof. apply foldl_app. Qed.

Lemma entered_id qs k n : Forall (λ q, child_of q k = false) qs → entered qs k n = n.
Proof.
  revert n. induction qs as [|q qs IH]; intros n Hqs; [done|].
  apply Forall_cons in Hqs as [Hq Hqs]. simpl. rewrite enter_id by done. by apply IH.
Qed.

Lemma fmap_entered_id qs k (x : option Node) :
  Forall (λ q, child_of q k = false) qs → entered qs k <$> x = x.
Proof. intros Hqs. destruct x as [n|]; simpl; [|done]. by rewrite entered_id. Qed.

Lemma entered_file qs k n content : entered qs k n = File content ↔ n = File content.
Proof.
  revert n. induction qs as [|q qs IH]; intros n; [done|].
  simpl. by rewrite IH, enter_file.
Qed.

(** ** What [apart] gives *)

(** Of the paths of the two trees, a path of the copy is an entry of its
    own directory only. *)
Lemma apart_entry m src dst t q k :
  apart m src dst t → q ∈ paths dst t → k ∈ paths src t ++ paths dst t →
  child_of q k = true →
  ∃ e, e ∈ edges dst t ∧ q = Py.path_join e.1 e.2 ∧ k = e.1.
Proof.
  intros (_ & _ & _ & _ & Hown & _) Hq Hk Hchild.
  rewrite Forall_forall in Hown. destruct (Hown k Hk) as [Hdst Hedges].
  apply paths_edges in Hq as [->|(e & He & ->)]; [congruence|].
  rewrite Forall_forall in Hedges. destruct (Hedges e He) as [->|?]; [|congruence].
  by exists e.
Qed.

Lemma apart_disjoint m src dst t k :
  apart m src dst t → represents m src t → k ∈ paths src t → k ∉ paths dst t.
Proof.
  intros (_ & _ & Hfresh & _) Hrep Hk Hk'. rewrite Forall_forall in Hfresh.
  destruct (represents_present _ _ _ _ Hrep Hk) as [n Hn]. by rewrite (Hfresh k Hk') in Hn.
Qed.

(** The copy leaves the listings of the source alone. *)
Lemma apart_src m src dst t q k :
  apart m src dst t → represents m src t → q ∈ paths dst t → k ∈ paths src t →
  child_of q k = false.
Proof.
  intros Hapart Hrep Hq Hk. destruct (child_of q k) eqn:Hchild; [|done].
  destruct (apart_entry m src dst t q k Hapart Hq) as (e & He & _ & ->);
    [apply elem_of_app; by left|done|].
  apply edges_paths in He as [He _]. by destruct (apart_disjoint _ _ _ _ _ Hapart Hrep Hk).
Qed.

Lemma existsb_parents (f : Node → bool) q m :
  existsb f (parents q m) = true
  ↔ ∃ k n, m !! k = Some n ∧ child_of q k = true ∧ f n = true.
Proof.
  unfold parents. rewrite existsb_exists. split.
  - intros (n & Hn & Hf). apply list_elem_of_In, list_elem_of_fmap in Hn as ([k n'] & -> & Hkn).
    apply list_elem_of_filter in Hkn as [Hchild Hkn%elem_of_map_to_list]. by exists k, n'.
  - intros (k & n & Hk & Hchild & Hf). exists n. split; [|done].
    apply list_elem_of_In, list_elem_of_fmap. exists (k, n). split; [done|].
    apply list_elem_of_filter. split; [done|]. by apply elem_of_map_to_list.
Qed.

(** ** One directory of the copy *)

Section CopyEntries.

(** The directory [Branch nm es] at [src] is copied to [dst] in [m]; the
    trees below it are known to be copied well. *)
Variables (fuel : nat) (src dst : string) (m : Files) (nm : string) (es : list Tree).

Hypothesis Hspec :
  Forall (λ c, ∀ fuel src dst m,
            match c with
            | Leaf _ _ => True
            | Branch _ _ =>
                depth c ≤ fuel → represents m src c → apart m src dst c →
                ∃ m', copytree fuel src dst m = (Done (), m')
                      ∧ represents m' dst c
                      ∧ ∀ k, k ∉ paths dst c → m' !! k = entered (paths dst c) k <$> m !! k
            end) es.
Hypothesis Hdepth : Forall (λ c, depth c ≤ fuel) es.
Hypothesis Hrep : represents m src (Branch nm es).
Hypothesis Hapart : apart m src dst (Branch nm es).

Lemma dst_not_below : dst ∉ entries_paths dst es.
Proof.
  destruct Hapart as (_ & Hnd & _).
  change (paths dst (Branch nm es)) with (dst :: entries_paths dst es) in Hnd.
  by apply NoDup_cons in Hnd as [Hdst _].
Qed.

Section Step.

(** The entries [done] have been copied, [c] is next; [mi] is the file
    system so far. *)
Variables (done rest : list Tree) (c : Tree) (mi : Files).

Hypothesis Hes : es = done ++ c :: rest.
Hypothesis Hdir : mi !! dst = Some (Dir (name <$> done)).
Hypothesis Hdone : Forall (λ c', represents mi (Py.path_join dst (name c')) c') done.
Hypothesis Hframe :
  ∀ k, k ≠ dst → k ∉ entries_paths dst done →
       mi !! k = entered (dst :: entries_paths dst done) k <$> m !! k.

Lemma paths_split :
  paths dst (Branch nm es)
  = dst :: (entries_paths dst done ++ paths (Py.path_join dst (name c)) c
            ++ entries_paths dst rest).
Proof.
  change (paths dst (Branch nm es)) with (dst :: entries_paths dst es).
  by rewrite Hes, entries_paths_app.
Qed.

Lemma paths_apart :
  (dst ∉ entries_paths dst done ++ paths (Py.path_join dst (name c)) c
         ++ entries_paths dst rest)
  ∧ (∀ k, k ∈ entries_paths dst done →
          (k ∉ paths (Py.path_join dst (name c)) c) ∧ (k ∉ entries_paths dst rest))
  ∧ (∀ k, k ∈ paths (Py.path_join dst (name c)) c → k ∉ entries_paths dst rest)
  ∧ NoDup (paths (Py.path_join dst (name c)) c).
Proof.
  destruct Hapart as (_ & Hnd & _). rewrite paths_split in Hnd.
  apply NoDup_cons in Hnd as [Hdst Hnd]. apply NoDup_app in Hnd as (_ & Hd & Hnd).
  apply NoDup_app in Hnd as (Hc & Hcr & _). split; [done|]. split; [|done].
  intros k Hk. specialize (Hd k Hk). rewrite elem_of_app in Hd. tauto.
Qed.

Lemma entry_cases c' : c' ∈ es → c' ∈ done ∨ c' = c ∨ c' ∈ rest.
Proof. rewrite Hes, elem_of_app, elem_of_cons. tauto. Qed.

Lemma copy_paths k :
  k ∈ paths (Py.path_join dst (name c)) c → k ∈ paths dst (Branch nm es) ∧ k ≠ dst.
Proof.
  intros Hk. destruct paths_apart as (Hdst & _). rewrite paths_split. split.
  - apply list_elem_of_further. rewrite !elem_of_app. tauto.
  - intros ->. apply Hdst. rewrite !elem_of_app. tauto.
Qed.

Lemma done_paths k :
  k ∈ entries_paths dst done → k ∈ paths dst (Branch nm es) ∧ k ≠ dst.
Proof.
  intros Hk. destruct paths_apart as (Hdst & _). rewrite paths_split. split.
  - apply list_elem_of_further. rewrite !elem_of_app. tauto.
  - intros ->. apply Hdst. rewrite !elem_of_app. tauto.
Qed.

(** The tree below [dst] that an entry other than those of [dst] itself
    belongs to. *)
Lemma edge_below e :
  e ∈ edges dst (Branch nm es) → e.1 ≠ dst →
  ∃ c', c' ∈ es ∧ e.1 ∈ paths (Py.path_join dst (name c')) c'
        ∧ Py.path_join e.1 e.2 ∈ paths (Py.path_join dst (name c')) c'.
Proof.
  change (edges dst (Branch nm es)) with (entries_edges dst es).
  intros [(c' & Hc' & ->)|(c' & Hc' & He)]%entries_edges_inv Hne; [done|].
  exists c'. split; [done|]. by apply edges_paths.
Qed.

(** A path of the copy of [c] is no entry of a directory copied before. *)
Lemma copy_not_in_done q k :
  q ∈ paths (Py.path_join dst (name c)) c → k ∈ entries_paths dst done →
  child_of q k = false.
Proof.
  intros Hq Hk. destruct (child_of q k) eqn:Hchild; [|done].
  destruct paths_apart as (_ & Hd & Hcr & _).
  destruct (apart_entry m src dst (Branch nm es) q k Hapart) as (e & He & -> & ->);
    [by apply copy_paths|apply elem_of_app; right; by apply done_paths|done|].
  destruct (edge_below e He) as (c' & Hc' & H1 & H2); [by apply done_paths|].
  destruct (entry_cases c' Hc') as [Hin| [->|Hin]].
  - destruct (Hd (Py.path_join e.1 e.2)); [by eapply entries_paths_elem|done].
  - by destruct (Hd e.1 Hk).
  - destruct (Hd e.1 Hk) as [_ []]. by eapply entries_paths_elem.
Qed.

(** Of the paths of the copy of [c], only its root is an entry of [dst]. *)
Lemma copy_not_in_dst q :
  q ∈ paths (Py.path_join dst (name c)) c → q ≠ Py.path_join dst (name c) →
  child_of q dst = false.
Proof.
  intros Hq Hne. destruct (child_of q dst) eqn:Hchild; [|done].
  destruct paths_apart as (Hdst & Hd & Hcr & Hnd).
  destruct (apart_entry m src dst (Branch nm es) q dst Hapart) as (e & He & -> & Hdst');
    [by apply copy_paths|apply elem_of_app; right; apply paths_root|done|].
  change (edges dst (Branch nm es)) with (entries_edges dst es) in He.
  apply entries_edges_inv in He as [(c' & Hc' & ->)|(c' & Hc' & He)].
  - simpl in *. destruct (entry_cases c' Hc') as [Hin| [->|Hin]]; [|done|].
    + destruct (Hd (Py.path_join dst (name c'))); [|done].
      eapply entries_paths_elem; [done|apply paths_root].
    + destruct (Hcr _ Hq). eapply entries_paths_elem; [done|apply paths_root].
  - apply edges_paths in He as [He _]. rewrite <- Hdst' in He.
    destruct dst_not_below. by eapply entries_paths_elem.
Qed.

Lemma paths_cons p t : ∃ l, paths p t = p :: l.
Proof. destruct t; by eexists. Qed.

Lemma entry_proper :
  name c ≠ "" ∧ basename (Py.path_join dst (name c)) = name c
  ∧ child_of (Py.path_join dst (name c)) dst = true.
Proof.
  destruct Hapart as (_ & _ & _ & Hproper & _). rewrite Forall_forall in Hproper.
  destruct (Hproper (dst, name c)) as [Hne Hbase].
  { apply entries_edges_own. rewrite Hes. apply elem_of_app. right. apply list_elem_of_here. }
  simpl in *. split; [done|]. split; [done|].
  unfold child_of. apply bool_decide_eq_true. by rewrite Hbase.
Qed.

Lemma name_new : name c ∉ name <$> done.
Proof.
  intros (c' & Hname & Hc')%list_elem_of_fmap. destruct paths_apart as (_ & Hd & _).
  destruct (Hd (Py.path_join dst (name c))) as [Hin _].
  - rewrite Hname. eapply entries_paths_elem; [done|apply paths_root].
  - apply Hin, paths_root.
Qed.

Lemma fresh_now k : k ∈ paths (Py.path_join dst (name c)) c → mi !! k = None.
Proof.
  intros Hk. destruct (copy_paths k Hk) as [Hin Hne]. destruct paths_apart as (_ & Hd & _).
  rewrite Hframe; [|done|intros Hk'; by destruct (Hd k Hk')].
  destruct Hapart as (_ & _ & Hfresh & _). rewrite Forall_forall in Hfresh.
  by rewrite (Hfresh k Hin).
Qed.

Lemma src_paths k : k ∈ paths (Py.path_join src (name c)) c → k ∈ paths src (Branch nm es).
Proof.
  intros Hk. apply list_elem_of_further. eapply entries_paths_elem; [|done].
  rewrite Hes. apply elem_of_app. right. apply list_elem_of_here.
Qed.

Lemma src_now k : k ∈ paths (Py.path_join src (name c)) c → mi !! k = m !! k.
Proof.
  intros Hk%src_paths. pose proof (apart_disjoint _ _ _ _ _ Hapart Hrep Hk) as Hout.
  rewrite Hframe.
  - apply fmap_entered_id. apply Forall_cons. split.
    + apply (apart_src m src dst (Branch nm es)); [done..|apply paths_root|done].
    + apply Forall_forall. intros q Hq.
      apply (apart_src m src dst (Branch nm es)); [done..| |done]. by apply done_paths.
  - intros ->. apply Hout, paths_root.
  - intros Hk'. by apply Hout, done_paths.
Qed.

Lemma src_represented : represents mi (Py.path_join src (name c)) c.
Proof.
  apply (represents_ext c m); [apply src_now|].
  apply represents_branch in Hrep as [_ Hall]. rewrite Forall_forall in Hall.
  apply Hall. rewrite Hes. apply elem_of_app. right. apply list_elem_of_here.
Qed.

(** No regular file is where a directory of the copy of [c] would have to
    be. *)
Lemma no_file_above q k n :
  q ∈ paths (Py.path_join dst (name c)) c → mi !! k = Some n → is_file n = true →
  child_of q k = false.
Proof.
  intros Hq Hk Hn. destruct (decide (k = dst)) as [->|Hne].
  { rewrite Hdir in Hk. by injection Hk as <-. }
  destruct (decide (k ∈ entries_paths dst done)) as [Hin|Hout];
    [by apply copy_not_in_done|].
  rewrite Hframe in Hk by done. apply fmap_Some in Hk as (n0 & Hk & ->).
  destruct (entered (dst :: entries_paths dst done) k n0) as [content|] eqn:E; [|done].
  apply entered_file in E as ->.
  destruct Hapart as (_ & _ & _ & _ & _ & Hfiles).
  specialize (Hfiles k _ Hk eq_refl). rewrite Forall_forall in Hfiles.
  by apply Hfiles, copy_paths.
Qed.

(** However [c] was copied: if the copy is there and nothing else has
    changed but the listings, the next entry can be copied. *)
Lemma step_done m' :
  represents m' (Py.path_join dst (name c)) c →
  (∀ k, k ∉ paths (Py.path_join dst (name c)) c →
        m' !! k = entered (paths (Py.path_join dst (name c)) c) k <$> mi !! k) →
  m' !! dst = Some (Dir (name <$> (done ++ [c])))
  ∧ Forall (λ c', represents m' (Py.path_join dst (name c')) c') (done ++ [c])
  ∧ ∀ k, k ≠ dst → k ∉ entries_paths dst (done ++ [c]) →
         m' !! k = entered (dst :: entries_paths dst (done ++ [c])) k <$> m !! k.
Proof.
  intros Hcopy Hlocal. destruct paths_apart as (_ & Hd & _ & Hnd).
  destruct entry_proper as (Hne & Hbase & Hchild). split; [|split].
  - rewrite Hlocal by (intros Hin; by apply copy_paths in Hin as [_ []]).
    rewrite Hdir. simpl. f_equal. destruct (paths_cons (Py.path_join dst (name c)) c) as [l E].
    rewrite E in Hnd |- *. apply NoDup_cons in Hnd as [Hroot _]. simpl.
    rewrite Hchild, Hbase, bool_decide_true by apply name_new. simpl.
    rewrite entered_id; [by rewrite fmap_app|].
    apply Forall_forall. intros q Hq. apply copy_not_in_dst.
    + rewrite E. by apply list_elem_of_further.
    + by intros ->.
  - apply Forall_app. split; [|by apply Forall_singleton].
    rewrite Forall_forall in Hdone |- *. intros c' Hc'.
    apply (represents_ext c' mi); [|by apply Hdone].
    intros k Hk. assert (k ∈ entries_paths dst done) as Hin by by eapply entries_paths_elem.
    rewrite Hlocal by by apply Hd.
    apply fmap_entered_id, Forall_forall. intros q Hq. by apply copy_not_in_done.
  - intros k Hne' Hout. rewrite entries_paths_app in Hout |- *. simpl in Hout |- *.
    rewrite app_nil_r in Hout |- *. rewrite elem_of_app in Hout.
    rewrite Hlocal by tauto. rewrite Hframe by tauto.
    rewrite <- option_fmap_compose. apply option_fmap_ext. intros n. simpl.
    change (enter dst k n) with (entered [dst] k n).
    by rewrite <- !entered_app.
Qed.

Lemma c_entry : c ∈ es.
Proof. rewrite Hes. apply elem_of_app. right. apply list_elem_of_here. Qed.

(** A regular file is copied by [copy2]. *)
Lemma step_leaf nm' content :
  c = Leaf nm' content →
  ∃ m',
    copy_entry (copytree fuel) src dst (Done [], mi)
      (name c, is_dir m (Py.path_join src (name c)))
    = (Done [], m')
    ∧ represents m' (Py.path_join dst (name c)) c
    ∧ ∀ k, k ∉ paths (Py.path_join dst (name c)) c →
           m' !! k = entered (paths (Py.path_join dst (name c)) c) k <$> mi !! k.
Proof.
  intros Hc. pose proof src_represented as Hsrc. pose proof (src_now _ (paths_root _ c)) as Hm.
  pose proof (fresh_now _ (paths_root _ c)) as Hfresh.
  pose proof (no_file_above (Py.path_join dst (name c))) as Hfiles.
  destruct entry_proper as (_ & _ & Hchild). rewrite Hc in *. simpl in *.
  eexists. split; [|split].
  - unfold copy_entry. simpl. unfold is_dir. rewrite <- Hm, Hsrc, Hfresh.
    unfold open_wb. rewrite Hfresh.
    destruct (existsb is_file _) eqn:Hfile.
    { apply existsb_parents in Hfile as (k & n & Hk & Hck & Hn).
      rewrite (Hfiles k n) in Hck; [done|apply list_elem_of_here|done..]. }
    destruct (existsb is_directory _) eqn:Hparent; [done|].
    assert (existsb is_directory (parents (Py.path_join dst nm') mi) = true) as E; [|congruence].
    apply existsb_parents. by exists dst, (Dir (name <$> done)).
  - by rewrite lookup_insert_eq.
  - intros k Hk. rewrite list_elem_of_singleton in Hk.
    rewrite lookup_insert_ne by done. rewrite lookup_place. by rewrite decide_False.
Qed.

(** What the copy of a directory below [dst] meets. *)
Lemma sub_apart : apart mi (Py.path_join src (name c)) (Py.path_join dst (name c)) c.
Proof.
  destruct entry_proper as (Hne & Hbase & _). destruct paths_apart as (_ & _ & _ & Hnd).
  pose proof Hapart as (_ & _ & _ & Hproper & Hown & _).
  rewrite Forall_forall in Hproper. rewrite Forall_forall in Hown.
  split; [|split; [done|split; [|split; [|split]]]].
  - intros E. rewrite E in Hbase. by rewrite <- Hbase in Hne.
  - apply Forall_forall. apply fresh_now.
  - apply Forall_forall. intros e He. apply Hproper.
    eapply entries_edges_elem; [apply c_entry|done].
  - apply Forall_forall. intros k Hk.
    assert (k ∈ paths src (Branch nm es) ++ paths dst (Branch nm es) ∧ k ≠ dst) as [Hin Hkd].
    { apply elem_of_app in Hk as [Hk|Hk].
      - split; [apply elem_of_app; left; by apply src_paths|].
        intros ->. apply src_paths in Hk.
        apply (apart_disjoint _ _ _ _ _ Hapart Hrep Hk), paths_root.
      - split; [apply elem_of_app; right|]; by apply copy_paths. }
    destruct (Hown k Hin) as [_ Hedges]. rewrite Forall_forall in Hedges. split.
    + destruct (Hedges (dst, name c)) as [?|?]; [|done..].
      apply entries_edges_own, c_entry.
    + apply Forall_forall. intros e He. apply Hedges.
      eapply entries_edges_elem; [apply c_entry|done].
  - intros k n Hk Hn. apply Forall_forall. intros q Hq. by eapply no_file_above.
Qed.

(** A directory is copied by [copytree]. *)
Lemma step_branch nm' sub :
  c = Branch nm' sub →
  ∃ m',
    copy_entry (copytree fuel) src dst (Done [], mi)
      (name c, is_dir m (Py.path_join src (name c)))
    = (Done [], m')
    ∧ represents m' (Py.path_join dst (name c)) c
    ∧ ∀ k, k ∉ paths (Py.path_join dst (name c)) c →
           m' !! k = entered (paths (Py.path_join dst (name c)) c) k <$> mi !! k.
Proof.
  intros Hc. pose proof src_represented as Hsrc. pose proof sub_apart as Hsub.
  pose proof (src_now _ (paths_root _ c)) as Hm.
  rewrite Forall_forall in Hspec. rewrite Forall_forall in Hdepth.
  pose proof (Hspec c c_entry fuel (Py.path_join src (name c)) (Py.path_join dst (name c)) mi)
    as Hcopy.
  pose proof (Hdepth c c_entry) as Hdc. rewrite Hc in *.
  destruct (Hcopy Hdc Hsrc Hsub) as (m' & Hrun & Hrest).
  exists m'. split; [|done].
  unfold copy_entry. cbn [fst snd name] in *. unfold is_dir at 1. rewrite <- Hm.
  destruct Hsrc as [-> _]. by rewrite Hrun.
Qed.

End Step.

(** The loop over the entries of the directory. *)
Lemma copy_entries rest :
  ∀ done mi,
    es = done ++ rest →
    mi !! dst = Some (Dir (name <$> done)) →
    Forall (λ c, represents mi (Py.path_join dst (name c)) c) done →
    (∀ k, k ≠ dst → k ∉ entries_paths dst done →
          mi !! k = entered (dst :: entries_paths dst done) k <$> m !! k) →
    ∃ m',
      foldl (copy_entry (copytree fuel) src dst) (Done [], mi)
        ((λ name, (name, is_dir m (Py.path_join src name))) <$> (name <$> rest))
      = (Done [], m')
      ∧ m' !! dst = Some (Dir (name <$> es))
      ∧ Forall (λ c, represents m' (Py.path_join dst (name c)) c) es
      ∧ ∀ k, k ≠ dst → k ∉ entries_paths dst es →
             m' !! k = entered (dst :: entries_paths dst es) k <$> m !! k.
Proof.
  induction rest as [|c rest IH]; intros done mi Hes Hdir Hdone Hframe.
  { rewrite app_nil_r in Hes. subst done. by exists mi. }
  assert (∃ m1,
            copy_entry (copytree fuel) src dst (Done [], mi)
              (name c, is_dir m (Py.path_join src (name c)))
            = (Done [], m1)
            ∧ represents m1 (Py.path_join dst (name c)) c
            ∧ ∀ k, k ∉ paths (Py.path_join dst (name c)) c →
                   m1 !! k = entered (paths (Py.path_join dst (name c)) c) k <$> mi !! k)
    as (m1 & Hstep & Hcopy & Hlocal).
  { destruct c as [nm' content|nm' sub].
    - by eapply step_leaf.
    - by eapply step_branch. }
  destruct (step_done done rest c mi Hes Hdir Hdone Hframe m1 Hcopy Hlocal)
    as (Hdir1 & Hdone1 & Hframe1).
  destruct (IH (done ++ [c]) m1) as (m' & Hfold & Hrest); [by rewrite <- app_assoc|done..|].
  exists m'. split; [|done]. rewrite !fmap_cons. cbn [foldl]. by rewrite Hstep.
Qed.

End CopyEntries.

(** [copytree] copies a directory tree, if the copy meets nothing on its
    way: it returns, the tree is at [dst], and what was there before is
    as it was, but for the listings of the directories that the paths of the
    copy are entries of. *)
Lemma copytree_copies t fuel src dst m :
  match t with
  | Leaf _ _ => True
  | Branch _ _ =>
      depth t ≤ fuel → represents m src t → apart m src dst t →
      ∃ m', copytree fuel src dst m = (Done (), m')
            ∧ represents m' dst t
            ∧ ∀ k, k ∉ paths dst t → m' !! k = entered (paths dst t) k <$> m !! k
  end.
Proof.
  revert fuel src dst m. induction t as [|nm es IH] using Tree_entries_ind; [done|].
  intros fuel src dst m Hdepth Hrep Hapart.
  destruct fuel as [|fuel]; [simpl in Hdepth; lia|].
  simpl in Hdepth. apply le_S_n, depth_entries in Hdepth.
  pose proof Hapart as (Hdst & _ & Hfresh & _ & _ & Hfiles).
  rewrite Forall_forall in Hfresh. pose proof (Hfresh dst (paths_root _ _)) as Hnew.
  destruct (copy_entries fuel src dst m nm es IH Hdepth Hrep Hapart es [] (place dst (Dir []) m))
    as (m' & Hfold & Hdir & Hall & Hframe).
  - done.
  - rewrite lookup_place. by rewrite decide_True.
  - done.
  - intros k Hk _. rewrite lookup_place. by rewrite decide_False.
  - exists m'. split; [|split].
    + simpl. destruct Hrep as [-> _]. unfold makedirs. rewrite Hnew.
      rewrite decide_False by done.
      destruct (existsb is_file _) eqn:Hfile.
      { apply existsb_parents in Hfile as (k & n & Hk & Hck & Hn).
        specialize (Hfiles k n Hk Hn). rewrite Forall_forall in Hfiles.
        by rewrite (Hfiles dst (paths_root _ (Branch nm es))) in Hck. }
      by rewrite Hfold.
    + by apply represents_branch.
    + intros k Hk. change (paths dst (Branch nm es)) with (dst :: entries_paths dst es) in *.
      apply not_elem_of_cons in Hk as [Hne Hk]. by apply Hframe.
Qed.

End Copy.



(** * The notebook that fetches the data: a run that returns *)

Section Basename.

Import Fetch.

Lemma basename_plain b : occurs "/" b = false → basename b = b.
Proof.
  destruct b as [|c b]; [done|]. simpl. intros [Hc Hb]%orb_false_iff.
  by rewrite Hb, Hc.
Qed.

Lemma basename_after_slash p b : occurs "/" b = false → basename (p +:+ "/" +:+ b) = b.
Proof.
  intros Hb. induction p as [|c p IH].
  - change ("" +:+ "/" +:+ b) with (String "/" b). simpl. by rewrite Hb.
  - rewrite string_app_cons. simpl. rewrite occurs_app. simpl. by rewrite orb_true_r.
Qed.

Lemma ends_with_slash a :
  String.get (String.length a - 1) a = Some "/"%char → ∃ p, a = p +:+ "/".
Proof.
  induction a as [|c a IH]; [done|]. destruct a as [|c' a].
  - simpl. intros [= ->]. by exists "".
  - intros Hget. destruct IH as [p ->].
    + simpl in Hget |- *. by rewrite Nat.sub_0_r in *.
    + by exists (String c p).
Qed.

(** The name that a path was joined with is its base name. *)
Lemma basename_join a b :
  b ≠ "" → occurs "/" b = false → basename (Py.path_join a b) = b.
Proof.
  intros Hne Hb. unfold Py.path_join.
  assert (String.prefix "/" b = false) as ->.
  { destruct b as [|c b]; [done|]. simpl in Hb. apply orb_false_iff in Hb as [Hc _].
    change (String.prefix "/" (String c b))
      with (if ascii_dec "/" c then String.prefix "" b else false).
    destruct (ascii_dec "/" c) as [<-|]; [|done]. by rewrite bool_decide_true in Hc. }
  destruct (decide (a = "")); [by apply basename_plain|].
  destruct (decide _) as [Hend|_]; [|by apply basename_after_slash].
  apply ends_with_slash in Hend as [p ->]. rewrite string_app_assoc.
  by apply basename_after_slash.
Qed.

Lemma tsv_out_in_data_dir dir : child_of (Py.path_join dir "gene_info.tsv") dir = true.
Proof.
  unfold child_of. apply bool_decide_eq_true. by rewrite basename_join.
Qed.

Lemma data_dir_not_tsv_out dir : dir ≠ Py.path_join dir "gene_info.tsv".
Proof.
  intros E. pose proof (path_join_longer dir "gene_info.tsv") as Hlen.
  rewrite <- E in Hlen. specialize (Hlen ltac:(done) ltac:(done)). lia.
Qed.

End Basename.

Section FetchGood.

Import Fetch.

Implicit Types (m : Files) (d : Disk).

Lemma lookup_place_id path n m k :
  k ≠ path → child_of path k = false → place path n m !! k = m !! k.
Proof.
  intros Hk Hchild. rewrite lookup_place, decide_False by done.
  destruct (m !! k) as [n'|]; [|done]. simpl. by rewrite enter_id.
Qed.

Lemma is_dir_place path n m k : k ≠ path → is_dir (place path n m) k = is_dir m k.
Proof.
  intros Hk. unfold is_dir. rewrite lookup_place, decide_False by done.
  destruct (m !! k) as [[content|names]|]; simpl; [done| |done].
  by destruct (child_of path k && bool_decide (basename path ∉ names)).
Qed.

(** The setup cell on a disk whose data directory is there or can be
    made. *)
Lemma setup_ready m dir :
  is_dir m dir = true
  ∨ m !! dir = None ∧ dir ≠ "" ∧ existsb is_file (parents dir m) = false →
  ∃ m1,
    makedirs_exist_ok dir m = inr m1
    ∧ is_dir m1 dir = true
    ∧ (∀ k, k ≠ dir → child_of dir k = false → m1 !! k = m !! k)
    ∧ (∀ k, k ≠ dir → is_dir m1 k = is_dir m k)
    ∧ (∀ k, k ≠ dir → m1 !! k = None ↔ m !! k = None)
    ∧ (∀ k content, m1 !! k = Some (File content) ↔ m !! k = Some (File content)).
Proof.
  unfold makedirs_exist_ok, is_dir.
  intros [Hdir|(Hnew & Hne & Hfiles)].
  - destruct (m !! dir) as [[content|names]|] eqn:E; [done| |done].
    exists m. unfold is_dir. by rewrite E.
  - rewrite Hnew, decide_False, Hfiles by done. eexists. split; [done|].
    split; [by rewrite lookup_place, decide_True|].
    split; [intros k ??; by apply lookup_place_id|].
    split; [intros k ?; by apply (is_dir_place dir (Dir []) m k)|].
    split; [intros k ?; by apply place_other|].
    intros k content. destruct (decide (k = dir)) as [->|Hk]; [|by apply place_other].
    rewrite lookup_place, decide_True, Hnew by done. split; intros [=].
Qed.

(** Opening the output of [unzip] below a directory that is there. *)
Lemma open_ready m path dir :
  is_dir m path = false → existsb is_file (parents path m) = false →
  is_dir m dir = true → child_of path dir = true →
  ∃ m2,
    open_wb path m = inr m2
    ∧ (∀ k, k ≠ path → child_of path k = false → m2 !! k = m !! k)
    ∧ (∀ k, k ≠ path → m2 !! k = None ↔ m !! k = None)
    ∧ (∀ k content, k ≠ path → m2 !! k = Some (File content) ↔ m !! k = Some (File content)).
Proof.
  unfold open_wb, is_dir. intros Hpath Hfiles Hdir Hchild.
  destruct (m !! path) as [[content|names]|] eqn:E; [|done|].
  - eexists. split; [done|].
    split; [intros k ? _; by rewrite lookup_insert_ne|].
    split; [intros k ?; by rewrite lookup_insert_ne|].
    intros k c ?. by rewrite lookup_insert_ne.
  - rewrite Hfiles.
    assert (existsb is_directory (parents path m) = true) as ->.
    { apply existsb_parents. destruct (m !! dir) as [[|names]|] eqn:E'; [done| |done].
      by exists dir, (Dir names). }
    eexists. split; [done|].
    split; [intros k ??; by apply lookup_place_id|].
    split; intros; by apply place_other.
Qed.

Variable dir_size : string → N.
Variable gunzip : list Byte.byte → list Byte.byte * option string.


End FetchGood.

